(** * webgpu-globe: the geometry editing and clipping engine of [src/app.js]

    A shallow embedding of the methods of class [WebGPUGlobe] that mutate
    the shell meshes (brush sculpting, polygon transforms, plane solving,
    material and geometry clipping, restoration, layer fan-out, segment
    inputs, smoothing, the polygon painter, the mouse listeners and the
    size sliders), followed by the properties the specification states
    about them and by further properties read off the code.

    Conventions.
    - The object [this] is the record [App]; a method is a function from
      [App] to [App] (or to [option App] where the JavaScript can throw).
      The record [Editor] adds the fields of the input modes and of the
      painter, with [App] in its field [globe].
    - JavaScript numbers are kept abstract behind the class [Number].  Two
      implementations are given: IEEE binary64 ([float], what the program
      runs on) and the real numbers ([R], the idealisation used for the
      properties that are about algebra).  Every theorem that does not mention
      an instance holds for both.
    - Objects of the three.js library (Vector3, Matrix4, Plane,
      BufferGeometry, Mesh, materials) are library code, not code of this
      repository; their methods are written out after the library's
      documented behaviour in the module [THREE]. *)

From Stdlib Require Import ZArith Reals Lra Lia PrimFloat.
From Stdlib Require Import String.
From stdpp Require Import gmap strings list.

Local Open Scope string_scope.
Local Open Scope list_scope.

(** ** Numbers *)

(** The arithmetic the program uses on JavaScript numbers.  [fltb x y] is
    [x < y], [feqb x y] is [x === y]; [x > y] is written [fltb y x]. *)
Class Number (F : Type) := {
  fofZ : Z -> F;
  fadd : F -> F -> F;
  fsub : F -> F -> F;
  fmul : F -> F -> F;
  fdiv : F -> F -> F;
  fneg : F -> F;
  fsqrt : F -> F;
  fabs : F -> F;
  fltb : F -> F -> bool;
  feqb : F -> F -> bool
}.

(** [Math.PI], [Math.cos] and [Math.sin]. *)
Class Trig (F : Type) := {
  fPI : F;
  fcos : F -> F;
  fsin : F -> F
}.

Declare Scope js_scope.
Delimit Scope js_scope with js.
Infix "+" := fadd : js_scope.
Infix "-" := fsub : js_scope.
Infix "*" := fmul : js_scope.
Infix "/" := fdiv : js_scope.
Notation "- x" := (fneg x) : js_scope.
Notation "x <? y" := (fltb x y) : js_scope.
Notation "x >? y" := (fltb y x) : js_scope.

(** A numeric literal with an integer value. *)
Definition lit {F} `{Number F} (z : Z) : F := fofZ z.

(** The literal [0.001]: the quotient of two exactly represented integers,
    which a correctly rounded division maps to the same binary64 value as
    the decimal literal. *)
Definition lit_0_001 {F} `{Number F} : F := (lit 1 / lit 1000)%js.

(** ToBoolean on a number: [0], [-0] and [NaN] are falsy. *)
Definition truthy {F} `{Number F} (x : F) : bool :=
  negb (feqb x (lit 0)) && feqb x x.

(** [a || b] on numbers. *)
Definition or_else {F} `{Number F} (a b : F) : F :=
  if truthy a then a else b.

(** *** IEEE binary64 *)

Fixpoint float_of_pos (p : positive) : float :=
  match p with
  | xH => 1%float
  | xO q => PrimFloat.mul 2%float (float_of_pos q)
  | xI q => PrimFloat.add (PrimFloat.mul 2%float (float_of_pos q)) 1%float
  end.

Definition float_of_Z (z : Z) : float :=
  match z with
  | Z0 => 0%float
  | Zpos p => float_of_pos p
  | Zneg p => PrimFloat.opp (float_of_pos p)
  end.

#[export] Instance float_Number : Number float := {
  fofZ := float_of_Z;
  fadd := PrimFloat.add;
  fsub := PrimFloat.sub;
  fmul := PrimFloat.mul;
  fdiv := PrimFloat.div;
  fneg := PrimFloat.opp;
  fsqrt := PrimFloat.sqrt;
  fabs := PrimFloat.abs;
  fltb := PrimFloat.ltb;
  feqb := PrimFloat.eqb
}.

(** *** Real numbers *)

Definition Rltb (x y : R) : bool := if Rlt_dec x y then true else false.
Definition Reqb (x y : R) : bool := if Req_dec_T x y then true else false.

#[export] Instance R_Number : Number R := {
  fofZ := IZR;
  fadd := Rplus;
  fsub := Rminus;
  fmul := Rmult;
  fdiv := Rdiv;
  fneg := Ropp;
  fsqrt := R_sqrt.sqrt;
  fabs := Rabs;
  fltb := Rltb;
  feqb := Reqb
}.

#[export] Instance R_Trig : Trig R := {
  fPI := PI;
  fcos := cos;
  fsin := sin
}.

(** ** The three.js objects the program manipulates *)

Module THREE.

Section Objects.
Context {F : Type} `{Number F}.

(** [THREE.Vector3]: fields [x], [y], [z]. *)
Record Vector3 := mkVector3 { vx : F; vy : F; vz : F }.

(** [a.clone().sub(b)] *)
Definition sub (a b : Vector3) : Vector3 :=
  mkVector3 (vx a - vx b)%js (vy a - vy b)%js (vz a - vz b)%js.

(** [a.add(b)] *)
Definition add (a b : Vector3) : Vector3 :=
  mkVector3 (vx a + vx b)%js (vy a + vy b)%js (vz a + vz b)%js.

(** [a.cross(b)] *)
Definition cross (a b : Vector3) : Vector3 :=
  mkVector3 (vy a * vz b - vz a * vy b)%js
            (vz a * vx b - vx a * vz b)%js
            (vx a * vy b - vy a * vx b)%js.

(** [a.dot(b)] *)
Definition dot (a b : Vector3) : F :=
  (vx a * vx b + vy a * vy b + vz a * vz b)%js.

(** [a.multiplyScalar(s)] *)
Definition multiplyScalar (a : Vector3) (s : F) : Vector3 :=
  mkVector3 (vx a * s)%js (vy a * s)%js (vz a * s)%js.

(** [a.divideScalar(s)], which three.js defines as
    [multiplyScalar(1 / s)]. *)
Definition divideScalar (a : Vector3) (s : F) : Vector3 :=
  multiplyScalar a (lit 1 / s)%js.

(** [a.length()] *)
Definition length (a : Vector3) : F :=
  fsqrt (vx a * vx a + vy a * vy a + vz a * vz a)%js.

(** [a.normalize()], which three.js defines as
    [divideScalar(length() || 1)]: the zero vector stays the zero
    vector. *)
Definition normalize (a : Vector3) : Vector3 :=
  divideScalar a (or_else (length a) (lit 1)).

(** [a.distanceTo(b)] *)
Definition distanceTo (a b : Vector3) : F :=
  let dx := (vx a - vx b)%js in
  let dy := (vy a - vy b)%js in
  let dz := (vz a - vz b)%js in
  fsqrt (dx * dx + dy * dy + dz * dz)%js.

(** [THREE.Matrix4], with the entries named as the arguments of
    [Matrix4.set] (row by row). *)
Record Matrix4 := mkMatrix4 {
  n11 : F; n12 : F; n13 : F; n14 : F;
  n21 : F; n22 : F; n23 : F; n24 : F;
  n31 : F; n32 : F; n33 : F; n34 : F;
  n41 : F; n42 : F; n43 : F; n44 : F
  }.

(** [new THREE.Matrix4()] is the identity. *)
Definition identity : Matrix4 :=
  mkMatrix4 (lit 1) (lit 0) (lit 0) (lit 0)
            (lit 0) (lit 1) (lit 0) (lit 0)
            (lit 0) (lit 0) (lit 1) (lit 0)
            (lit 0) (lit 0) (lit 0) (lit 1).

(** [v.applyMatrix4(m)]: the product with the perspective divide. *)
Definition applyMatrix4 (v : Vector3) (m : Matrix4) : Vector3 :=
  let w := (lit 1 / (n41 m * vx v + n42 m * vy v + n43 m * vz v + n44 m))%js in
  mkVector3 ((n11 m * vx v + n12 m * vy v + n13 m * vz v + n14 m) * w)%js
            ((n21 m * vx v + n22 m * vy v + n23 m * vz v + n24 m) * w)%js
            ((n31 m * vx v + n32 m * vy v + n33 m * vz v + n34 m) * w)%js.

Section Rotations.
Context `{Trig F}.

(** [m.makeRotationX(theta)] *)
Definition makeRotationX (theta : F) : Matrix4 :=
    let c := fcos theta in
    let s := fsin theta in
    mkMatrix4 (lit 1) (lit 0) (lit 0) (lit 0)
              (lit 0) c (- s)%js (lit 0)
              (lit 0) s c (lit 0)
              (lit 0) (lit 0) (lit 0) (lit 1).

(** [m.makeRotationY(theta)] *)
Definition makeRotationY (theta : F) : Matrix4 :=
    let c := fcos theta in
    let s := fsin theta in
    mkMatrix4 c (lit 0) s (lit 0)
              (lit 0) (lit 1) (lit 0) (lit 0)
              (- s)%js (lit 0) c (lit 0)
              (lit 0) (lit 0) (lit 0) (lit 1).

(** [m.makeRotationZ(theta)] *)
Definition makeRotationZ (theta : F) : Matrix4 :=
    let c := fcos theta in
    let s := fsin theta in
    mkMatrix4 c (- s)%js (lit 0) (lit 0)
              s c (lit 0) (lit 0)
              (lit 0) (lit 0) (lit 1) (lit 0)
              (lit 0) (lit 0) (lit 0) (lit 1).
End Rotations.

(** [THREE.Plane]: [normal] and [constant]. *)
Record Plane := mkPlane { normal : Vector3; constant : F }.

(** [THREE.BufferGeometry].  The [position] attribute has item size 3:
    element [k] of the list stands for the slots [3k], [3k+1], [3k+2] of
    the underlying array.  [index] is the flat index array, [None] for a
    geometry without one. *)
Record BufferGeometry := mkBufferGeometry {
  position : list Vector3;
  index : option (list nat)
  }.

(** [g.clone()]: a fresh geometry with copies of both buffers. *)
Definition clone (g : BufferGeometry) : BufferGeometry :=
  mkBufferGeometry (position g) (index g).

(** The part of a material that clipping touches.  [clippingPlanes] is
    [null] on a new material. *)
Record Material := mkMaterial {
  clippingPlanes : option (list Plane);
  clipIntersection : bool
  }.

(** [THREE.Mesh]. *)
Record Mesh := mkMesh {
  uuid : string;
  geometry : BufferGeometry;
  material : Material;
  visible : bool
  }.

Definition setGeometry (m : Mesh) (g : BufferGeometry) : Mesh :=
  mkMesh (uuid m) g (material m) (visible m).

Definition setMaterial (m : Mesh) (mat : Material) : Mesh :=
  mkMesh (uuid m) (geometry m) mat (visible m).

Definition setVisible (m : Mesh) (b : bool) : Mesh :=
  mkMesh (uuid m) (geometry m) (material m) b.

End Objects.

Arguments Vector3 F : clear implicits.
Arguments Matrix4 F : clear implicits.
Arguments Plane F : clear implicits.
Arguments BufferGeometry F : clear implicits.
Arguments Material F : clear implicits.
Arguments Mesh F : clear implicits.

End THREE.

(** ** The application object *)

(** The three shell layers; [layerOfName] is the [switch (targetLayer)] of
    the methods that take a layer name. *)
Inductive Layer := Crust | Mantle | Core.

Definition layerOfName (targetLayer : string) : option Layer :=
  if String.eqb targetLayer "crust" then Some Crust
  else if String.eqb targetLayer "mantle" then Some Mantle
  else if String.eqb targetLayer "core" then Some Core
  else None.

Definition layerName (l : Layer) : string :=
  match l with Crust => "crust" | Mantle => "mantle" | Core => "core" end.

#[export] Instance Layer_eq_dec : EqDecision Layer.
Proof. solve_decision. Defined.

Section Application.
Context {F : Type} `{Number F}.

(** The value [{ normal, d }] returned by [calculateClippingPlane]. *)
Record ClippingPlane := mkClippingPlane {
  cp_normal : THREE.Vector3 F;
  cp_d : F
}.

(** An entry [{ normal, d, direction }] of [this.clippingPlanes[uuid]]. *)
Record StoredPlane := mkStoredPlane {
  sp_normal : THREE.Vector3 F;
  sp_d : F;
  sp_direction : string
}.

(** The fields of [this] that the modelled methods read or write.
    [this.terrain] is not a field of its own: [createEarthLayers] sets it
    to the object [this.crust] and nothing reassigns either, so the
    terrain is the crust.  [clipCrust], [clipMantle] and [clipCore] are
    the [checked] states of the three enrolment checkboxes of the page. *)
Record App := mkApp {
  renderer_isWebGPURenderer : bool;
  crust : option (THREE.Mesh F);
  mantle : option (THREE.Mesh F);
  core : option (THREE.Mesh F);
  originalGeometries : gmap string (THREE.BufferGeometry F);
  clippingPlanes : gmap string (list StoredPlane);
  clippingDirection : string;
  realtimeClipping : bool;
  clippingPolygon : option (list (THREE.Vector3 F));
  originalPolygonPoints : option (list (THREE.Vector3 F));
  clipCrust : bool;
  clipMantle : bool;
  clipCore : bool;
  polygonAxis : string;
  polygonPosition : F;
  polygonRotationAxis : string;
  polygonRotation : F;
  brushSize : F;
  mode : string;
  intensity : F
}.

Definition getLayer (s : App) (l : Layer) : option (THREE.Mesh F) :=
  match l with Crust => crust s | Mantle => mantle s | Core => core s end.

Definition terrain (s : App) : option (THREE.Mesh F) := crust s.

(** Field assignments. *)
Definition setLayer (l : Layer) (m : THREE.Mesh F) (s : App) : App :=
  mkApp (renderer_isWebGPURenderer s)
    (match l with Crust => Some m | _ => crust s end)
    (match l with Mantle => Some m | _ => mantle s end)
    (match l with Core => Some m | _ => core s end)
    (originalGeometries s) (clippingPlanes s) (clippingDirection s)
    (realtimeClipping s) (clippingPolygon s) (originalPolygonPoints s)
    (clipCrust s) (clipMantle s) (clipCore s)
    (polygonAxis s) (polygonPosition s) (polygonRotationAxis s)
    (polygonRotation s) (brushSize s) (mode s) (intensity s).

Definition set_originalGeometries
    (og : gmap string (THREE.BufferGeometry F)) (s : App) : App :=
  mkApp (renderer_isWebGPURenderer s) (crust s) (mantle s) (core s)
    og (clippingPlanes s) (clippingDirection s)
    (realtimeClipping s) (clippingPolygon s) (originalPolygonPoints s)
    (clipCrust s) (clipMantle s) (clipCore s)
    (polygonAxis s) (polygonPosition s) (polygonRotationAxis s)
    (polygonRotation s) (brushSize s) (mode s) (intensity s).

Definition set_clippingPlanes
    (cps : gmap string (list StoredPlane)) (s : App) : App :=
  mkApp (renderer_isWebGPURenderer s) (crust s) (mantle s) (core s)
    (originalGeometries s) cps (clippingDirection s)
    (realtimeClipping s) (clippingPolygon s) (originalPolygonPoints s)
    (clipCrust s) (clipMantle s) (clipCore s)
    (polygonAxis s) (polygonPosition s) (polygonRotationAxis s)
    (polygonRotation s) (brushSize s) (mode s) (intensity s).

Definition set_clippingDirection (dir : string) (s : App) : App :=
  mkApp (renderer_isWebGPURenderer s) (crust s) (mantle s) (core s)
    (originalGeometries s) (clippingPlanes s) dir
    (realtimeClipping s) (clippingPolygon s) (originalPolygonPoints s)
    (clipCrust s) (clipMantle s) (clipCore s)
    (polygonAxis s) (polygonPosition s) (polygonRotationAxis s)
    (polygonRotation s) (brushSize s) (mode s) (intensity s).

Definition set_realtimeClipping (b : bool) (s : App) : App :=
  mkApp (renderer_isWebGPURenderer s) (crust s) (mantle s) (core s)
    (originalGeometries s) (clippingPlanes s) (clippingDirection s)
    b (clippingPolygon s) (originalPolygonPoints s)
    (clipCrust s) (clipMantle s) (clipCore s)
    (polygonAxis s) (polygonPosition s) (polygonRotationAxis s)
    (polygonRotation s) (brushSize s) (mode s) (intensity s).

Definition set_clippingPolygon
    (pts : option (list (THREE.Vector3 F))) (s : App) : App :=
  mkApp (renderer_isWebGPURenderer s) (crust s) (mantle s) (core s)
    (originalGeometries s) (clippingPlanes s) (clippingDirection s)
    (realtimeClipping s) pts (originalPolygonPoints s)
    (clipCrust s) (clipMantle s) (clipCore s)
    (polygonAxis s) (polygonPosition s) (polygonRotationAxis s)
    (polygonRotation s) (brushSize s) (mode s) (intensity s).

Definition set_clipChecked (l : Layer) (b : bool) (s : App) : App :=
  mkApp (renderer_isWebGPURenderer s) (crust s) (mantle s) (core s)
    (originalGeometries s) (clippingPlanes s) (clippingDirection s)
    (realtimeClipping s) (clippingPolygon s) (originalPolygonPoints s)
    (match l with Crust => b | _ => clipCrust s end)
    (match l with Mantle => b | _ => clipMantle s end)
    (match l with Core => b | _ => clipCore s end)
    (polygonAxis s) (polygonPosition s) (polygonRotationAxis s)
    (polygonRotation s) (brushSize s) (mode s) (intensity s).

Definition set_polygonParams
    (axis : string) (pos : F) (raxis : string) (rot : F) (s : App) : App :=
  mkApp (renderer_isWebGPURenderer s) (crust s) (mantle s) (core s)
    (originalGeometries s) (clippingPlanes s) (clippingDirection s)
    (realtimeClipping s) (clippingPolygon s) (originalPolygonPoints s)
    (clipCrust s) (clipMantle s) (clipCore s)
    axis pos raxis rot (brushSize s) (mode s) (intensity s).

(** [document.getElementById('clipCrust').checked] and its siblings. *)
Definition clipChecked (s : App) (l : Layer) : bool :=
  match l with
  | Crust => clipCrust s
  | Mantle => clipMantle s
  | Core => clipCore s
  end.

End Application.

Arguments ClippingPlane F : clear implicits.
Arguments StoredPlane F : clear implicits.
Arguments App F : clear implicits.

(** ** The clipping system *)

Section Clipping.
Context {F : Type} `{Number F}.

Abbreviation Vector3 := (THREE.Vector3 F).
Abbreviation Mesh := (THREE.Mesh F).
Abbreviation BufferGeometry := (THREE.BufferGeometry F).

(** [calculateClippingPlane].  The method reads [this.clippingPolygon];
    both of its callers have checked that the polygon is present, so the
    [null] polygon (a TypeError in the source) is given the same result
    as a short one. *)
Definition calculateClippingPlane (s : App F) : option (ClippingPlane F) :=
  match clippingPolygon s with
  | Some (p0 :: p1 :: p2 :: _) =>
      let v1 := THREE.sub p1 p0 in
      let v2 := THREE.sub p2 p0 in
      let normal := THREE.normalize (THREE.cross v1 v2) in
      let d := (- THREE.dot normal p0)%js in
      Some (mkClippingPlane normal d)
  | _ => None
  end.

(** The test of the first loop of [applyGeometryClipping]:
    [distance = normal.dot(vertex) + d] and
    [direction === 'outside' ? distance > 0 : distance < 0]. *)
Definition signedDistance (clippingPlane : ClippingPlane F) (vertex : Vector3) : F :=
  (THREE.dot (cp_normal clippingPlane) vertex + cp_d clippingPlane)%js.

Definition shouldShow (direction : string) (clippingPlane : ClippingPlane F)
    (vertex : Vector3) : bool :=
  let distance := signedDistance clippingPlane vertex in
  if String.eqb direction "outside"
  then (distance >? lit 0)%js
  else (distance <? lit 0)%js.

(** The array [vertexVisibility] after the first loop. *)
Definition vertexVisibilityOf (direction : string)
    (clippingPlane : ClippingPlane F) (positions : list Vector3) : list bool :=
  map (shouldShow direction clippingPlane) positions.

(** [vertexVisibility[a]] used as a condition: [undefined] is falsy. *)
Definition isVisible (vertexVisibility : list bool) (a : nat) : bool :=
  nth a vertexVisibility false.

(** The second loop: [positions] is what is left to visit, [i] the number
    of the vertex at its head, and the accumulator holds [newPositions],
    [vertexMap] and [newVertexIndex]. *)
Fixpoint compactLoop (vertexVisibility : list bool) (positions : list Vector3)
    (i : nat) (acc : list Vector3 * gmap nat nat * nat)
    : list Vector3 * gmap nat nat * nat :=
  match positions with
  | [] => acc
  | p :: rest =>
      let '(newPositions, vertexMap, newVertexIndex) := acc in
      if isVisible vertexVisibility i
      then compactLoop vertexVisibility rest (S i)
             (newPositions ++ [p], <[i := newVertexIndex]> vertexMap,
              S newVertexIndex)
      else compactLoop vertexVisibility rest (S i) acc
  end.

(** [vertexMap.get(a)].  The third loop calls it on visible vertices
    only, where the map is defined. *)
Definition mapGet (vertexMap : gmap nat nat) (a : nat) : nat :=
  default 0 (vertexMap !! a).

(** The third loop, three indices at a time.  When fewer than three are
    left one of [a], [b], [c] is [undefined] and nothing is pushed. *)
Fixpoint indexLoop (vertexVisibility : list bool) (vertexMap : gmap nat nat)
    (indices : list nat) (newIndices : list nat) : list nat :=
  match indices with
  | a :: b :: c :: rest =>
      if isVisible vertexVisibility a && isVisible vertexVisibility b
         && isVisible vertexVisibility c
      then indexLoop vertexVisibility vertexMap rest
             (newIndices ++ [mapGet vertexMap a; mapGet vertexMap b;
                             mapGet vertexMap c])
      else indexLoop vertexVisibility vertexMap rest newIndices
  | _ => newIndices
  end.

(** The geometry [applyGeometryClipping] builds from [originalGeometry]:
    the three loops, then [setAttribute('position', ...)] and, when
    [newIndices.length > 0], [setIndex(newIndices)]. *)
Definition clipGeometry (direction : string) (clippingPlane : ClippingPlane F)
    (originalGeometry : BufferGeometry) : BufferGeometry :=
  let positions := THREE.position originalGeometry in
  let indices := THREE.index originalGeometry in
  let vertexVisibility := vertexVisibilityOf direction clippingPlane positions in
  let '(newPositions, vertexMap, _) :=
    compactLoop vertexVisibility positions 0 ([], ∅, 0) in
  let newIndices :=
    match indices with
    | Some idx => indexLoop vertexVisibility vertexMap idx []
    | None => []
    end in
  THREE.mkBufferGeometry newPositions
    (if (0 <? List.length newIndices)%nat then Some newIndices else None).

(** [applyGeometryClipping(mesh, clippingPlane)], for the mesh held by the
    layer slot [l]. *)
Definition applyGeometryClipping (l : Layer) (mesh : Mesh)
    (clippingPlane : ClippingPlane F) (s : App F) : App F :=
  let meshId := THREE.uuid mesh in
  let s1 :=
    match originalGeometries s !! meshId with
    | Some _ => s
    | None =>
        set_originalGeometries
          (<[meshId := THREE.clone (THREE.geometry mesh)]> (originalGeometries s)) s
    end in
  match originalGeometries s1 !! meshId with
  | Some originalGeometry =>
      let newGeometry :=
        clipGeometry (clippingDirection s1) clippingPlane originalGeometry in
      setLayer l (THREE.setGeometry mesh newGeometry) s1
  | None => s1
  end.

(** [applyWebGPUClipping(mesh, clippingPlane)] *)
Definition applyWebGPUClipping (l : Layer) (mesh : Mesh)
    (clippingPlane : ClippingPlane F) (s : App F) : App F :=
  let id := THREE.uuid mesh in
  let stored :=
    match clippingPlanes s !! id with
    | Some planes => planes
    | None => []
    end in
  let s1 :=
    set_clippingPlanes
      (<[id := stored ++ [mkStoredPlane (cp_normal clippingPlane)
                            (cp_d clippingPlane) (clippingDirection s)]]>
         (clippingPlanes s)) s in
  applyGeometryClipping l mesh clippingPlane s1.

(** [applyMaterialClipping(mesh, clippingPlane)] *)
Definition applyMaterialClipping (l : Layer) (mesh : Mesh)
    (clippingPlane : ClippingPlane F) (s : App F) : App F :=
  if renderer_isWebGPURenderer s
  then applyWebGPUClipping l mesh clippingPlane s
  else
    let plane := THREE.mkPlane (cp_normal clippingPlane) (cp_d clippingPlane) in
    let id := THREE.uuid mesh in
    let s1 :=
      match clippingPlanes s !! id with
      | Some _ => s
      | None => set_clippingPlanes (<[id := []]> (clippingPlanes s)) s
      end in
    let planes :=
      match THREE.clippingPlanes (THREE.material mesh) with
      | Some existing => existing ++ [plane]
      | None => [plane]
      end in
    setLayer l
      (THREE.setMaterial mesh
         (THREE.mkMaterial (Some planes)
            (String.eqb (clippingDirection s) "inside")))
      s1.

(** [clipSphereWithPolygon(targetLayer)] *)
Definition clipSphereWithPolygon (targetLayer : string) (s : App F) : App F :=
  match clippingPolygon s with
  | None => s
  | Some polygon =>
      if (List.length polygon <? 3)%nat then s
      else
        match layerOfName targetLayer with
        | None => s
        | Some l =>
            match getLayer s l with
            | None => s
            | Some targetMesh =>
                match calculateClippingPlane s with
                | None => s
                | Some clippingPlane =>
                    applyMaterialClipping l targetMesh clippingPlane s
                end
            end
        end
  end.

(** [restoreOriginalGeometry(targetLayer)] *)
Definition restoreOriginalGeometry (targetLayer : string) (s : App F) : App F :=
  match layerOfName targetLayer with
  | None => s
  | Some l =>
      match getLayer s l with
      | None => s
      | Some targetMesh =>
          let id := THREE.uuid targetMesh in
          let s1 :=
            if renderer_isWebGPURenderer s
            then
              match originalGeometries s !! id with
              | Some original =>
                  setLayer l (THREE.setGeometry targetMesh (THREE.clone original)) s
              | None => s
              end
            else
              match THREE.clippingPlanes (THREE.material targetMesh) with
              | Some _ =>
                  setLayer l
                    (THREE.setMaterial targetMesh
                       (THREE.mkMaterial (Some [])
                          (THREE.clipIntersection (THREE.material targetMesh))))
                    s
              | None => s
              end in
          match clippingPlanes s1 !! id with
          | Some _ => set_clippingPlanes (delete id (clippingPlanes s1)) s1
          | None => s1
          end
      end
  end.

End Clipping.

(** ** The layer manager *)

Section LayerManager.
Context {F : Type} `{Number F}.

(** [this.crust && this.crust.visible] and its siblings. *)
Definition layerVisible (s : App F) (l : Layer) : bool :=
  match getLayer s l with
  | Some m => THREE.visible m
  | None => false
  end.

(** [if (cond) { this.method(...) }] *)
Definition when (cond : bool) (method : App F -> App F) (s : App F) : App F :=
  if cond then method s else s.

(** [updateMaterialClipping(targetLayer)] *)
Definition updateMaterialClipping (targetLayer : string) (s : App F) : App F :=
  match clippingPolygon s with
  | None => s
  | Some polygon =>
      if (List.length polygon <? 3)%nat then s
      else
        match layerOfName targetLayer with
        | None => s
        | Some l =>
            match getLayer s l with
            | None => s
            | Some targetMesh =>
                match calculateClippingPlane s with
                | None => s
                | Some clippingPlane =>
                    let fresh :=
                      THREE.mkPlane (cp_normal clippingPlane) (cp_d clippingPlane) in
                    let mat := THREE.material targetMesh in
                    let mat' :=
                      match THREE.clippingPlanes mat with
                      | Some (_ :: others) =>
                          THREE.mkMaterial (Some (fresh :: others))
                            (THREE.clipIntersection mat)
                      | _ =>
                          THREE.mkMaterial (Some [fresh])
                            (String.eqb (clippingDirection s) "inside")
                      end in
                    setLayer l (THREE.setMaterial targetMesh mat') s
                end
            end
        end
  end.

(** [applyRealtimeClipping()].  The three checkbox states are read before
    the first layer is clipped. *)
Definition applyRealtimeClipping (s : App F) : App F :=
  if renderer_isWebGPURenderer s then
    let crustSelected := clipCrust s in
    let mantleSelected := clipMantle s in
    let coreSelected := clipCore s in
    let s1 := when (crustSelected && layerVisible s Crust)
                (clipSphereWithPolygon "crust") s in
    let s2 := when (mantleSelected && layerVisible s1 Mantle)
                (clipSphereWithPolygon "mantle") s1 in
    when (coreSelected && layerVisible s2 Core)
      (clipSphereWithPolygon "core") s2
  else
    let s1 := when (layerVisible s Crust) (updateMaterialClipping "crust") s in
    let s2 := when (layerVisible s1 Mantle) (updateMaterialClipping "mantle") s1 in
    when (layerVisible s2 Core) (updateMaterialClipping "core") s2.

(** [reapplyClippingToAllLayers()] *)
Definition reapplyClippingToAllLayers (s : App F) : App F :=
  let s1 := restoreOriginalGeometry "crust" s in
  let s2 := restoreOriginalGeometry "mantle" s1 in
  let s3 := restoreOriginalGeometry "core" s2 in
  let s4 := when (layerVisible s3 Crust) (clipSphereWithPolygon "crust") s3 in
  let s5 := when (layerVisible s4 Mantle) (clipSphereWithPolygon "mantle") s4 in
  when (layerVisible s5 Core) (clipSphereWithPolygon "core") s5.

(** [checkAllLayersForClipping()] *)
Definition checkAllLayersForClipping (s : App F) : App F :=
  set_clipChecked Core true
    (set_clipChecked Mantle true (set_clipChecked Crust true s)).

(** [restoreAllLayers()] *)
Definition restoreAllLayers (s : App F) : App F :=
  restoreOriginalGeometry "core"
    (restoreOriginalGeometry "mantle" (restoreOriginalGeometry "crust" s)).

(** [handleLayerSelectionChange(layerName)], called with one of the three
    layer names. *)
Definition handleLayerSelectionChange (l : Layer) (s : App F) : App F :=
  if negb (realtimeClipping s) then s
  else
    let isSelected := clipChecked s l in
    if isSelected then clipSphereWithPolygon (layerName l) s
    else restoreOriginalGeometry (layerName l) s.

(** [applyClippingToSelectedLayers()] *)
Definition applyClippingToSelectedLayers (s : App F) : App F :=
  let crustSelected := clipCrust s in
  let mantleSelected := clipMantle s in
  let coreSelected := clipCore s in
  let s1 := when (crustSelected && layerVisible s Crust)
              (clipSphereWithPolygon "crust") s in
  let s2 := when (mantleSelected && layerVisible s1 Mantle)
              (clipSphereWithPolygon "mantle") s1 in
  when (coreSelected && layerVisible s2 Core)
    (clipSphereWithPolygon "core") s2.

(** [updateClippingOnPolygonMove()] *)
Definition updateClippingOnPolygonMove (s : App F) : App F :=
  if negb (realtimeClipping s) then s
  else
    let crustSelected := clipCrust s in
    let mantleSelected := clipMantle s in
    let coreSelected := clipCore s in
    if renderer_isWebGPURenderer s then
      let s1 := when (crustSelected && layerVisible s Crust)
                  (clipSphereWithPolygon "crust") s in
      let s2 := when (mantleSelected && layerVisible s1 Mantle)
                  (clipSphereWithPolygon "mantle") s1 in
      when (coreSelected && layerVisible s2 Core)
        (clipSphereWithPolygon "core") s2
    else
      let s1 := when (crustSelected && layerVisible s Crust)
                  (updateMaterialClipping "crust") s in
      let s2 := when (mantleSelected && layerVisible s1 Mantle)
                  (updateMaterialClipping "mantle") s1 in
      when (coreSelected && layerVisible s2 Core)
        (updateMaterialClipping "core") s2.

(** The listeners of [setupControls]. *)

(** [realtimeClippingToggle], event [change] with [e.target.checked]. *)
Definition onRealtimeClippingToggle (checked : bool) (s : App F) : App F :=
  let s1 := set_realtimeClipping checked s in
  if realtimeClipping s1
  then applyClippingToSelectedLayers (checkAllLayersForClipping s1)
  else restoreAllLayers s1.

(** [clipCrust], [clipMantle], [clipCore], event [change]: the browser has
    set the checkbox to [checked] before the listener runs. *)
Definition onClipCheckboxChange (l : Layer) (checked : bool) (s : App F) : App F :=
  handleLayerSelectionChange l (set_clipChecked l checked s).

(** [restoreAll], event [click]. *)
Definition onRestoreAll (s : App F) : App F := restoreAllLayers s.

(** [clippingDirection], event [change] with [e.target.value]. *)
Definition onClippingDirectionChange (value : string) (s : App F) : App F :=
  reapplyClippingToAllLayers (set_clippingDirection value s).

End LayerManager.

(** ** The polygon transformer *)

Section PolygonTransformer.
Context {F : Type} `{Number F} `{Trig F}.

Abbreviation Vector3 := (THREE.Vector3 F).

(** The [if / else if] chain that fills [rotationMatrix]; any other axis
    name leaves the fresh matrix as it is. *)
Definition rotationMatrixFor (axis : string) (rotationRadians : F) : THREE.Matrix4 F :=
  if String.eqb axis "x" then THREE.makeRotationX rotationRadians
  else if String.eqb axis "y" then THREE.makeRotationY rotationRadians
  else if String.eqb axis "z" then THREE.makeRotationZ rotationRadians
  else THREE.identity.

(** [(this.polygonRotation * Math.PI) / 180] *)
Definition rotationRadiansOf (polygonRotation : F) : F :=
  ((polygonRotation * fPI) / lit 180)%js.

(** The [if / else if] chain that moves a point along the chosen axis. *)
Definition moveAlong (axis : string) (amount : F) (point : Vector3) : Vector3 :=
  if String.eqb axis "x"
  then THREE.mkVector3 (THREE.vx point + amount)%js (THREE.vy point) (THREE.vz point)
  else if String.eqb axis "y"
  then THREE.mkVector3 (THREE.vx point) (THREE.vy point + amount)%js (THREE.vz point)
  else if String.eqb axis "z"
  then THREE.mkVector3 (THREE.vx point) (THREE.vy point) (THREE.vz point + amount)%js
  else point.

(** The body of the [forEach] of [updatePolygonPosition], after
    [point.copy(originalPoint)]. *)
Definition positionedPoint (s : App F) (originalPoint : Vector3) : Vector3 :=
  let point := originalPoint in
  let point :=
    if negb (feqb (polygonRotation s) (lit 0))
    then THREE.applyMatrix4 point
           (rotationMatrixFor (polygonRotationAxis s)
              (rotationRadiansOf (polygonRotation s)))
    else point in
  moveAlong (polygonAxis s) (polygonPosition s) point.

(** The body of the [forEach] of [updatePolygonTransform], after
    [point.copy(originalPoint)]. *)
Definition transformedPoint (s : App F) (originalPoint : Vector3) : Vector3 :=
  let rotationMatrix :=
    rotationMatrixFor (polygonRotationAxis s)
      (rotationRadiansOf (polygonRotation s)) in
  let point := THREE.applyMatrix4 originalPoint rotationMatrix in
  if negb (feqb (polygonPosition s) (lit 0))
  then moveAlong (polygonAxis s) (polygonPosition s) point
  else point.

(** [this.clippingPolygon.forEach((point, index) => ...)]: each working
    point is overwritten with a function of
    [this.originalPolygonPoints[index]].  Where the original array has no
    such entry, [point.copy(undefined)] throws and the result is [None]. *)
Fixpoint forEachPoint (body : Vector3 -> Vector3) (working original : list Vector3)
    (index : nat) : option (list Vector3) :=
  match working with
  | [] => Some []
  | _ :: rest =>
      match original !! index with
      | None => None
      | Some originalPoint =>
          match forEachPoint body rest original (S index) with
          | None => None
          | Some rest' => Some (body originalPoint :: rest')
          end
      end
  end.

(** What both methods do once the points are recomputed
    ([updatePolygonVisuals] only touches the preview objects of the
    scene). *)
Definition afterPolygonMove (s : App F) : App F :=
  if realtimeClipping s
  then applyRealtimeClipping s
  else updateClippingOnPolygonMove s.

(** [updatePolygonPosition()] *)
Definition updatePolygonPosition (s : App F) : option (App F) :=
  match originalPolygonPoints s, clippingPolygon s with
  | Some original, Some working =>
      match forEachPoint (positionedPoint s) working original 0 with
      | None => None
      | Some working' =>
          Some (afterPolygonMove (set_clippingPolygon (Some working') s))
      end
  | _, _ => Some s
  end.

(** [updatePolygonTransform()] *)
Definition updatePolygonTransform (s : App F) : option (App F) :=
  match originalPolygonPoints s, clippingPolygon s with
  | Some original, Some working =>
      match forEachPoint (transformedPoint s) working original 0 with
      | None => None
      | Some working' =>
          Some (afterPolygonMove (set_clippingPolygon (Some working') s))
      end
  | _, _ => Some s
  end.

End PolygonTransformer.

(** ** The brush sculptor *)

Section BrushSculptor.
Context {F : Type} `{Number F}.

Abbreviation Vector3 := (THREE.Vector3 F).

(** [1 - (3 * t * t - 2 * t * t * t)] *)
Definition influenceOf (normalizedDistance : F) : F :=
  (lit 1 - (lit 3 * normalizedDistance * normalizedDistance
            - lit 2 * normalizedDistance * normalizedDistance * normalizedDistance))%js.

(** Where the body of the loop of [editTerrain] would put a vertex that
    is in range, before the test on the size of the change. *)
Definition displaced (mode : string) (intensity : F) (influence : F)
    (vertex : Vector3) : Vector3 :=
  let normal := THREE.normalize vertex in
  if String.eqb mode "extrude" then
    let change := (intensity * influence)%js in
    THREE.add vertex (THREE.multiplyScalar normal change)
  else if String.eqb mode "compress" then
    let change := (intensity * influence)%js in
    THREE.add vertex (THREE.multiplyScalar normal (- change)%js)
  else vertex.

(** [Math.abs(vertex.x - oldX) > 0.001 || ... ] *)
Definition movedEnough (vertex old : Vector3) : bool :=
  (fabs (THREE.vx vertex - THREE.vx old) >? lit_0_001)%js
  || (fabs (THREE.vy vertex - THREE.vy old) >? lit_0_001)%js
  || (fabs (THREE.vz vertex - THREE.vz old) >? lit_0_001)%js.

(** One iteration of the loop of [editTerrain]: the value of the three
    slots of a vertex after the iteration.  (The store into the
    single-precision position array is taken to be exact.) *)
Definition editVertex (brushSize : F) (mode : string) (intensity : F)
    (localPoint old : Vector3) : Vector3 :=
  let distance := THREE.distanceTo old localPoint in
  if (distance <? brushSize)%js then
    let normalizedDistance := (distance / brushSize)%js in
    let influence := influenceOf normalizedDistance in
    let vertex := displaced mode intensity influence old in
    if movedEnough vertex old then vertex else old
  else old.

(** [editTerrain()].  The ray cast is done by the library: [hit] is
    [intersects[0].point] brought to the local frame of the terrain by
    [worldToLocal], or [None] when the ray misses.  The loop rewrites the
    position array of the geometry the terrain currently holds, in
    place; that geometry is never one of the stored originals, which are
    clones. *)
Definition editTerrain (hit : option Vector3) (s : App F) : App F :=
  match terrain s with
  | None => s
  | Some t =>
      match hit with
      | None => s
      | Some localPoint =>
          let g := THREE.geometry t in
          let vertices :=
            map (editVertex (brushSize s) (mode s) (intensity s) localPoint)
              (THREE.position g) in
          setLayer Crust
            (THREE.setGeometry t (THREE.mkBufferGeometry vertices (THREE.index g))) s
      end
  end.

End BrushSculptor.

(** ** The resolution inputs *)

(** [this.currentSegments] *)
Record Segments := mkSegments { width : Z; height : Z }.

(** The value of [parseInt(input.value)]: an integer, or [None] for
    [NaN]. *)
Definition Parsed := option Z.

(** [parseInt(...) || dflt]: [NaN] and [0] are falsy. *)
Definition parsedOr (v : Parsed) (dflt : Z) : Z :=
  match v with
  | Some n => if (n =? 0)%Z then dflt else n
  | None => dflt
  end.

(** [readInitialSegments()].  An argument is [None] when
    [getElementById] finds no such input. *)
Definition readInitialSegments (widthInput heightInput : option Parsed)
    (currentSegments : Segments) : Segments :=
  match widthInput, heightInput with
  | Some wv, Some hv =>
      let width := parsedOr wv 256 in
      let height := parsedOr hv 128 in
      mkSegments (Z.max 8 (Z.min 1024 width)) (Z.max 8 (Z.min 1024 height))
  | _, _ => currentSegments
  end.

(** A parsed number used as a condition, then compared with the bounds:
    [v && v >= 8 && v <= 1024]. *)
Definition validSegment (v : Parsed) : bool :=
  match v with
  | Some n => negb (n =? 0)%Z && (8 <=? n)%Z && (n <=? 1024)%Z
  | None => false
  end.

(** [updateSegmentsIfValid()]: the new value of [this.currentSegments]. *)
Definition updateSegmentsIfValid (customWidth customHeight : Parsed)
    (currentSegments : Segments) : Segments :=
  match customWidth, customHeight with
  | Some w, Some h =>
      if validSegment customWidth && validSegment customHeight then
        if negb (w =? width currentSegments)%Z
           || negb (h =? height currentSegments)%Z
        then mkSegments w h
        else currentSegments
      else currentSegments
  | _, _ => currentSegments
  end.

(** The constructor's [this.currentSegments = { width: 256, height: 128 }]. *)
Definition initialSegments : Segments := mkSegments 256 128.

(** ** The specification's vocabulary *)

Section SpecVocabulary.
Context {F : Type} `{Number F}.

(** The pristine geometry of a mesh: the stored original when there is
    one, and otherwise the geometry the mesh holds (which the next
    geometry clipping stores). *)
Definition pristineOf (s : App F) (mesh : THREE.Mesh F) : THREE.BufferGeometry F :=
  match originalGeometries s !! THREE.uuid mesh with
  | Some original => original
  | None => THREE.geometry mesh
  end.

(** The index array of a geometry, empty when it has none. *)
Definition indexArray (g : THREE.BufferGeometry F) : list nat :=
  match THREE.index g with
  | Some idx => idx
  | None => []
  end.

(** The triangles of an index array. *)
Fixpoint triangles (indices : list nat) : list (nat * nat * nat) :=
  match indices with
  | a :: b :: c :: rest => (a, b, c) :: triangles rest
  | _ => []
  end.

(** Number of vertices and of triangles of a geometry, the latter read
    off the index when there is one and off the vertices otherwise. *)
Definition vertexCount (g : THREE.BufferGeometry F) : nat :=
  List.length (THREE.position g).

Definition triangleCount (g : THREE.BufferGeometry F) : nat :=
  match THREE.index g with
  | Some idx => List.length idx / 3
  | None => List.length (THREE.position g) / 3
  end.

(** The old-index to new-index map of the specification: a visible
    vertex moves to the number of visible vertices before it. *)
Definition countVisible (vis : list bool) : nat :=
  List.length (List.filter (fun b : bool => b) vis).

Definition newIndexOf (vis : list bool) (i : nat) : nat :=
  countVisible (take i vis).

Definition allVisible (vis : list bool) (t : nat * nat * nat) : bool :=
  let '(a, b, c) := t in
  isVisible vis a && isVisible vis b && isVisible vis c.

Definition remapTriangle (vis : list bool) (t : nat * nat * nat) : list nat :=
  let '(a, b, c) := t in
  [newIndexOf vis a; newIndexOf vis b; newIndexOf vis c].

(** What [vertexMap] holds once the vertices below [i] have been
    visited. *)
Definition mapUpTo (vis : list bool) (i : nat) (vertexMap : gmap nat nat) : Prop :=
  forall k, vertexMap !! k =
    if bool_decide (k < i) && isVisible vis k then Some (newIndexOf vis k) else None.

(** The geometry of the mesh a layer holds, if the layer exists. *)
Definition layerGeometry (s : App F) (l : Layer) : option (THREE.BufferGeometry F) :=
  THREE.geometry <$> getLayer s l.

End SpecVocabulary.

(** ** Sessions *)

Section Sessions.
Context {F : Type} `{Number F}.

(** What can happen to the layers during a session: calls of the two
    per-layer entry points, a brush stroke, and the listeners of the
    layer and clipping controls.  [TerrainRewritten write] stands for any
    other method that rewrites the position array of the terrain in
    place, as [smoothGlobe] and [applyPolygonEdit] do; [PolygonMoved
    working] stands for a successful [updatePolygonPosition] or
    [updatePolygonTransform] that has recomputed the working polygon to
    [working]. *)
Inductive Event :=
| ClipLayer (targetLayer : string)
| RestoreLayer (targetLayer : string)
| BrushStroke (hit : option (THREE.Vector3 F))
| TerrainRewritten (write : list (THREE.Vector3 F) -> list (THREE.Vector3 F))
| VisibilityToggle (l : Layer) (checked : bool)
| RealtimeToggle (checked : bool)
| ClipCheckbox (l : Layer) (checked : bool)
| RestoreAllClick
| DirectionChange (value : string)
| PolygonMoved (working : list (THREE.Vector3 F)).

(** An in-place rewrite of the position array of the terrain. *)
Definition rewriteTerrain
    (write : list (THREE.Vector3 F) -> list (THREE.Vector3 F)) (s : App F) : App F :=
  match terrain s with
  | None => s
  | Some t =>
      let g := THREE.geometry t in
      setLayer Crust
        (THREE.setGeometry t
           (THREE.mkBufferGeometry (write (THREE.position g)) (THREE.index g))) s
  end.

(** [crustToggle], [mantleToggle], [coreToggle], event [change]:
    [this.crust.visible = e.target.checked] and its siblings.  The
    listener tests nothing: where the layer is missing the assignment
    throws, which is [None]. *)
Definition onLayerToggle (l : Layer) (checked : bool) (s : App F) : option (App F) :=
  match getLayer s l with
  | None => None
  | Some m => Some (setLayer l (THREE.setVisible m checked) s)
  end.

(** The state an event leaves.  Of these methods and listeners only the
    listener of a layer toggle can throw, and when it does it has
    written nothing: the state is left as it was. *)
Definition handle (e : Event) (s : App F) : App F :=
  match e with
  | ClipLayer targetLayer => clipSphereWithPolygon targetLayer s
  | RestoreLayer targetLayer => restoreOriginalGeometry targetLayer s
  | BrushStroke hit => editTerrain hit s
  | TerrainRewritten write => rewriteTerrain write s
  | VisibilityToggle l checked => default s (onLayerToggle l checked s)
  | RealtimeToggle checked => onRealtimeClippingToggle checked s
  | ClipCheckbox l checked => onClipCheckboxChange l checked s
  | RestoreAllClick => onRestoreAll s
  | DirectionChange value => onClippingDirectionChange value s
  | PolygonMoved working =>
      afterPolygonMove (set_clippingPolygon (Some working) s)
  end.

Fixpoint run (events : list Event) (s : App F) : App F :=
  match events with
  | [] => s
  | e :: rest => run rest (handle e s)
  end.

(** The relation between a state and a later one that every handler
    maintains: same renderer, every layer still holds a mesh with the
    same [uuid], and every stored original is still stored, unchanged. *)
Definition extends (s s' : App F) : Prop :=
  renderer_isWebGPURenderer s' = renderer_isWebGPURenderer s
  /\ (forall l m, getLayer s l = Some m ->
        exists m', getLayer s' l = Some m' /\ THREE.uuid m' = THREE.uuid m)
  /\ (forall id g, originalGeometries s !! id = Some g ->
        originalGeometries s' !! id = Some g).

End Sessions.

Arguments Event F : clear implicits.

(** ** Resolution sessions *)

(** The two ways [this.currentSegments] is assigned from the inputs of the
    page: once on load, and on every [input] event of either field. *)
Inductive SegmentsEvent :=
| PageLoaded (widthInput heightInput : option Parsed)
| InputEdited (customWidth customHeight : Parsed).

Definition handleSegments (e : SegmentsEvent) (currentSegments : Segments) : Segments :=
  match e with
  | PageLoaded widthInput heightInput =>
      readInitialSegments widthInput heightInput currentSegments
  | InputEdited customWidth customHeight =>
      updateSegmentsIfValid customWidth customHeight currentSegments
  end.

Fixpoint runSegments (events : list SegmentsEvent) (currentSegments : Segments) : Segments :=
  match events with
  | [] => currentSegments
  | e :: rest => runSegments rest (handleSegments e currentSegments)
  end.

(** The bounds of the specification. *)
Definition withinBounds (n : Z) : Prop := (8 <= n <= 1024)%Z.

Definition segmentsWithinBounds (seg : Segments) : Prop :=
  withinBounds (width seg) /\ withinBounds (height seg).

(** The clamp of the specification. *)
Definition clampToBounds (n : Z) : Z := Z.max 8 (Z.min 1024 n).

(** ** Vocabulary for the layer fan-out *)

Section FanOutVocabulary.
Context {F : Type} `{Number F}.

(** three.js gives every object a fresh [uuid]: the meshes of two
    different layers never share one. *)
Definition uuidsDistinct (s : App F) : Prop :=
  forall l1 l2 m1 m2,
    l1 <> l2 -> getLayer s l1 = Some m1 -> getLayer s l2 = Some m2 ->
    THREE.uuid m1 <> THREE.uuid m2.

(** What is known about layer [l] in the course of a fan-out on a WebGPU
    renderer: the plane and direction in force, the geometry [g] its mesh
    holds now, and its pristine geometry. *)
Definition layerTracked (l : Layer) (m : THREE.Mesh F)
    (pristine : THREE.BufferGeometry F) (clippingPlane : ClippingPlane F)
    (direction : string) (g : THREE.BufferGeometry F) (s : App F) : Prop :=
  renderer_isWebGPURenderer s = true
  /\ calculateClippingPlane s = Some clippingPlane
  /\ clippingDirection s = direction
  /\ getLayer s l = Some (THREE.setGeometry m g)
  /\ pristineOf s (THREE.setGeometry m g) = pristine
  /\ (forall l' m', l' <> l -> getLayer s l' = Some m' ->
        THREE.uuid m' <> THREE.uuid m).

End FanOutVocabulary.

(** ** Vocabulary for the clip state of a mesh *)

Section ClipStateVocabulary.
Context {F : Type} `{Number F}.

(** The clip planes of the material of a layer ([null] counts as none). *)
Definition materialPlanes (s : App F) (l : Layer) : list (THREE.Plane F) :=
  match getLayer s l with
  | Some m =>
      match THREE.clippingPlanes (THREE.material m) with
      | Some planes => planes
      | None => []
      end
  | None => []
  end.

(** The entries of [this.clippingPlanes] kept for the mesh of a layer. *)
Definition storedPlanes (s : App F) (l : Layer) : list (StoredPlane F) :=
  match getLayer s l with
  | Some m =>
      match clippingPlanes s !! THREE.uuid m with
      | Some planes => planes
      | None => []
      end
  | None => []
  end.

(** [n] calls in a row. *)
Fixpoint repeatedly (n : nat) (method : App F -> App F) (s : App F) : App F :=
  match n with
  | O => s
  | S k => repeatedly k method (method s)
  end.

End ClipStateVocabulary.

(** ** Vocabulary for the polygon *)

Section PolygonVocabulary.
Context {F : Type} `{Number F}.

(** The fields that decide what a recomputation of the working polygon
    gives: the original points and the four transform parameters. *)
Definition polygonSetup (s : App F)
    : option (list (THREE.Vector3 F)) * string * F * string * F :=
  (originalPolygonPoints s, polygonAxis s, polygonPosition s,
   polygonRotationAxis s, polygonRotation s).

End PolygonVocabulary.

(** ** A small scene for concrete runs *)

Definition fvec (x y z : Z) : THREE.Vector3 float :=
  THREE.mkVector3 (float_of_Z x) (float_of_Z y) (float_of_Z z).

(** An octahedron of radius [r]: six vertices, eight triangles. *)
Definition octahedron (r : Z) : THREE.BufferGeometry float :=
  THREE.mkBufferGeometry
    [fvec r 0 0; fvec (- r) 0 0; fvec 0 r 0; fvec 0 (- r) 0; fvec 0 0 r; fvec 0 0 (- r)]
    (Some [0; 2; 4;  2; 1; 4;  1; 3; 4;  3; 0; 4;
           2; 0; 5;  1; 2; 5;  3; 1; 5;  0; 3; 5]%nat).

Definition newMaterial : THREE.Material float := THREE.mkMaterial None false.

Definition demoCrust : THREE.Mesh float :=
  THREE.mkMesh "uuid-crust" (octahedron 50) newMaterial true.
Definition demoMantle : THREE.Mesh float :=
  THREE.mkMesh "uuid-mantle" (octahedron 40) newMaterial true.
Definition demoCore : THREE.Mesh float :=
  THREE.mkMesh "uuid-core" (octahedron 20) newMaterial true.

(** A square in the plane [z = 25]. *)
Definition demoPolygon : list (THREE.Vector3 float) :=
  [fvec 10 10 25; fvec (-10) 10 25; fvec (-10) (-10) 25; fvec 10 (-10) 25].

(** The plane of [demoPolygon]. *)
Definition demoPlane : ClippingPlane float :=
  mkClippingPlane (fvec 0 0 1) (float_of_Z (-25)).

(** The application after start-up on a WebGPU renderer: three visible
    layers, nothing clipped, no layer enrolled, real-time clipping off. *)
Definition demoApp : App float :=
  mkApp true (Some demoCrust) (Some demoMantle) (Some demoCore)
    ∅ ∅ "inside" false (Some demoPolygon) (Some demoPolygon)
    false false false
    "z" (float_of_Z 0) "x" (float_of_Z 0)
    (float_of_Z 20) "extrude" (float_of_Z 2).

(** The same on a renderer without the WebGPU flag. *)
Definition demoAppWebGL : App float :=
  mkApp false (Some demoCrust) (Some demoMantle) (Some demoCore)
    ∅ ∅ "inside" false (Some demoPolygon) (Some demoPolygon)
    false false false
    "z" (float_of_Z 0) "x" (float_of_Z 0)
    (float_of_Z 20) "extrude" (float_of_Z 2).

(** A polygon whose first three points lie on one line. *)
Definition collinearPolygon : list (THREE.Vector3 float) :=
  [fvec 10 10 25; fvec 0 10 25; fvec (-10) 10 25; fvec 10 (-10) 25].

Definition collinearApp : App float :=
  set_clippingPolygon (Some collinearPolygon) demoApp.

(** ** A scene over the reals *)

Definition rvec (x y z : R) : THREE.Vector3 R := THREE.mkVector3 x y z.

(** The polygon of [createSpherePolygon] before it is projected on the
    sphere, for the default width and height. *)
Definition squareR : list (THREE.Vector3 R) :=
  [rvec 40 40 4; rvec (-40) 40 4; rvec (-40) (-40) 4; rvec 40 (-40) 4]%R.

(** A crust of three vertices on the sphere of radius 50 around the pole
    [(0, 50, 0)]: the pole, a vertex at distance [2000/101] (just inside
    a brush of radius 20) and a vertex at distance [60]. *)
Definition poleR : THREE.Vector3 R := rvec 0 50 0.
Definition nearEdgeR : THREE.Vector3 R := rvec (198000 / 10201) (470050 / 10201) 0.
Definition farR : THREE.Vector3 R := rvec 48 14 0.

Definition crustR : THREE.Mesh R :=
  THREE.mkMesh "uuid-crust"
    (THREE.mkBufferGeometry [poleR; nearEdgeR; farR] (Some [0; 1; 2]%nat))
    (THREE.mkMaterial None false) true.

(** Rotation [rotation] degrees about [x], no translation, brush of
    radius 20 and strength 2 in extrude mode. *)
Definition appR (rotation : R) : App R :=
  mkApp true (Some crustR) None None ∅ ∅ "inside" false
    (Some squareR) (Some squareR) false false false
    "z" 0%R "x" rotation 20%R "extrude" 2%R.

(** ** Smoothing *)

Section Smoothing.
Context {F : Type} `{Number F}.

(** The literals [0.8] and [0.2], each the quotient of two exactly
    represented integers (see [lit_0_001]). *)
Definition lit_0_8 : F := (lit 4 / lit 5)%js.
Definition lit_0_2 : F := (lit 1 / lit 5)%js.

(** The body of the loop of [smoothGlobe]: the vertex is put on its own
    ray at four fifths of its radius plus one fifth of the base radius.
    (The store into the single-precision position array is taken to be
    exact.) *)
Definition smoothedVertex (vertex : THREE.Vector3 F) : THREE.Vector3 F :=
  let baseRadius := lit 50 in
  let currentRadius := THREE.length vertex in
  let smoothedRadius := (currentRadius * lit_0_8 + baseRadius * lit_0_2)%js in
  THREE.multiplyScalar (THREE.normalize vertex) smoothedRadius.

(** [smoothGlobe()]: every vertex of the geometry the terrain holds is
    rewritten in place. *)
Definition smoothGlobe (s : App F) : App F :=
  match terrain s with
  | None => s
  | Some t =>
      let g := THREE.geometry t in
      setLayer Crust
        (THREE.setGeometry t
           (THREE.mkBufferGeometry (map smoothedVertex (THREE.position g))
              (THREE.index g))) s
  end.

End Smoothing.

(** ** The editor: input modes, the polygon painter, the polygon's size *)

Section Editing.
Context {F : Type} `{Number F} `{Trig F}.

(** More field assignments on the application object. *)
Definition set_mode (mode' : string) (s : App F) : App F :=
  mkApp (renderer_isWebGPURenderer s) (crust s) (mantle s) (core s)
    (originalGeometries s) (clippingPlanes s) (clippingDirection s)
    (realtimeClipping s) (clippingPolygon s) (originalPolygonPoints s)
    (clipCrust s) (clipMantle s) (clipCore s)
    (polygonAxis s) (polygonPosition s) (polygonRotationAxis s)
    (polygonRotation s) (brushSize s) mode' (intensity s).

Definition set_brushSize (size : F) (s : App F) : App F :=
  mkApp (renderer_isWebGPURenderer s) (crust s) (mantle s) (core s)
    (originalGeometries s) (clippingPlanes s) (clippingDirection s)
    (realtimeClipping s) (clippingPolygon s) (originalPolygonPoints s)
    (clipCrust s) (clipMantle s) (clipCore s)
    (polygonAxis s) (polygonPosition s) (polygonRotationAxis s)
    (polygonRotation s) size (mode s) (intensity s).

Definition set_intensity (strength : F) (s : App F) : App F :=
  mkApp (renderer_isWebGPURenderer s) (crust s) (mantle s) (core s)
    (originalGeometries s) (clippingPlanes s) (clippingDirection s)
    (realtimeClipping s) (clippingPolygon s) (originalPolygonPoints s)
    (clipCrust s) (clipMantle s) (clipCore s)
    (polygonAxis s) (polygonPosition s) (polygonRotationAxis s)
    (polygonRotation s) (brushSize s) (mode s) strength.

(** [this.clippingPolygon = points;
     this.originalPolygonPoints = points.map(p => p.clone())] *)
Definition set_polygons (points : list (THREE.Vector3 F)) (s : App F) : App F :=
  mkApp (renderer_isWebGPURenderer s) (crust s) (mantle s) (core s)
    (originalGeometries s) (clippingPlanes s) (clippingDirection s)
    (realtimeClipping s) (Some points) (Some points)
    (clipCrust s) (clipMantle s) (clipCore s)
    (polygonAxis s) (polygonPosition s) (polygonRotationAxis s)
    (polygonRotation s) (brushSize s) (mode s) (intensity s).

(** The fields of [this] that the mouse listeners, the polygon painter
    and the size sliders use, next to those of [App], which [globe] holds.  The objects these
    methods add to the scene or remove from it (previews, highlights,
    cylinders) are not part of the model. *)
Record Editor := mkEditor {
  globe : App F;
  isEditing : bool;
  isDragging : bool;
  isDrawingPolygon : bool;
  polygonPoints : list (THREE.Vector3 F);
  polygonMode : string;
  polygonWidth : F;
  polygonHeight : F
}.

Definition set_globe (a : App F) (e : Editor) : Editor :=
  mkEditor a (isEditing e) (isDragging e) (isDrawingPolygon e)
    (polygonPoints e) (polygonMode e) (polygonWidth e) (polygonHeight e).

Definition set_isDragging (b : bool) (e : Editor) : Editor :=
  mkEditor (globe e) (isEditing e) b (isDrawingPolygon e)
    (polygonPoints e) (polygonMode e) (polygonWidth e) (polygonHeight e).

Definition set_polygonPoints (points : list (THREE.Vector3 F)) (e : Editor) : Editor :=
  mkEditor (globe e) (isEditing e) (isDragging e) (isDrawingPolygon e)
    points (polygonMode e) (polygonWidth e) (polygonHeight e).

Definition set_polygonWidth (w : F) (e : Editor) : Editor :=
  mkEditor (globe e) (isEditing e) (isDragging e) (isDrawingPolygon e)
    (polygonPoints e) (polygonMode e) w (polygonHeight e).

Definition set_polygonHeight (h : F) (e : Editor) : Editor :=
  mkEditor (globe e) (isEditing e) (isDragging e) (isDrawingPolygon e)
    (polygonPoints e) (polygonMode e) (polygonWidth e) h.

(** [toggleEditMode()] *)
Definition toggleEditMode (e : Editor) : Editor :=
  mkEditor (globe e) (negb (isEditing e)) (isDragging e) (isDrawingPolygon e)
    (polygonPoints e) (polygonMode e) (polygonWidth e) (polygonHeight e).

(** [togglePolygonMode()]: entering the mode empties the list of points;
    leaving it only clears what is drawn. *)
Definition togglePolygonMode (e : Editor) : Editor :=
  let drawing := negb (isDrawingPolygon e) in
  mkEditor (globe e) false (isDragging e) drawing
    (if drawing then [] else polygonPoints e)
    (polygonMode e) (polygonWidth e) (polygonHeight e).

(** [addPolygonPoint(event)].  [hit] is [intersects[0].point] of the ray
    cast against the terrain, [None] when the ray misses. *)
Definition addPolygonPoint (hit : option (THREE.Vector3 F)) (e : Editor) : Editor :=
  match terrain (globe e) with
  | None => e
  | Some _ =>
      match hit with
      | Some point => set_polygonPoints (polygonPoints e ++ [point]) e
      | None => e
      end
  end.

(** The condition of the loop of [isPointInPolygon] for the edge from
    [polygon[j]] to [polygon[i]]. *)
Definition crossesEdge (x y : F) (pi pj : THREE.Vector3 F) : bool :=
  let xi := THREE.vx pi in
  let yi := THREE.vy pi in
  let xj := THREE.vx pj in
  let yj := THREE.vy pj in
  negb (Bool.eqb (yi >? y)%js (yj >? y)%js)
  && (x <? (xj - xi) * (y - yi) / (yj - yi) + xi)%js.

(** The loop [for (i = 0, j = polygon.length - 1; i < polygon.length;
    j = i++)]: [rest] holds the points from [polygon[i]] on and
    [previous] is [polygon[j]]. *)
Fixpoint isPointInPolygonLoop (x y : F) (rest : list (THREE.Vector3 F))
    (previous : THREE.Vector3 F) (inside : bool) : bool :=
  match rest with
  | [] => inside
  | pi :: rest' =>
      isPointInPolygonLoop x y rest' pi
        (if crossesEdge x y pi previous then negb inside else inside)
  end.

(** [isPointInPolygon(point, polygon)] *)
Definition isPointInPolygon (point : THREE.Vector3 F)
    (polygon : list (THREE.Vector3 F)) : bool :=
  match last polygon with
  | None => false
  | Some pl => isPointInPolygonLoop (THREE.vx point) (THREE.vy point) polygon pl false
  end.

(** Where [applyPolygonEdit] puts a vertex that is inside the polygon. *)
Definition paintedVertex (polygonMode' : string) (intensity' : F)
    (vertex : THREE.Vector3 F) : THREE.Vector3 F :=
  let normal := THREE.normalize vertex in
  let change := intensity' in
  if String.eqb polygonMode' "extrude"
  then THREE.add vertex (THREE.multiplyScalar normal change)
  else if String.eqb polygonMode' "compress"
  then THREE.add vertex (THREE.multiplyScalar normal (- change)%js)
  else vertex.

(** One iteration of the loop of [applyPolygonEdit]. *)
Definition paintVertex (polygon : list (THREE.Vector3 F)) (polygonMode' : string)
    (intensity' : F) (vertex : THREE.Vector3 F) : THREE.Vector3 F :=
  if isPointInPolygon vertex polygon
  then paintedVertex polygonMode' intensity' vertex
  else vertex.

(** [applyPolygonEdit()].  The method reads [this.terrain.geometry]
    without a test: with no terrain it throws, which is [None] here. *)
Definition applyPolygonEdit (e : Editor) : option Editor :=
  if (List.length (polygonPoints e) <? 3)%nat then Some e
  else
    match terrain (globe e) with
    | None => None
    | Some t =>
        let g := THREE.geometry t in
        let vertices :=
          map (paintVertex (polygonPoints e) (polygonMode e) (intensity (globe e)))
            (THREE.position g) in
        Some (set_polygonPoints []
                (set_globe
                   (setLayer Crust
                      (THREE.setGeometry t
                         (THREE.mkBufferGeometry vertices (THREE.index g)))
                      (globe e)) e))
    end.

(** The listeners of [setupEventListeners].  [hit] is what the ray cast
    of the handler that runs finds: the point in world coordinates for
    [addPolygonPoint], the same point in the frame of the terrain for
    [editTerrain]. *)
Definition onMouseMove (hit : option (THREE.Vector3 F)) (e : Editor) : Editor :=
  if isEditing e
  then if isDragging e then set_globe (editTerrain hit (globe e)) e else e
  else e.

Definition onMouseDown (button : Z) (hit : option (THREE.Vector3 F))
    (e : Editor) : Editor :=
  if (button =? 0)%Z then
    if isDrawingPolygon e then addPolygonPoint hit e
    else if isEditing e
    then let e1 := set_isDragging true e in
         set_globe (editTerrain hit (globe e1)) e1
    else e
  else e.

Definition onMouseUp (button : Z) (e : Editor) : Editor :=
  if (button =? 0)%Z then set_isDragging false e else e.

Definition onContextMenu (e : Editor) : option Editor :=
  if isDrawingPolygon e && (3 <=? List.length (polygonPoints e))%nat
  then applyPolygonEdit e
  else Some e.

(** The four corners that [createSpherePolygon] and [recreatePolygon]
    compute from the two size sliders and project on the sphere of
    radius 80. *)
Definition polygonCorners (polygonWidth' polygonHeight' : F) : list (THREE.Vector3 F) :=
  let sphereRadius := lit 80 in
  let widthRatio := (polygonWidth' / lit 50)%js in
  let heightRatio := (polygonHeight' / lit 50)%js in
  let halfWidth := ((sphereRadius * widthRatio) / lit 2)%js in
  let halfHeight := ((sphereRadius * heightRatio) / lit 2)%js in
  let points :=
    [THREE.mkVector3 halfWidth halfHeight (lit 4);
     THREE.mkVector3 (- halfWidth)%js halfHeight (lit 4);
     THREE.mkVector3 (- halfWidth)%js (- halfHeight)%js (lit 4);
     THREE.mkVector3 halfWidth (- halfHeight)%js (lit 4)] in
  map (fun point => THREE.multiplyScalar (THREE.normalize point) sphereRadius) points.

(** [createSpherePolygon()] *)
Definition createSpherePolygon (e : Editor) : Editor :=
  set_globe (set_polygons (polygonCorners (polygonWidth e) (polygonHeight e)) (globe e)) e.

(** [recreatePolygon()] *)
Definition recreatePolygon (e : Editor) : Editor :=
  match originalPolygonPoints (globe e) with
  | None => e
  | Some _ =>
      set_globe (set_polygons (polygonCorners (polygonWidth e) (polygonHeight e)) (globe e)) e
  end.

(** [updatePolygonSize()] *)
Definition updatePolygonSize (e : Editor) : Editor :=
  let e1 := recreatePolygon e in
  if realtimeClipping (globe e1)
  then set_globe (applyRealtimeClipping (globe e1)) e1
  else e1.

(** [crustOpacity], [mantleOpacity], [coreOpacity], event [input]:
    [this.crust.material.opacity = opacity] and its siblings.  The
    opacity is not among the fields of a material that the model keeps,
    so the state is left as it is; the listener tests nothing, and
    throws where the layer is missing. *)
Definition onLayerOpacity (l : Layer) (e : Editor) : option Editor :=
  match getLayer (globe e) l with
  | None => None
  | Some _ => Some e
  end.

(** What the user can do on the page, as far as the model goes: the
    mouse on the canvas, the buttons and sliders of the editing panel,
    the six polygon controls, and the layer and clipping controls. *)
Inductive EditorEvent :=
| MouseMove (hit : option (THREE.Vector3 F))
| MouseDown (button : Z) (hit : option (THREE.Vector3 F))
| MouseUp (button : Z)
| ContextMenu
| EditModeClick
| PolygonModeClick
| SmoothGlobeClick
| ExtrudeClick
| CompressClick
| BrushSizeInput (value : F)
| IntensityInput (value : F)
| PolygonAxisChange (value : string)
| PolygonPositionInput (value : F)
| PolygonRotationAxisChange (value : string)
| PolygonRotationInput (value : F)
| PolygonWidthInput (value : F)
| PolygonHeightInput (value : F)
| LayerToggle (l : Layer) (checked : bool)
| LayerOpacityInput (l : Layer) (value : F)
| RealtimeClippingChange (checked : bool)
| ClipCheckboxChange (l : Layer) (checked : bool)
| RestoreAllButton
| ClippingDirectionChange (value : string).

(** The listener of each event; [None] when it throws. *)
Definition onEvent (ev : EditorEvent) (e : Editor) : option Editor :=
  let a := globe e in
  match ev with
  | MouseMove hit => Some (onMouseMove hit e)
  | MouseDown button hit => Some (onMouseDown button hit e)
  | MouseUp button => Some (onMouseUp button e)
  | ContextMenu => onContextMenu e
  | EditModeClick => Some (toggleEditMode e)
  | PolygonModeClick => Some (togglePolygonMode e)
  | SmoothGlobeClick => Some (set_globe (smoothGlobe a) e)
  | ExtrudeClick => Some (set_globe (set_mode "extrude" a) e)
  | CompressClick => Some (set_globe (set_mode "compress" a) e)
  | BrushSizeInput value => Some (set_globe (set_brushSize value a) e)
  | IntensityInput value => Some (set_globe (set_intensity value a) e)
  | PolygonAxisChange value =>
      (fun a' => set_globe a' e) <$>
        updatePolygonPosition
          (set_polygonParams value (polygonPosition a) (polygonRotationAxis a)
             (polygonRotation a) a)
  | PolygonPositionInput value =>
      (fun a' => set_globe a' e) <$>
        updatePolygonPosition
          (set_polygonParams (polygonAxis a) value (polygonRotationAxis a)
             (polygonRotation a) a)
  | PolygonRotationAxisChange value =>
      (fun a' => set_globe a' e) <$>
        updatePolygonTransform
          (set_polygonParams (polygonAxis a) (polygonPosition a) value
             (polygonRotation a) a)
  | PolygonRotationInput value =>
      (fun a' => set_globe a' e) <$>
        updatePolygonTransform
          (set_polygonParams (polygonAxis a) (polygonPosition a)
             (polygonRotationAxis a) value a)
  | PolygonWidthInput value => Some (updatePolygonSize (set_polygonWidth value e))
  | PolygonHeightInput value => Some (updatePolygonSize (set_polygonHeight value e))
  | LayerToggle l checked => (fun a' => set_globe a' e) <$> onLayerToggle l checked a
  | LayerOpacityInput l value => onLayerOpacity l e
  | RealtimeClippingChange checked =>
      Some (set_globe (onRealtimeClippingToggle checked a) e)
  | ClipCheckboxChange l checked =>
      Some (set_globe (onClipCheckboxChange l checked a) e)
  | RestoreAllButton => Some (set_globe (onRestoreAll a) e)
  | ClippingDirectionChange value =>
      Some (set_globe (onClippingDirectionChange value a) e)
  end.

(** A session: the events in order, until one throws. *)
Fixpoint runEditor (events : list EditorEvent) (e : Editor) : option Editor :=
  match events with
  | [] => Some e
  | ev :: rest =>
      match onEvent ev e with
      | None => None
      | Some e' => runEditor rest e'
      end
  end.

End Editing.

Arguments Editor F : clear implicits.
Arguments EditorEvent F : clear implicits.

(** ** Vocabulary for the editor *)

Section EditorVocabulary.
Context {F : Type} `{Number F}.

(** The events of [handle] that write into the position array of the
    terrain. *)
Definition sculpts (ev : Event F) : bool :=
  match ev with
  | BrushStroke _ | TerrainRewritten _ => true
  | _ => false
  end.

(** Same renderer, same stored originals, and every layer with the
    geometry it had. *)
Definition sameGeometries (s s' : App F) : Prop :=
  renderer_isWebGPURenderer s' = renderer_isWebGPURenderer s
  /\ originalGeometries s' = originalGeometries s
  /\ forall l, layerGeometry s' l = layerGeometry s l.

(** The working polygon and the original one. *)
Definition polygons (s : App F)
    : option (list (THREE.Vector3 F)) * option (list (THREE.Vector3 F)) :=
  (clippingPolygon s, originalPolygonPoints s).

(** What keeps the unguarded reads of the listeners safe: the three
    layers exist, as [createEarthLayers] leaves them before any listener
    is registered (the layer toggles, the opacity sliders and the
    painter read a layer without a test), and the working polygon is as
    long as the original one (the polygon sliders read, for every
    working point, the original point with the same number). *)
Definition readsAreSafe (e : Editor F) : Prop :=
  (forall l, getLayer (globe e) l <> None)
  /\ forall original working,
       originalPolygonPoints (globe e) = Some original ->
       clippingPolygon (globe e) = Some working ->
       List.length working = List.length original.

End EditorVocabulary.

(** ** More scenes *)

(** The demo scene with real-time clipping on and the crust and the
    core enrolled. *)
Definition demoAppRealtime : App float :=
  set_realtimeClipping true
    (set_clipChecked Core true (set_clipChecked Crust true demoApp)).

(** An editor over the reals around [appR]: polygon mode on, three
    points clicked around the pole of the crust. *)
Definition editorR : Editor R :=
  mkEditor (appR 0) false false true
    [rvec (-10) 40 30; rvec 10 40 30; rvec 0 60 (-30)]
    "extrude" 50%R 50%R.

(** The editor around [appR] as the constructor leaves it, and the same
    editor with the brush in compress mode, polygon mode on and three
    points clicked. *)
Definition newEditorR : Editor R :=
  mkEditor (appR 0) false false false [] "extrude" 50%R 50%R.

Definition editorRCompress : Editor R :=
  mkEditor (set_mode "compress" (appR 0)) false false true
    [rvec (-10) 40 30; rvec 10 40 30; rvec 0 60 (-30)]
    "extrude" 50%R 50%R.

(** A mantle and a core over the reals, and the editor as the
    constructor and [createEarthLayers] leave it, with the three
    layers. *)
Definition mantleR : THREE.Mesh R :=
  THREE.mkMesh "uuid-mantle"
    (THREE.mkBufferGeometry [rvec 0 40 0; rvec 40 0 0; rvec 0 0 40] (Some [0; 1; 2]%nat))
    (THREE.mkMaterial None false) true.

Definition coreR : THREE.Mesh R :=
  THREE.mkMesh "uuid-core"
    (THREE.mkBufferGeometry [rvec 0 20 0; rvec 20 0 0; rvec 0 0 20] (Some [0; 1; 2]%nat))
    (THREE.mkMaterial None false) true.

Definition editorRLayers : Editor R :=
  mkEditor
    (mkApp true (Some crustR) (Some mantleR) (Some coreR) ∅ ∅ "inside" false
       (Some squareR) (Some squareR) false false false
       "z" 0%R "x" 0%R 20%R "extrude" 2%R)
    false false false [] "extrude" 50%R 50%R.

(** The scene of [appR] with the polygon turned by 30 degrees about [x]
    and moved by 5 along [y]. *)
Definition appRTurned : App R := set_polygonParams "y" 5%R "x" 30%R (appR 0).

(** The height at which the corners of the clip rectangle lie: the third
    coordinate [4] of a corner before it is projected, scaled with the
    corner onto the sphere of radius 80. *)
Definition rectangleHeight (polygonWidth polygonHeight : R) : R :=
  let halfWidth := (80 * (polygonWidth / 50) / 2)%R in
  let halfHeight := (80 * (polygonHeight / 50) / 2)%R in
  (4 * (80 / R_sqrt.sqrt (halfWidth * halfWidth + halfHeight * halfHeight + 16)))%R.

(** A crust of four vertices at the heights 50, 0, 40 and -50, and the
    editor around it with real-time clipping on and the crust
    enrolled. *)
Definition crustRHeights : THREE.Mesh R :=
  THREE.mkMesh "uuid-crust"
    (THREE.mkBufferGeometry
       [rvec 0 0 50; rvec 0 50 0; rvec 30 0 40; rvec 0 0 (-50)]
       (Some [0; 1; 2; 1; 2; 3]%nat))
    (THREE.mkMaterial None false) true.

Definition editorRRealtime : Editor R :=
  mkEditor
    (mkApp true (Some crustRHeights) None None ∅ ∅ "inside" true
       (Some squareR) (Some squareR) true false false
       "z" 0%R "x" 0%R 20%R "extrude" 2%R)
    false false false [] "extrude" 50%R 50%R.

(* ================================================================== *)
(** * Properties *)
(* ================================================================== *)

(* ------------------------------------------------------------------ *)
(** ** Geometry clipping works from the pristine geometry (C1) *)
(* ------------------------------------------------------------------ *)

Section ClippingFacts.
Context {F : Type} `{Number F}.

Lemma countVisible_app (l1 l2 : list bool) :
  countVisible (l1 ++ l2) = countVisible l1 + countVisible l2.
Proof.
  unfold countVisible. rewrite List.filter_app, List.length_app. reflexivity.
Qed.

Lemma newIndexOf_S (vis : list bool) (i : nat) (b : bool) :
  vis !! i = Some b ->
  newIndexOf vis (S i) = newIndexOf vis i + (if b then 1 else 0).
Proof.
  intros Hi. unfold newIndexOf.
  rewrite (take_S_r _ _ _ Hi), countVisible_app.
  destruct b; reflexivity.
Qed.

Lemma isVisible_lookup (vis : list bool) (i : nat) :
  isVisible vis i = true <-> vis !! i = Some true.
Proof.
  unfold isVisible. revert i. induction vis as [|b vis IH]; intros [|i]; simpl.
  - split; discriminate.
  - split; discriminate.
  - split; [intros ->; reflexivity | intros [= ->]; reflexivity].
  - apply IH.
Qed.

Lemma compactLoop_spec (f : THREE.Vector3 F -> bool) (all : list (THREE.Vector3 F)) :
  forall (ps pre newPositions : list (THREE.Vector3 F)) (vertexMap : gmap nat nat),
    all = pre ++ ps ->
    mapUpTo (map f all) (List.length pre) vertexMap ->
    exists vertexMap',
      compactLoop (map f all) ps (List.length pre)
        (newPositions, vertexMap, newIndexOf (map f all) (List.length pre))
      = (newPositions ++ List.filter f ps, vertexMap', countVisible (map f all))
      /\ mapUpTo (map f all) (List.length all) vertexMap'.
Proof.
  induction ps as [|p rest IH]; intros pre newPositions vertexMap Hall Hmap.
  - rewrite app_nil_r in Hall. subst pre. simpl.
    exists vertexMap. rewrite app_nil_r. split; [|exact Hmap].
    unfold newIndexOf. rewrite <- (length_map f), firstn_all. reflexivity.
  - assert (Hp : map f all !! List.length pre = Some (f p)).
    { rewrite Hall, map_app. rewrite lookup_app_r by (rewrite length_map; lia).
      rewrite length_map, Nat.sub_diag. reflexivity. }
    assert (Hvis : isVisible (map f all) (List.length pre) = f p).
    { unfold isVisible. apply nth_lookup_Some with (d := false) in Hp. exact Hp. }
    assert (Hall' : all = (pre ++ [p]) ++ rest) by (rewrite <- app_assoc; exact Hall).
    assert (Hlen : List.length (pre ++ [p]) = S (List.length pre))
      by (rewrite length_app; simpl; lia).
    simpl. rewrite Hvis. destruct (f p) eqn:Hfp.
    + specialize (IH (pre ++ [p]) (newPositions ++ [p])
                    (<[List.length pre := newIndexOf (map f all) (List.length pre)]> vertexMap)
                    Hall').
      rewrite Hlen in IH. rewrite (newIndexOf_S _ _ _ Hp) in IH.
      rewrite Nat.add_1_r in IH.
      destruct IH as [vm' [Heq Hm']].
      { intros k. destruct (decide (k = List.length pre)) as [->|Hne].
        - rewrite lookup_insert_eq. rewrite bool_decide_eq_true_2 by lia.
          rewrite Hvis. reflexivity.
        - rewrite lookup_insert_ne by congruence. rewrite Hmap.
          destruct (decide (k < List.length pre)).
          + rewrite !bool_decide_eq_true_2 by lia. reflexivity.
          + rewrite !bool_decide_eq_false_2 by lia. reflexivity. }
      exists vm'. split; [|exact Hm']. rewrite Heq, <- app_assoc. reflexivity.
    + specialize (IH (pre ++ [p]) newPositions vertexMap Hall').
      rewrite Hlen in IH. rewrite (newIndexOf_S _ _ _ Hp) in IH.
      rewrite Nat.add_0_r in IH.
      destruct IH as [vm' [Heq Hm']].
      { intros k. rewrite Hmap. destruct (decide (k = List.length pre)) as [->|Hne].
        - rewrite bool_decide_eq_false_2 by lia.
          rewrite bool_decide_eq_true_2 by lia. rewrite Hvis. reflexivity.
        - destruct (decide (k < List.length pre)).
          + rewrite !bool_decide_eq_true_2 by lia. reflexivity.
          + rewrite !bool_decide_eq_false_2 by lia. reflexivity. }
      exists vm'. split; [|exact Hm']. exact Heq.
Qed.

End ClippingFacts.

Section GeometryClipping.
Context {F : Type} `{Number F}.

Lemma mapGet_visible (vis : list bool) (n : nat) (vertexMap : gmap nat nat) (a : nat) :
  mapUpTo vis n vertexMap -> List.length vis <= n ->
  isVisible vis a = true -> mapGet vertexMap a = newIndexOf vis a.
Proof.
  intros Hmap Hn Ha. unfold mapGet. rewrite Hmap, Ha.
  assert (a < List.length vis).
  { apply isVisible_lookup in Ha. apply lookup_lt_Some in Ha. exact Ha. }
  rewrite bool_decide_eq_true_2 by lia. reflexivity.
Qed.

Lemma indexLoop_spec (vis : list bool) (vertexMap : gmap nat nat) (n : nat) :
  mapUpTo vis n vertexMap -> List.length vis <= n ->
  forall (fuel : nat) (indices newIndices : list nat),
    List.length indices <= fuel ->
    indexLoop vis vertexMap indices newIndices
    = newIndices
      ++ flat_map (remapTriangle vis) (List.filter (allVisible vis) (triangles indices)).
Proof.
  intros Hmap Hn. induction fuel as [|fuel IH]; intros indices newIndices Hlen.
  - destruct indices; [|simpl in Hlen; lia]. simpl. rewrite app_nil_r. reflexivity.
  - destruct indices as [|a [|b [|c rest]]]; simpl; try (rewrite app_nil_r; reflexivity).
    simpl in Hlen.
    destruct (isVisible vis a) eqn:Ha; simpl;
      [destruct (isVisible vis b) eqn:Hb; simpl;
       [destruct (isVisible vis c) eqn:Hc; simpl|]|];
      rewrite IH by lia; try reflexivity.
    rewrite !(mapGet_visible vis n vertexMap) by assumption.
    rewrite <- app_assoc. reflexivity.
Qed.

Lemma clipGeometry_spec (direction : string) (clippingPlane : ClippingPlane F)
    (g : THREE.BufferGeometry F) :
  let vis := vertexVisibilityOf direction clippingPlane (THREE.position g) in
  let kept :=
    flat_map (remapTriangle vis) (List.filter (allVisible vis) (triangles (indexArray g))) in
  clipGeometry direction clippingPlane g
  = THREE.mkBufferGeometry
      (List.filter (shouldShow direction clippingPlane) (THREE.position g))
      (if (0 <? List.length kept)%nat then Some kept else None).
Proof.
  intros vis kept. unfold clipGeometry. fold vis.
  destruct (compactLoop_spec (shouldShow direction clippingPlane) (THREE.position g)
              (THREE.position g) [] [] ∅ eq_refl) as [vm [Heq Hvm]].
  { intros k. rewrite lookup_empty.
    destruct (bool_decide (k < List.length (@nil (THREE.Vector3 F)))) eqn:Hk;
      [|reflexivity].
    apply bool_decide_eq_true in Hk. simpl in Hk. lia. }
  change (List.length (@nil (THREE.Vector3 F))) with 0 in Heq.
  change (newIndexOf (map (shouldShow direction clippingPlane) (THREE.position g)) 0)
    with 0 in Heq.
  unfold vis, vertexVisibilityOf. rewrite Heq. simpl app.
  assert (Hidx : match THREE.index g with
                 | Some idx =>
                     indexLoop (map (shouldShow direction clippingPlane) (THREE.position g))
                       vm idx []
                 | None => []
                 end = kept).
  { unfold kept, indexArray, vis, vertexVisibilityOf.
    destruct (THREE.index g) as [idx|]; [|reflexivity].
    rewrite (indexLoop_spec _ vm _ Hvm) with (fuel := List.length idx).
    - reflexivity.
    - rewrite length_map. lia.
    - lia. }
  rewrite Hidx. reflexivity.
Qed.


Lemma filter_lookup_newIndexOf (f : THREE.Vector3 F -> bool) (ps : list (THREE.Vector3 F)) :
  forall (i : nat) (v : THREE.Vector3 F),
    ps !! i = Some v -> f v = true ->
    List.filter f ps !! newIndexOf (map f ps) i = Some v.
Proof.
  induction ps as [|p ps IH]; intros i v Hi Hv; [discriminate|].
  destruct i as [|i]; simpl in Hi.
  - injection Hi as ->. simpl. rewrite Hv. reflexivity.
  - specialize (IH i v Hi Hv). unfold newIndexOf in *. simpl.
    unfold countVisible in *. simpl.
    destruct (f p); simpl; exact IH.
Qed.

Lemma clone_eq (g : THREE.BufferGeometry F) : THREE.clone g = g.
Proof. destruct g; reflexivity. Qed.

Lemma getLayer_setLayer (l : Layer) (m : THREE.Mesh F) (s : App F) :
  getLayer (setLayer l m s) l = Some m.
Proof. destruct l; reflexivity. Qed.

Lemma getLayer_setLayer_ne (l l' : Layer) (m : THREE.Mesh F) (s : App F) :
  l <> l' -> getLayer (setLayer l m s) l' = getLayer s l'.
Proof. destruct l, l'; intros Hne; try reflexivity; contradiction. Qed.

(** What [applyGeometryClipping] leaves behind: the stored original is the
    pristine geometry, and the mesh holds the clip of it. *)
Lemma applyGeometryClipping_spec (l : Layer) (mesh : THREE.Mesh F)
    (clippingPlane : ClippingPlane F) (s : App F) :
  applyGeometryClipping l mesh clippingPlane s
  = setLayer l
      (THREE.setGeometry mesh
         (clipGeometry (clippingDirection s) clippingPlane (pristineOf s mesh)))
      (set_originalGeometries
         (<[THREE.uuid mesh := pristineOf s mesh]> (originalGeometries s)) s).
Proof.
  unfold applyGeometryClipping, pristineOf.
  destruct (originalGeometries s !! THREE.uuid mesh) as [g|] eqn:Hg.
  - rewrite Hg. rewrite insert_id by exact Hg. destruct s; reflexivity.
  - simpl. rewrite lookup_insert_eq, clone_eq. reflexivity.
Qed.

(** C1. Geometry clipping works from the pristine geometry of the mesh (the
    stored original, whatever the mesh holds now): a vertex [v] is
    visible iff [normal.x v.x + normal.y v.y + normal.z v.z + d > 0] in
    outside mode and iff that sum is [< 0] in inside mode (any direction
    other than outside counts as inside); the new position buffer is the
    visible pristine vertices in their order, vertex [i] going to
    [newIndexOf vis i]; the new index array is the pristine triangles
    whose three vertices are visible, renumbered by that map, and the
    new geometry has no index at all when no triangle is left (or the
    pristine geometry had none). *)
Theorem C1_geometry_clipping_from_pristine
    (s : App F) (l : Layer) (mesh : THREE.Mesh F) (clippingPlane : ClippingPlane F) :
  let pristine := pristineOf s mesh in
  let direction := clippingDirection s in
  let distance := fun v : THREE.Vector3 F =>
    (THREE.vx (cp_normal clippingPlane) * THREE.vx v
     + THREE.vy (cp_normal clippingPlane) * THREE.vy v
     + THREE.vz (cp_normal clippingPlane) * THREE.vz v
     + cp_d clippingPlane)%js in
  let visible := fun v : THREE.Vector3 F =>
    if String.eqb direction "outside"
    then (distance v >? lit 0)%js else (distance v <? lit 0)%js in
  let vis := map visible (THREE.position pristine) in
  let kept :=
    flat_map (remapTriangle vis)
      (List.filter (allVisible vis) (triangles (indexArray pristine))) in
  let s' := applyGeometryClipping l mesh clippingPlane s in
  exists g',
    getLayer s' l = Some (THREE.setGeometry mesh g')
    /\ originalGeometries s' !! THREE.uuid mesh = Some pristine
    /\ (forall v, shouldShow "outside" clippingPlane v = (distance v >? lit 0)%js)
    /\ (forall v, shouldShow "inside" clippingPlane v = (distance v <? lit 0)%js)
    /\ THREE.position g' = List.filter visible (THREE.position pristine)
    /\ (forall i v, THREE.position pristine !! i = Some v ->
                    visible v = true ->
                    THREE.position g' !! newIndexOf vis i = Some v)
    /\ (forall i v, THREE.position pristine !! i = Some v ->
                    visible v = false ->
                    forall t, In t (triangles (indexArray pristine)) ->
                              (t.1.1 = i \/ t.1.2 = i \/ t.2 = i) ->
                              allVisible vis t = false)
    /\ indexArray g' = kept
    /\ THREE.index g' = (if (0 <? List.length kept)%nat then Some kept else None)
    /\ (THREE.index pristine = None -> THREE.index g' = None).
Proof.
  intros pristine direction distance visible vis kept s'.
  assert (Hvisible : forall v, shouldShow direction clippingPlane v = visible v)
    by reflexivity.
  assert (Hvis : vertexVisibilityOf direction clippingPlane (THREE.position pristine) = vis)
    by reflexivity.
  exists (clipGeometry direction clippingPlane pristine).
  unfold s'. rewrite applyGeometryClipping_spec. fold pristine direction.
  split; [apply getLayer_setLayer|].
  split; [destruct l; simpl; apply lookup_insert_eq|].
  split; [reflexivity|]. split; [reflexivity|].
  rewrite clipGeometry_spec. rewrite Hvis. fold kept.
  cbn [THREE.position THREE.index].
  split; [reflexivity|]. split; [|split; [|split; [|split]]].
  - intros i v Hi Hv. apply filter_lookup_newIndexOf; assumption.
  - intros i v Hi Hv [[a b] c] _ Hin. cbn [fst snd] in Hin. cbn [allVisible].
    assert (Hhidden : isVisible vis i = false).
    { unfold isVisible, vis. rewrite (nth_lookup_Some _ _ false (visible v)).
      - exact Hv.
      - rewrite list_lookup_fmap, Hi. reflexivity. }
    destruct Hin as [Ha | [Hb | Hc]]; subst; rewrite Hhidden; cbn [andb];
      rewrite ?andb_false_r; reflexivity.
  - unfold indexArray at 1. cbn [THREE.index].
    destruct kept as [|a rest]; reflexivity.
  - reflexivity.
  - intros Hnone. assert (Hk : kept = []).
    { unfold kept, indexArray. rewrite Hnone. reflexivity. }
    rewrite Hk. reflexivity.
Qed.

End GeometryClipping.

(* ------------------------------------------------------------------ *)
(** ** Clip, restore, clip again (C3, C4) *)
(* ------------------------------------------------------------------ *)

Section Restoration.
Context {F : Type} `{Number F}.

Lemma layerOfName_layerName (l : Layer) : layerOfName (layerName l) = Some l.
Proof. destruct l; reflexivity. Qed.

Lemma setGeometry_same (m : THREE.Mesh F) : THREE.setGeometry m (THREE.geometry m) = m.
Proof. destruct m; reflexivity. Qed.

Lemma setLayer_same (l : Layer) (m : THREE.Mesh F) (s : App F) :
  getLayer s l = Some m -> setLayer l m s = s.
Proof. destruct s, l; simpl; intros ->; reflexivity. Qed.

(** In a state where the renderer is the WebGPU one, restoring a layer
    puts the pristine geometry back into its mesh. *)
Lemma restore_layer (l : Layer) (m : THREE.Mesh F) (s : App F) :
  renderer_isWebGPURenderer s = true ->
  getLayer s l = Some m ->
  getLayer (restoreOriginalGeometry (layerName l) s) l
  = Some (THREE.setGeometry m (pristineOf s m)).
Proof.
  intros Hgpu Hm. unfold restoreOriginalGeometry, pristineOf.
  rewrite layerOfName_layerName, Hm, Hgpu.
  destruct (originalGeometries s !! THREE.uuid m) as [g|].
  - rewrite clone_eq.
    match goal with
    | |- context [match ?c with Some _ => _ | None => _ end] => destruct c
    end; destruct l; reflexivity.
  - rewrite setGeometry_same.
    match goal with
    | |- context [match ?c with Some _ => _ | None => _ end] => destruct c
    end; destruct l; simpl in *; exact Hm.
Qed.

Lemma restore_originalGeometries (targetLayer : string) (s : App F) :
  originalGeometries (restoreOriginalGeometry targetLayer s) = originalGeometries s.
Proof.
  unfold restoreOriginalGeometry.
  destruct (layerOfName targetLayer) as [l|]; [|reflexivity].
  destruct (getLayer s l) as [m|]; [|reflexivity].
  repeat match goal with
         | |- context [if ?c then _ else _] => destruct c
         | |- context [match ?c with Some _ => _ | None => _ end] => destruct c
         end; destruct l; reflexivity.
Qed.

Lemma pristineOf_after_clip (l : Layer) (m m' : THREE.Mesh F)
    (clippingPlane : ClippingPlane F) (s : App F) :
  THREE.uuid m' = THREE.uuid m ->
  pristineOf (applyGeometryClipping l m clippingPlane s) m' = pristineOf s m.
Proof.
  intros Hu. rewrite applyGeometryClipping_spec. unfold pristineOf at 1.
  rewrite Hu. destruct l; simpl; rewrite lookup_insert_eq; reflexivity.
Qed.

Lemma applyGeometryClipping_stored (l : Layer) (m : THREE.Mesh F)
    (clippingPlane : ClippingPlane F) (s : App F) :
  originalGeometries (applyGeometryClipping l m clippingPlane s) !! THREE.uuid m
  = Some (pristineOf s m).
Proof.
  rewrite applyGeometryClipping_spec. destruct l; simpl; apply lookup_insert_eq.
Qed.

Lemma applyGeometryClipping_renderer (l : Layer) (m : THREE.Mesh F)
    (clippingPlane : ClippingPlane F) (s : App F) :
  renderer_isWebGPURenderer (applyGeometryClipping l m clippingPlane s)
  = renderer_isWebGPURenderer s.
Proof. rewrite applyGeometryClipping_spec. destruct l; reflexivity. Qed.

Lemma applyGeometryClipping_layer (l : Layer) (m : THREE.Mesh F)
    (clippingPlane : ClippingPlane F) (s : App F) :
  getLayer (applyGeometryClipping l m clippingPlane s) l
  = Some (THREE.setGeometry m
            (clipGeometry (clippingDirection s) clippingPlane (pristineOf s m))).
Proof. rewrite applyGeometryClipping_spec. apply getLayer_setLayer. Qed.

(** C3. With the geometry strategy (WebGPU renderer), clipping a layer and
    then restoring it leaves the mesh with the pristine geometry, hence
    with the pristine vertex and triangle counts; for a layer that held
    its pristine geometry before the clip these are the counts it had
    before the clip. *)
Theorem C3_clip_restore_round_trip
    (s : App F) (l : Layer) (mesh : THREE.Mesh F) (clippingPlane : ClippingPlane F) :
  renderer_isWebGPURenderer s = true ->
  getLayer s l = Some mesh ->
  let pristine := pristineOf s mesh in
  let s' := restoreOriginalGeometry (layerName l)
              (applyGeometryClipping l mesh clippingPlane s) in
  exists g',
    layerGeometry s' l = Some g'
    /\ g' = pristine
    /\ vertexCount g' = vertexCount pristine
    /\ triangleCount g' = triangleCount pristine
    /\ (THREE.geometry mesh = pristine ->
        vertexCount g' = vertexCount (THREE.geometry mesh)
        /\ triangleCount g' = triangleCount (THREE.geometry mesh)).
Proof.
  intros Hgpu Hm pristine s'.
  exists pristine. unfold s', layerGeometry.
  rewrite (restore_layer l _ _ (eq_trans (applyGeometryClipping_renderer _ _ _ _) Hgpu)
             (applyGeometryClipping_layer _ _ _ _)).
  rewrite pristineOf_after_clip by reflexivity.
  split; [reflexivity|]. split; [reflexivity|].
  split; [reflexivity|]. split; [reflexivity|].
  intros Hg. rewrite Hg. split; reflexivity.
Qed.

(** C4. Clipping a layer, restoring it and clipping it again with the same
    plane (the direction being what it was) gives the geometry, hence the
    vertex and triangle counts, that clipping once gives. *)
Theorem C4_reclip_after_restore_idempotent
    (s : App F) (l : Layer) (mesh : THREE.Mesh F) (clippingPlane : ClippingPlane F) :
  let once := applyGeometryClipping l mesh clippingPlane s in
  let restored := restoreOriginalGeometry (layerName l) once in
  exists mesh' g1 g2,
    getLayer restored l = Some mesh'
    /\ clippingDirection restored = clippingDirection s
    /\ layerGeometry once l = Some g1
    /\ layerGeometry (applyGeometryClipping l mesh' clippingPlane restored) l = Some g2
    /\ g2 = g1
    /\ vertexCount g2 = vertexCount g1
    /\ triangleCount g2 = triangleCount g1.
Proof.
  intros once restored.
  set (g1 := clipGeometry (clippingDirection s) clippingPlane (pristineOf s mesh)).
  assert (Honce : getLayer once l = Some (THREE.setGeometry mesh g1))
    by apply applyGeometryClipping_layer.
  assert (Hdir : clippingDirection once = clippingDirection s).
  { unfold once. rewrite applyGeometryClipping_spec. destruct l; reflexivity. }
  assert (Hrest : exists mesh', getLayer restored l = Some mesh'
                   /\ THREE.uuid mesh' = THREE.uuid mesh
                   /\ clippingDirection restored = clippingDirection s
                   /\ originalGeometries restored = originalGeometries once).
  { unfold restored. rewrite restore_originalGeometries.
    unfold restoreOriginalGeometry. rewrite layerOfName_layerName, Honce.
    repeat match goal with
           | |- context [if ?c then _ else _] => destruct c
           | |- context [match ?c with Some _ => _ | None => _ end] => destruct c
           end;
      (eexists; split;
       [first [apply getLayer_setLayer | destruct l; simpl in *; exact Honce]
       |split; [reflexivity|split; [destruct l; exact Hdir|reflexivity]]]). }
  destruct Hrest as [mesh' [Hm' [Hu [Hd Hog]]]].
  exists mesh', g1, g1. split; [exact Hm'|]. split; [exact Hd|].
  split; [unfold layerGeometry; rewrite Honce; reflexivity|].
  split; [|repeat split].
  unfold layerGeometry. rewrite applyGeometryClipping_layer. simpl.
  rewrite Hd. unfold g1.
  assert (Hp : pristineOf restored mesh' = pristineOf s mesh).
  { unfold pristineOf at 1. rewrite Hog, Hu. unfold once.
    rewrite applyGeometryClipping_stored. reflexivity. }
  rewrite Hp. reflexivity.
Qed.

End Restoration.

(** Witness of C3: the crust of the demo scene, clipped by the plane of
    the demo polygon and restored. *)
Lemma C3_clip_restore_round_trip_witness :
  renderer_isWebGPURenderer demoApp = true
  /\ getLayer demoApp Crust = Some demoCrust
  /\ exists g',
       layerGeometry
         (restoreOriginalGeometry (layerName Crust)
            (applyGeometryClipping Crust demoCrust demoPlane demoApp)) Crust = Some g'
       /\ g' = pristineOf demoApp demoCrust
       /\ vertexCount g' = vertexCount (pristineOf demoApp demoCrust)
       /\ triangleCount g' = triangleCount (pristineOf demoApp demoCrust)
       /\ (THREE.geometry demoCrust = pristineOf demoApp demoCrust ->
           vertexCount g' = vertexCount (THREE.geometry demoCrust)
           /\ triangleCount g' = triangleCount (THREE.geometry demoCrust)).
Proof.
  split; [reflexivity|]. split; [reflexivity|].
  apply (C3_clip_restore_round_trip demoApp Crust demoCrust demoPlane); reflexivity.
Defined.

(* ------------------------------------------------------------------ *)
(** ** The stored original outlives the session (C10) *)
(* ------------------------------------------------------------------ *)

Section SessionInvariant.
Context {F : Type} `{Number F}.

Lemma extends_refl (s : App F) : extends s s.
Proof. unfold extends. repeat split; eauto. Qed.

Lemma extends_trans (s1 s2 s3 : App F) :
  extends s1 s2 -> extends s2 s3 -> extends s1 s3.
Proof.
  intros [Hr1 [Hl1 Ho1]] [Hr2 [Hl2 Ho2]]. split; [congruence|]. split.
  - intros l m Hm. destruct (Hl1 l m Hm) as [m' [Hm' Hu']].
    destruct (Hl2 l m' Hm') as [m'' [Hm'' Hu'']].
    exists m''. split; [exact Hm''|congruence].
  - intros id g Hg. apply Ho2, Ho1, Hg.
Qed.

(** Replacing the mesh of a layer by one with the same [uuid]. *)
Lemma extends_setLayer (l : Layer) (m m' : THREE.Mesh F) (s : App F) :
  getLayer s l = Some m -> THREE.uuid m' = THREE.uuid m ->
  extends s (setLayer l m' s).
Proof.
  intros Hm Hu. split; [destruct l; reflexivity|]. split.
  - intros l0 m0 Hm0. destruct (decide (l = l0)) as [<-|Hne].
    + exists m'. rewrite getLayer_setLayer. split; congruence.
    + exists m0. rewrite getLayer_setLayer_ne by exact Hne. split; [exact Hm0|reflexivity].
  - intros id g Hg. destruct l; exact Hg.
Qed.

Lemma extends_set_clippingPlanes (cps : gmap string (list (StoredPlane F))) (s : App F) :
  extends s (set_clippingPlanes cps s).
Proof. unfold extends. simpl. repeat split; eauto. Qed.

Lemma extends_set_clippingDirection (dir : string) (s : App F) :
  extends s (set_clippingDirection dir s).
Proof. unfold extends. simpl. repeat split; eauto. Qed.

Lemma extends_set_realtimeClipping (b : bool) (s : App F) :
  extends s (set_realtimeClipping b s).
Proof. unfold extends. simpl. repeat split; eauto. Qed.

Lemma extends_set_clippingPolygon (pts : option (list (THREE.Vector3 F))) (s : App F) :
  extends s (set_clippingPolygon pts s).
Proof. unfold extends. simpl. repeat split; eauto. Qed.

Lemma extends_set_clipChecked (l : Layer) (b : bool) (s : App F) :
  extends s (set_clipChecked l b s).
Proof. unfold extends. simpl. repeat split; eauto. Qed.

Lemma extends_applyGeometryClipping (l : Layer) (m : THREE.Mesh F)
    (clippingPlane : ClippingPlane F) (s : App F) :
  getLayer s l = Some m ->
  extends s (applyGeometryClipping l m clippingPlane s).
Proof.
  intros Hm. rewrite applyGeometryClipping_spec.
  eapply extends_trans; [|apply (extends_setLayer l m); [destruct l; exact Hm|reflexivity]].
  split; [reflexivity|]. split; [intros l0 m0 Hm0; exists m0; split; [exact Hm0|reflexivity]|].
  intros id g Hg. simpl. destruct (decide (id = THREE.uuid m)) as [->|Hne].
  - rewrite lookup_insert_eq. unfold pristineOf. rewrite Hg. reflexivity.
  - rewrite lookup_insert_ne by congruence. exact Hg.
Qed.

Lemma extends_applyMaterialClipping (l : Layer) (m : THREE.Mesh F)
    (clippingPlane : ClippingPlane F) (s : App F) :
  getLayer s l = Some m ->
  extends s (applyMaterialClipping l m clippingPlane s).
Proof.
  intros Hm. unfold applyMaterialClipping, applyWebGPUClipping.
  destruct (renderer_isWebGPURenderer s).
  - eapply extends_trans; [apply extends_set_clippingPlanes|].
    apply extends_applyGeometryClipping. exact Hm.
  - destruct (clippingPlanes s !! THREE.uuid m).
    + apply (extends_setLayer l m); [exact Hm|reflexivity].
    + eapply extends_trans; [apply extends_set_clippingPlanes|].
      apply (extends_setLayer l m); [exact Hm|reflexivity].
Qed.

Lemma extends_clipSphereWithPolygon (targetLayer : string) (s : App F) :
  extends s (clipSphereWithPolygon targetLayer s).
Proof.
  unfold clipSphereWithPolygon.
  destruct (clippingPolygon s) as [polygon|]; [|apply extends_refl].
  destruct (List.length polygon <? 3)%nat; [apply extends_refl|].
  destruct (layerOfName targetLayer) as [l|]; [|apply extends_refl].
  destruct (getLayer s l) as [m|] eqn:Hm; [|apply extends_refl].
  destruct (calculateClippingPlane s); [|apply extends_refl].
  apply extends_applyMaterialClipping. exact Hm.
Qed.

Lemma extends_updateMaterialClipping (targetLayer : string) (s : App F) :
  extends s (updateMaterialClipping targetLayer s).
Proof.
  unfold updateMaterialClipping.
  destruct (clippingPolygon s) as [polygon|]; [|apply extends_refl].
  destruct (List.length polygon <? 3)%nat; [apply extends_refl|].
  destruct (layerOfName targetLayer) as [l|]; [|apply extends_refl].
  destruct (getLayer s l) as [m|] eqn:Hm; [|apply extends_refl].
  destruct (calculateClippingPlane s); [|apply extends_refl].
  apply (extends_setLayer l m); [exact Hm|reflexivity].
Qed.

Lemma extends_restoreOriginalGeometry (targetLayer : string) (s : App F) :
  extends s (restoreOriginalGeometry targetLayer s).
Proof.
  unfold restoreOriginalGeometry.
  destruct (layerOfName targetLayer) as [l|]; [|apply extends_refl].
  destruct (getLayer s l) as [m|] eqn:Hm; [|apply extends_refl].
  match goal with
  | |- extends s (match clippingPlanes ?s1 !! _ with _ => _ end) =>
      assert (Hs1 : extends s s1)
  end.
  { destruct (renderer_isWebGPURenderer s).
    - destruct (originalGeometries s !! THREE.uuid m); [|apply extends_refl].
      apply (extends_setLayer l m); [exact Hm|reflexivity].
    - destruct (THREE.clippingPlanes (THREE.material m)); [|apply extends_refl].
      apply (extends_setLayer l m); [exact Hm|reflexivity]. }
  match goal with
  | |- context [match ?c with Some _ => _ | None => _ end] => destruct c
  end; [|exact Hs1].
  eapply extends_trans; [exact Hs1|apply extends_set_clippingPlanes].
Qed.

Lemma extends_editTerrain (hit : option (THREE.Vector3 F)) (s : App F) :
  extends s (editTerrain hit s).
Proof.
  unfold editTerrain, terrain.
  destruct (crust s) as [t|] eqn:Ht; [|apply extends_refl].
  destruct hit; [|apply extends_refl].
  apply (extends_setLayer Crust t); [exact Ht|reflexivity].
Qed.

Lemma extends_when (cond : bool) (method : App F -> App F) (s : App F) :
  (forall s0, extends s0 (method s0)) -> extends s (when cond method s).
Proof. intros Hm. unfold when. destruct cond; [apply Hm|apply extends_refl]. Qed.

End SessionInvariant.

Section SessionRuns.
Context {F : Type} `{Number F}.

Ltac last_step :=
  first
    [ apply extends_when; intros; last_step
    | apply extends_clipSphereWithPolygon
    | apply extends_updateMaterialClipping
    | apply extends_restoreOriginalGeometry
    | apply extends_editTerrain
    | apply extends_set_clippingPlanes
    | apply extends_set_clippingDirection
    | apply extends_set_realtimeClipping
    | apply extends_set_clippingPolygon
    | apply extends_set_clipChecked ].

Ltac chain :=
  cbv zeta;
  repeat match goal with
         | |- extends ?s ?s => apply extends_refl
         | |- extends ?s (_ ?s) => last_step
         | |- extends ?s (_ _) => eapply extends_trans; [|last_step]
         end.

Lemma extends_applyRealtimeClipping (s : App F) : extends s (applyRealtimeClipping s).
Proof. unfold applyRealtimeClipping. destruct (renderer_isWebGPURenderer s); chain. Qed.

Lemma extends_reapplyClippingToAllLayers (s : App F) :
  extends s (reapplyClippingToAllLayers s).
Proof. unfold reapplyClippingToAllLayers. chain. Qed.

Lemma extends_restoreAllLayers (s : App F) : extends s (restoreAllLayers s).
Proof. unfold restoreAllLayers. chain. Qed.

Lemma extends_applyClippingToSelectedLayers (s : App F) :
  extends s (applyClippingToSelectedLayers s).
Proof. unfold applyClippingToSelectedLayers. chain. Qed.

Lemma extends_updateClippingOnPolygonMove (s : App F) :
  extends s (updateClippingOnPolygonMove s).
Proof.
  unfold updateClippingOnPolygonMove.
  destruct (negb (realtimeClipping s)); [apply extends_refl|].
  destruct (renderer_isWebGPURenderer s); chain.
Qed.

Lemma extends_handleLayerSelectionChange (l : Layer) (s : App F) :
  extends s (handleLayerSelectionChange l s).
Proof.
  unfold handleLayerSelectionChange.
  destruct (negb (realtimeClipping s)); [apply extends_refl|].
  destruct (clipChecked s l); chain.
Qed.

Lemma extends_handle (e : Event F) (s : App F) : extends s (handle e s).
Proof.
  destruct e; simpl.
  - chain.
  - chain.
  - chain.
  - unfold rewriteTerrain, terrain.
    destruct (crust s) as [t|] eqn:Ht; [|apply extends_refl].
    apply (extends_setLayer Crust t); [exact Ht|reflexivity].
  - unfold onLayerToggle.
    destruct (getLayer s l) as [m|] eqn:Hm; [|apply extends_refl].
    apply (extends_setLayer l m); [exact Hm|reflexivity].
  - unfold onRealtimeClippingToggle.
    destruct (realtimeClipping (set_realtimeClipping checked s)).
    + eapply extends_trans; [|apply extends_applyClippingToSelectedLayers].
      unfold checkAllLayersForClipping. chain.
    + eapply extends_trans; [|apply extends_restoreAllLayers]. chain.
  - unfold onClipCheckboxChange.
    eapply extends_trans; [|apply extends_handleLayerSelectionChange]. chain.
  - apply extends_restoreAllLayers.
  - unfold onClippingDirectionChange.
    eapply extends_trans; [|apply extends_reapplyClippingToAllLayers]. chain.
  - unfold afterPolygonMove.
    eapply extends_trans; [apply extends_set_clippingPolygon|].
    destruct (realtimeClipping _);
      [apply extends_applyRealtimeClipping|apply extends_updateClippingOnPolygonMove].
Qed.

Lemma extends_run (events : list (Event F)) :
  forall s : App F, extends s (run events s).
Proof.
  induction events as [|e rest IH]; intros s; simpl; [apply extends_refl|].
  eapply extends_trans; [apply extends_handle|apply IH].
Qed.

End SessionRuns.

Section SnapshotLifetime.
Context {F : Type} `{Number F}.

(** C10. For a layer that has not been clipped yet, the first geometry
    clipping stores the geometry the mesh holds at that moment; whatever
    happens afterwards (clippings, restorations, brush strokes, the
    listeners of the clipping controls), that stored geometry is neither
    replaced nor removed, a restoration puts exactly it back, and a
    clipping is computed from it: what the brush did to the layer in the
    meantime is gone. *)
Theorem C10_snapshot_fixed_at_first_clip
    (s0 : App F) (l : Layer) (mesh : THREE.Mesh F)
    (clippingPlane clippingPlane' : ClippingPlane F) (events : list (Event F)) :
  renderer_isWebGPURenderer s0 = true ->
  getLayer s0 l = Some mesh ->
  originalGeometries s0 !! THREE.uuid mesh = None ->
  let first := applyGeometryClipping l mesh clippingPlane s0 in
  let later := run events first in
  originalGeometries first !! THREE.uuid mesh = Some (THREE.geometry mesh)
  /\ originalGeometries later !! THREE.uuid mesh = Some (THREE.geometry mesh)
  /\ exists mesh',
       getLayer later l = Some mesh'
       /\ THREE.uuid mesh' = THREE.uuid mesh
       /\ layerGeometry (restoreOriginalGeometry (layerName l) later) l
          = Some (THREE.geometry mesh)
       /\ layerGeometry (applyGeometryClipping l mesh' clippingPlane' later) l
          = Some (clipGeometry (clippingDirection later) clippingPlane'
                    (THREE.geometry mesh)).
Proof.
  intros Hgpu Hm Hnone first later.
  assert (Hp : pristineOf s0 mesh = THREE.geometry mesh)
    by (unfold pristineOf; rewrite Hnone; reflexivity).
  assert (Hfirst : originalGeometries first !! THREE.uuid mesh = Some (THREE.geometry mesh)).
  { unfold first. rewrite applyGeometryClipping_stored, Hp. reflexivity. }
  destruct (extends_run events first) as [Hr [Hl Ho]]. fold later in Hr, Hl, Ho.
  pose proof (Ho _ _ Hfirst) as Hlater.
  destruct (Hl l _ (applyGeometryClipping_layer l mesh clippingPlane s0))
    as [mesh' [Hm' Hu']].
  simpl in Hu'.
  assert (Hp' : pristineOf later mesh' = THREE.geometry mesh)
    by (unfold pristineOf; rewrite Hu', Hlater; reflexivity).
  split; [exact Hfirst|]. split; [exact Hlater|].
  exists mesh'. split; [exact Hm'|]. split; [exact Hu'|]. split.
  - unfold layerGeometry. rewrite (restore_layer l mesh').
    + simpl. rewrite Hp'. reflexivity.
    + rewrite Hr. unfold first. rewrite applyGeometryClipping_renderer. exact Hgpu.
    + exact Hm'.
  - unfold layerGeometry. rewrite applyGeometryClipping_layer. simpl.
    rewrite Hp'. reflexivity.
Qed.

End SnapshotLifetime.

(** Witness of C10: the crust is clipped, sculpted at the pole, clipped
    again through the real-time path, and then restored or clipped. *)
Lemma C10_snapshot_fixed_at_first_clip_witness :
  renderer_isWebGPURenderer demoApp = true
  /\ getLayer demoApp Crust = Some demoCrust
  /\ originalGeometries demoApp !! THREE.uuid demoCrust = None
  /\ let first := applyGeometryClipping Crust demoCrust demoPlane demoApp in
     let later :=
       run [RestoreLayer "crust"; BrushStroke (Some (fvec 0 0 50));
            VisibilityToggle Mantle false; RealtimeToggle true;
            DirectionChange "outside"] first in
     originalGeometries first !! THREE.uuid demoCrust = Some (THREE.geometry demoCrust)
     /\ originalGeometries later !! THREE.uuid demoCrust = Some (THREE.geometry demoCrust)
     /\ exists mesh',
          getLayer later Crust = Some mesh'
          /\ THREE.uuid mesh' = THREE.uuid demoCrust
          /\ layerGeometry (restoreOriginalGeometry (layerName Crust) later) Crust
             = Some (THREE.geometry demoCrust)
          /\ layerGeometry (applyGeometryClipping Crust mesh' demoPlane later) Crust
             = Some (clipGeometry (clippingDirection later) demoPlane
                       (THREE.geometry demoCrust)).
Proof.
  split; [reflexivity|]. split; [reflexivity|]. split; [reflexivity|].
  apply (C10_snapshot_fixed_at_first_clip demoApp Crust demoCrust demoPlane demoPlane);
    reflexivity.
Defined.

(* ------------------------------------------------------------------ *)
(** ** Change of direction and the layer fan-out (C8) *)
(* ------------------------------------------------------------------ *)

Section FanOut.
Context {F : Type} `{Number F}.

Lemma originalGeometries_setLayer (l : Layer) (m : THREE.Mesh F) (s : App F) :
  originalGeometries (setLayer l m s) = originalGeometries s.
Proof. destruct l; reflexivity. Qed.

Lemma calculateClippingPlane_polygon (s : App F) (clippingPlane : ClippingPlane F) :
  calculateClippingPlane s = Some clippingPlane ->
  exists polygon, clippingPolygon s = Some polygon /\ (List.length polygon <? 3)%nat = false.
Proof.
  unfold calculateClippingPlane.
  destruct (clippingPolygon s) as [[|p0 [|p1 [|p2 rest]]]|]; try discriminate.
  intros _. eexists. split; reflexivity.
Qed.

(** On a WebGPU renderer, with a plane to be had, [clipSphereWithPolygon]
    records the plane and clips the geometry. *)
Lemma clipSphereWithPolygon_webgpu (l : Layer) (m : THREE.Mesh F)
    (clippingPlane : ClippingPlane F) (s : App F) :
  renderer_isWebGPURenderer s = true ->
  calculateClippingPlane s = Some clippingPlane ->
  getLayer s l = Some m ->
  clipSphereWithPolygon (layerName l) s = applyWebGPUClipping l m clippingPlane s.
Proof.
  intros Hgpu Hplane Hm. unfold clipSphereWithPolygon.
  destruct (calculateClippingPlane_polygon s _ Hplane) as [polygon [-> ->]].
  rewrite layerOfName_layerName, Hm, Hplane.
  unfold applyMaterialClipping. rewrite Hgpu. reflexivity.
Qed.

Lemma applyWebGPUClipping_unfold (l : Layer) (m : THREE.Mesh F)
    (clippingPlane : ClippingPlane F) (s : App F) :
  exists cps,
    applyWebGPUClipping l m clippingPlane s
    = setLayer l
        (THREE.setGeometry m
           (clipGeometry (clippingDirection s) clippingPlane (pristineOf s m)))
        (set_originalGeometries
           (<[THREE.uuid m := pristineOf s m]> (originalGeometries s))
           (set_clippingPlanes cps s)).
Proof.
  unfold applyWebGPUClipping. eexists. rewrite applyGeometryClipping_spec. reflexivity.
Qed.

Lemma restore_unfold (l : Layer) (m : THREE.Mesh F) (s : App F) :
  renderer_isWebGPURenderer s = true ->
  getLayer s l = Some m ->
  exists cps,
    restoreOriginalGeometry (layerName l) s
    = set_clippingPlanes cps (setLayer l (THREE.setGeometry m (pristineOf s m)) s).
Proof.
  intros Hgpu Hm. unfold restoreOriginalGeometry, pristineOf.
  rewrite layerOfName_layerName, Hm, Hgpu.
  destruct (originalGeometries s !! THREE.uuid m) as [g|].
  - rewrite clone_eq.
    match goal with
    | |- context [match ?c with Some _ => _ | None => _ end] => destruct c
    end.
    + eexists. reflexivity.
    + exists (clippingPlanes s). destruct l; reflexivity.
  - rewrite setGeometry_same, (setLayer_same l m s Hm).
    match goal with
    | |- context [match ?c with Some _ => _ | None => _ end] => destruct c
    end.
    + eexists. reflexivity.
    + exists (clippingPlanes s). destruct s; reflexivity.
Qed.



Lemma tracked_clip_self (l : Layer) (m : THREE.Mesh F)
    (pristine : THREE.BufferGeometry F) (clippingPlane : ClippingPlane F)
    (direction : string) (g : THREE.BufferGeometry F) (s : App F) :
  layerTracked l m pristine clippingPlane direction g s ->
  layerTracked l m pristine clippingPlane direction
    (if THREE.visible m then clipGeometry direction clippingPlane pristine else g)
    (when (layerVisible s l) (clipSphereWithPolygon (layerName l)) s).
Proof.
  intros Htr. pose proof Htr as [Hgpu [Hplane [Hdir [Hm [Hp Hothers]]]]].
  unfold when, layerVisible. rewrite Hm. simpl.
  destruct (THREE.visible m); [|exact Htr].
  rewrite (clipSphereWithPolygon_webgpu l _ clippingPlane s Hgpu Hplane Hm).
  destruct (applyWebGPUClipping_unfold l (THREE.setGeometry m g) clippingPlane s)
    as [cps ->].
  rewrite Hp, Hdir. unfold layerTracked. simpl.
  split; [destruct l; exact Hgpu|]. split; [destruct l; exact Hplane|].
  split; [destruct l; exact Hdir|].
  split; [destruct l; reflexivity|]. split.
  - unfold pristineOf. simpl.
    rewrite ?originalGeometries_setLayer. simpl.
    rewrite lookup_insert_eq. reflexivity.
  - intros l' m' Hne Hm'. apply (Hothers l' m' Hne).
    destruct l, l'; try contradiction; exact Hm'.
Qed.

Lemma tracked_clip_other (l l' : Layer) (m : THREE.Mesh F)
    (pristine : THREE.BufferGeometry F) (clippingPlane : ClippingPlane F)
    (direction : string) (g : THREE.BufferGeometry F) (s : App F) :
  l' <> l ->
  layerTracked l m pristine clippingPlane direction g s ->
  layerTracked l m pristine clippingPlane direction g
    (when (layerVisible s l') (clipSphereWithPolygon (layerName l')) s).
Proof.
  intros Hne Htr. pose proof Htr as [Hgpu [Hplane [Hdir [Hm [Hp Hothers]]]]].
  unfold when, layerVisible.
  destruct (getLayer s l') as [m1|] eqn:Hm1; [|exact Htr].
  destruct (THREE.visible m1); [|exact Htr].
  rewrite (clipSphereWithPolygon_webgpu l' _ clippingPlane s Hgpu Hplane Hm1).
  destruct (applyWebGPUClipping_unfold l' m1 clippingPlane s) as [cps ->].
  pose proof (Hothers l' m1 Hne Hm1) as Hu1.
  unfold layerTracked.
  split; [destruct l'; exact Hgpu|]. split; [destruct l'; exact Hplane|].
  split; [destruct l'; exact Hdir|].
  split; [destruct l, l'; try contradiction; exact Hm|]. split.
  - unfold pristineOf in *. simpl in *.
    rewrite ?originalGeometries_setLayer. simpl.
    rewrite lookup_insert_ne by exact Hu1. exact Hp.
  - intros l2 m2 Hne2 Hm2. destruct (decide (l2 = l')) as [->|Hne3].
    + assert (Hu : THREE.uuid m2 = THREE.uuid m1).
      { destruct l'; simpl in Hm2; injection Hm2 as <-; reflexivity. }
      rewrite Hu. exact Hu1.
    + apply (Hothers l2 m2 Hne2).
      destruct l', l2; try contradiction; exact Hm2.
Qed.


End FanOut.

Lemma demoApp_uuidsDistinct : uuidsDistinct demoApp.
Proof.
  intros l1 l2 m1 m2 Hne H1 H2.
  destruct l1, l2; try contradiction; simpl in H1, H2;
    injection H1 as <-; injection H2 as <-; discriminate.
Qed.



(* ------------------------------------------------------------------ *)
(** ** Material planes and stored planes under re-application (C7) *)
(* ------------------------------------------------------------------ *)

Section MaterialClipping.
Context {F : Type} `{Number F}.

Lemma calculateClippingPlane_setLayer (l : Layer) (m : THREE.Mesh F) (s : App F) :
  calculateClippingPlane (setLayer l m s) = calculateClippingPlane s.
Proof. destruct l; reflexivity. Qed.

Lemma clippingPlanes_setLayer (l : Layer) (m : THREE.Mesh F) (s : App F) :
  clippingPlanes (setLayer l m s) = clippingPlanes s.
Proof. destruct l; reflexivity. Qed.

(** Without the WebGPU flag, [clipSphereWithPolygon] appends a plane to
    the list of the material. *)
Lemma clipSphereWithPolygon_material (l : Layer) (m : THREE.Mesh F)
    (clippingPlane : ClippingPlane F) (s : App F) :
  renderer_isWebGPURenderer s = false ->
  calculateClippingPlane s = Some clippingPlane ->
  getLayer s l = Some m ->
  let s' := clipSphereWithPolygon (layerName l) s in
  renderer_isWebGPURenderer s' = false
  /\ calculateClippingPlane s' = Some clippingPlane
  /\ materialPlanes s' l
     = materialPlanes s l
       ++ [THREE.mkPlane (cp_normal clippingPlane) (cp_d clippingPlane)].
Proof.
  intros Hgl Hplane Hm s'. unfold s', clipSphereWithPolygon.
  destruct (calculateClippingPlane_polygon s _ Hplane) as [polygon [-> ->]].
  rewrite layerOfName_layerName, Hm, Hplane.
  unfold applyMaterialClipping. rewrite Hgl.
  unfold materialPlanes. rewrite getLayer_setLayer, Hm. simpl.
  rewrite calculateClippingPlane_setLayer.
  destruct (clippingPlanes s !! THREE.uuid m);
    (split; [destruct l; exact Hgl|]; split; [exact Hplane|]);
    destruct (THREE.clippingPlanes (THREE.material m)); reflexivity.
Qed.

(** The sibling [updateMaterialClipping] does what the specification
    says: it rewrites the first plane of a list that has one, and makes a
    list of one plane otherwise. *)
Lemma updateMaterialClipping_replaces (l : Layer) (m : THREE.Mesh F)
    (clippingPlane : ClippingPlane F) (s : App F) :
  calculateClippingPlane s = Some clippingPlane ->
  getLayer s l = Some m ->
  materialPlanes (updateMaterialClipping (layerName l) s) l
  = THREE.mkPlane (cp_normal clippingPlane) (cp_d clippingPlane)
    :: tail (materialPlanes s l).
Proof.
  intros Hplane Hm. unfold updateMaterialClipping.
  destruct (calculateClippingPlane_polygon s _ Hplane) as [polygon [-> ->]].
  rewrite layerOfName_layerName, Hm, Hplane.
  unfold materialPlanes. rewrite getLayer_setLayer, Hm. simpl.
  destruct (THREE.clippingPlanes (THREE.material m)) as [[|p others]|]; reflexivity.
Qed.

(** On a WebGPU renderer every application adds an entry to the planes
    kept for the mesh in [this.clippingPlanes]. *)
Lemma clipSphereWithPolygon_stores (l : Layer) (m : THREE.Mesh F)
    (clippingPlane : ClippingPlane F) (s : App F) :
  renderer_isWebGPURenderer s = true ->
  calculateClippingPlane s = Some clippingPlane ->
  getLayer s l = Some m ->
  storedPlanes (clipSphereWithPolygon (layerName l) s) l
  = storedPlanes s l
    ++ [mkStoredPlane (cp_normal clippingPlane) (cp_d clippingPlane)
          (clippingDirection s)].
Proof.
  intros Hgpu Hplane Hm.
  rewrite (clipSphereWithPolygon_webgpu l m clippingPlane s Hgpu Hplane Hm).
  unfold applyWebGPUClipping. rewrite applyGeometryClipping_spec.
  unfold storedPlanes. rewrite getLayer_setLayer, Hm.
  cbn [THREE.uuid THREE.setGeometry].
  rewrite clippingPlanes_setLayer.
  cbn [clippingPlanes set_originalGeometries set_clippingPlanes].
  rewrite lookup_insert_eq. reflexivity.
Qed.

End MaterialClipping.

Section PolygonUntouched.
Context {F : Type} `{Number F}.

(** The clipping that follows a recomputation leaves the polygon and the
    transform parameters alone. *)
Lemma clipSphereWithPolygon_polygon (targetLayer : string) (s : App F) :
  clippingPolygon (clipSphereWithPolygon targetLayer s) = clippingPolygon s
  /\ polygonSetup (clipSphereWithPolygon targetLayer s) = polygonSetup s.
Proof.
  unfold clipSphereWithPolygon.
  destruct (clippingPolygon s) as [polygon|] eqn:Hpoly; [|rewrite Hpoly; split; reflexivity].
  destruct (List.length polygon <? 3)%nat; [rewrite Hpoly; split; reflexivity|].
  destruct (layerOfName targetLayer) as [l|]; [|rewrite Hpoly; split; reflexivity].
  destruct (getLayer s l) as [m|]; [|rewrite Hpoly; split; reflexivity].
  destruct (calculateClippingPlane s) as [plane|]; [|rewrite Hpoly; split; reflexivity].
  unfold applyMaterialClipping, applyWebGPUClipping.
  destruct (renderer_isWebGPURenderer s).
  - rewrite applyGeometryClipping_spec.
    destruct l; split; first [exact Hpoly | reflexivity].
  - destruct (clippingPlanes s !! THREE.uuid m);
      destruct l; split; first [exact Hpoly | reflexivity].
Qed.

Lemma updateMaterialClipping_polygon (targetLayer : string) (s : App F) :
  clippingPolygon (updateMaterialClipping targetLayer s) = clippingPolygon s
  /\ polygonSetup (updateMaterialClipping targetLayer s) = polygonSetup s.
Proof.
  unfold updateMaterialClipping.
  destruct (clippingPolygon s) as [polygon|] eqn:Hpoly; [|rewrite Hpoly; split; reflexivity].
  destruct (List.length polygon <? 3)%nat; [rewrite Hpoly; split; reflexivity|].
  destruct (layerOfName targetLayer) as [l|]; [|rewrite Hpoly; split; reflexivity].
  destruct (getLayer s l) as [m|]; [|rewrite Hpoly; split; reflexivity].
  destruct (calculateClippingPlane s) as [plane|]; [|rewrite Hpoly; split; reflexivity].
  destruct l; split; first [exact Hpoly | reflexivity].
Qed.

Lemma when_polygon (cond : bool) (method : App F -> App F) (s : App F) :
  (forall s0, clippingPolygon (method s0) = clippingPolygon s0
              /\ polygonSetup (method s0) = polygonSetup s0) ->
  clippingPolygon (when cond method s) = clippingPolygon s
  /\ polygonSetup (when cond method s) = polygonSetup s.
Proof. intros Hm. unfold when. destruct cond; [apply Hm|split; reflexivity]. Qed.

Ltac polygon_chain :=
  cbv zeta;
  repeat match goal with
         | |- clippingPolygon ?s = clippingPolygon ?s /\ _ => split; reflexivity
         | |- clippingPolygon (when ?c ?f ?x) = clippingPolygon ?s /\
              polygonSetup _ = polygonSetup ?s =>
             let Hx := fresh "Hx" in
             let Hy := fresh "Hy" in
             assert (Hx : clippingPolygon x = clippingPolygon s
                          /\ polygonSetup x = polygonSetup s);
             [|destruct Hx as [Hx Hy];
               destruct (when_polygon c f x) as [-> ->];
               [intros; first [apply clipSphereWithPolygon_polygon
                              |apply updateMaterialClipping_polygon]
               |split; assumption]]
         end.

Lemma afterPolygonMove_polygon (s : App F) :
  clippingPolygon (afterPolygonMove s) = clippingPolygon s
  /\ polygonSetup (afterPolygonMove s) = polygonSetup s.
Proof.
  unfold afterPolygonMove, applyRealtimeClipping, updateClippingOnPolygonMove.
  destruct (realtimeClipping s); simpl;
    destruct (renderer_isWebGPURenderer s); polygon_chain.
Qed.

End PolygonUntouched.

Section Accumulation.
Context {F : Type} `{Number F}.

Lemma calculateClippingPlane_same_polygon (s s' : App F) :
  clippingPolygon s' = clippingPolygon s ->
  calculateClippingPlane s' = calculateClippingPlane s.
Proof. unfold calculateClippingPlane. intros ->. reflexivity. Qed.

(** What one application keeps: the renderer, the plane of the polygon
    and a mesh in the layer. *)
Lemma clipSphereWithPolygon_keeps (l : Layer) (m : THREE.Mesh F)
    (clippingPlane : ClippingPlane F) (s : App F) :
  calculateClippingPlane s = Some clippingPlane ->
  getLayer s l = Some m ->
  let s' := clipSphereWithPolygon (layerName l) s in
  renderer_isWebGPURenderer s' = renderer_isWebGPURenderer s
  /\ calculateClippingPlane s' = Some clippingPlane
  /\ exists m', getLayer s' l = Some m'.
Proof.
  intros Hplane Hm s'.
  destruct (extends_clipSphereWithPolygon (layerName l) s) as [Hr [Hlayers _]].
  destruct (Hlayers l m Hm) as [m' [Hm' _]].
  destruct (clipSphereWithPolygon_polygon (layerName l) s) as [Hpoly _].
  split; [exact Hr|]. split; [|exists m'; exact Hm'].
  unfold s'. rewrite (calculateClippingPlane_same_polygon _ _ Hpoly). exact Hplane.
Qed.

(** C7 fails on the code.  Every application of [clipSphereWithPolygon]
    to a layer appends and none replaces: on a WebGPU renderer [n]
    applications leave [n] more entries in [this.clippingPlanes] for the
    mesh, and on any other renderer they leave [n] more planes in the
    list of its material. *)
Theorem C7_reapplication_accumulates
    (n : nat) (l : Layer) (clippingPlane : ClippingPlane F) :
  forall (s : App F) (m : THREE.Mesh F),
    calculateClippingPlane s = Some clippingPlane ->
    getLayer s l = Some m ->
    let s' := repeatedly n (clipSphereWithPolygon (layerName l)) s in
    if renderer_isWebGPURenderer s
    then List.length (storedPlanes s' l) = List.length (storedPlanes s l) + n
    else List.length (materialPlanes s' l) = List.length (materialPlanes s l) + n.
Proof.
  induction n as [|n IH]; intros s m Hplane Hm; simpl.
  - destruct (renderer_isWebGPURenderer s); lia.
  - destruct (clipSphereWithPolygon_keeps l m clippingPlane s Hplane Hm)
      as [Hr [Hplane' [m' Hm']]].
    specialize (IH _ m' Hplane' Hm'). simpl in IH. rewrite Hr in IH.
    destruct (renderer_isWebGPURenderer s) eqn:Hgpu.
    + rewrite IH, (clipSphereWithPolygon_stores l m clippingPlane s Hgpu Hplane Hm).
      rewrite length_app. simpl. lia.
    + destruct (clipSphereWithPolygon_material l m clippingPlane s Hgpu Hplane Hm)
        as [_ [_ Hplanes]].
      rewrite IH, Hplanes, length_app. simpl. lia.
Qed.

End Accumulation.

(** Witness of C7: two applications to the crust of the demo scene, on
    the WebGPU renderer and on a renderer without the flag. *)
Lemma C7_reapplication_accumulates_witness :
  calculateClippingPlane demoApp = Some demoPlane
  /\ getLayer demoApp Crust = Some demoCrust
  /\ calculateClippingPlane demoAppWebGL = Some demoPlane
  /\ getLayer demoAppWebGL Crust = Some demoCrust
  /\ List.length
       (storedPlanes (repeatedly 2 (clipSphereWithPolygon "crust") demoApp) Crust)
     = 2
  /\ List.length
       (materialPlanes (repeatedly 2 (clipSphereWithPolygon "crust") demoAppWebGL) Crust)
     = 2.
Proof.
  split; [vm_compute; reflexivity|]. split; [reflexivity|].
  split; [vm_compute; reflexivity|]. split; [reflexivity|]. split.
  - apply (C7_reapplication_accumulates 2 Crust demoPlane demoApp demoCrust);
      [vm_compute; reflexivity|reflexivity].
  - apply (C7_reapplication_accumulates 2 Crust demoPlane demoAppWebGL demoCrust);
      [vm_compute; reflexivity|reflexivity].
Defined.

(* ------------------------------------------------------------------ *)
(** ** Recomputing the working polygon (C5) *)
(* ------------------------------------------------------------------ *)

Section Recompute.
Context {F : Type} `{Number F} `{Trig F}.

Lemma forEachPoint_spec (body : THREE.Vector3 F -> THREE.Vector3 F)
    (original : list (THREE.Vector3 F)) :
  forall (working : list (THREE.Vector3 F)) (index : nat),
    index + List.length working <= List.length original ->
    forEachPoint body working original index
    = Some (map body (take (List.length working) (drop index original))).
Proof.
  induction working as [|p rest IH]; intros index Hlen; simpl in *; [reflexivity|].
  destruct (original !! index) as [o|] eqn:Ho.
  - rewrite IH by lia. rewrite (drop_S _ _ _ Ho). reflexivity.
  - apply lookup_ge_None in Ho. lia.
Qed.

Lemma forEachPoint_all (body : THREE.Vector3 F -> THREE.Vector3 F)
    (working original : list (THREE.Vector3 F)) :
  List.length working = List.length original ->
  forEachPoint body working original 0 = Some (map body original).
Proof.
  intros Hlen. rewrite forEachPoint_spec by lia.
  rewrite drop_0, Hlen, firstn_all. reflexivity.
Qed.

Lemma transformedPoint_setup (s s' : App F) :
  polygonSetup s' = polygonSetup s -> transformedPoint s' = transformedPoint s.
Proof.
  unfold polygonSetup, transformedPoint. intros [= _ -> -> -> ->]. reflexivity.
Qed.

Lemma positionedPoint_setup (s s' : App F) :
  polygonSetup s' = polygonSetup s -> positionedPoint s' = positionedPoint s.
Proof.
  unfold polygonSetup, positionedPoint. intros [= _ -> -> -> ->]. reflexivity.
Qed.

(** A recomputation of either kind gives the image of the original
    points, whatever the working points were. *)
Lemma updatePolygonTransform_spec (s : App F)
    (original working : list (THREE.Vector3 F)) :
  originalPolygonPoints s = Some original ->
  clippingPolygon s = Some working ->
  List.length working = List.length original ->
  exists s',
    updatePolygonTransform s = Some s'
    /\ clippingPolygon s' = Some (map (transformedPoint s) original)
    /\ polygonSetup s' = polygonSetup s.
Proof.
  intros Horig Hwork Hlen. unfold updatePolygonTransform.
  rewrite Horig, Hwork, (forEachPoint_all _ _ _ Hlen).
  eexists. split; [reflexivity|].
  destruct (afterPolygonMove_polygon
              (set_clippingPolygon (Some (map (transformedPoint s) original)) s))
    as [-> ->].
  split; reflexivity.
Qed.

Lemma updatePolygonPosition_spec (s : App F)
    (original working : list (THREE.Vector3 F)) :
  originalPolygonPoints s = Some original ->
  clippingPolygon s = Some working ->
  List.length working = List.length original ->
  exists s',
    updatePolygonPosition s = Some s'
    /\ clippingPolygon s' = Some (map (positionedPoint s) original)
    /\ polygonSetup s' = polygonSetup s.
Proof.
  intros Horig Hwork Hlen. unfold updatePolygonPosition.
  rewrite Horig, Hwork, (forEachPoint_all _ _ _ Hlen).
  eexists. split; [reflexivity|].
  destruct (afterPolygonMove_polygon
              (set_clippingPolygon (Some (map (positionedPoint s) original)) s))
    as [-> ->].
  split; reflexivity.
Qed.

End Recompute.

Section RealPolygon.

Lemma Reqb_refl (x : R) : Reqb x x = true.
Proof. unfold Reqb. destruct (Req_dec_T x x); [reflexivity|contradiction]. Qed.

Lemma Rltb_true (x y : R) : Rltb x y = true <-> (x < y)%R.
Proof. unfold Rltb. destruct (Rlt_dec x y); split; intros; try discriminate; tauto. Qed.

Lemma Rltb_false (x y : R) : Rltb x y = false <-> (y <= x)%R.
Proof.
  unfold Rltb. destruct (Rlt_dec x y); split; intros; try discriminate;
    try reflexivity; lra.
Qed.

(** A rotation by no angle, about any axis, moves no point. *)
Lemma applyMatrix4_no_rotation (axis : string) (p : THREE.Vector3 R) :
  THREE.applyMatrix4 p (rotationMatrixFor axis (rotationRadiansOf 0%R)) = p.
Proof.
  assert (Hrad : rotationRadiansOf 0%R = 0%R).
  { unfold rotationRadiansOf, lit. simpl. unfold Rdiv. ring. }
  rewrite Hrad. unfold rotationMatrixFor.
  destruct p as [x y z].
  destruct (String.eqb axis "x"); [|destruct (String.eqb axis "y");
    [|destruct (String.eqb axis "z")]];
    unfold THREE.applyMatrix4, THREE.makeRotationX, THREE.makeRotationY,
      THREE.makeRotationZ, THREE.identity, lit; simpl;
    rewrite ?cos_0, ?sin_0; f_equal; field.
Qed.

Lemma moveAlong_zero (axis : string) (p : THREE.Vector3 R) :
  moveAlong axis 0%R p = p.
Proof.
  unfold moveAlong. destruct p as [x y z].
  destruct (String.eqb axis "x"); [|destruct (String.eqb axis "y");
    [|destruct (String.eqb axis "z")]]; simpl; f_equal; ring.
Qed.

Lemma transformedPoint_identity (s : App R) (p : THREE.Vector3 R) :
  polygonRotation s = 0%R -> polygonPosition s = 0%R -> transformedPoint s p = p.
Proof.
  intros Hrot Hpos. unfold transformedPoint. rewrite Hrot, Hpos.
  unfold lit. simpl. rewrite Reqb_refl. simpl. apply applyMatrix4_no_rotation.
Qed.

Lemma positionedPoint_identity (s : App R) (p : THREE.Vector3 R) :
  polygonRotation s = 0%R -> polygonPosition s = 0%R -> positionedPoint s p = p.
Proof.
  intros Hrot Hpos. unfold positionedPoint. rewrite Hrot, Hpos.
  unfold lit. simpl. rewrite Reqb_refl. simpl. apply moveAlong_zero.
Qed.

(** C5. With the original and working point sets of the same size (as
    the program keeps them): a recomputation with rotation [0] and
    translation [0] makes the working points equal to the original ones,
    whatever the axes; and a recomputation repeated with the same
    parameters gives the same working points again, each being the image
    of the original points. *)
Theorem C5_recompute_from_original
    (s : App R) (original working : list (THREE.Vector3 R)) :
  originalPolygonPoints s = Some original ->
  clippingPolygon s = Some working ->
  List.length working = List.length original ->
  (polygonRotation s = 0%R -> polygonPosition s = 0%R ->
   (exists s', updatePolygonTransform s = Some s' /\ clippingPolygon s' = Some original)
   /\ (exists s', updatePolygonPosition s = Some s' /\ clippingPolygon s' = Some original))
  /\ (exists s1 s2,
        updatePolygonTransform s = Some s1
        /\ updatePolygonTransform s1 = Some s2
        /\ clippingPolygon s1 = Some (map (transformedPoint s) original)
        /\ clippingPolygon s2 = clippingPolygon s1)
  /\ (exists s1 s2,
        updatePolygonPosition s = Some s1
        /\ updatePolygonPosition s1 = Some s2
        /\ clippingPolygon s1 = Some (map (positionedPoint s) original)
        /\ clippingPolygon s2 = clippingPolygon s1).
Proof.
  intros Horig Hwork Hlen.
  destruct (updatePolygonTransform_spec s original working Horig Hwork Hlen)
    as [t1 [Ht1 [Hpoly1 Hsetup1]]].
  destruct (updatePolygonPosition_spec s original working Horig Hwork Hlen)
    as [p1 [Hp1 [Hpoly1' Hsetup1']]].
  split; [|split].
  - intros Hrot Hpos. split.
    + exists t1. split; [exact Ht1|]. rewrite Hpoly1. f_equal.
      rewrite <- (map_id original) at 2. apply map_ext.
      intros p. apply transformedPoint_identity; assumption.
    + exists p1. split; [exact Hp1|]. rewrite Hpoly1'. f_equal.
      rewrite <- (map_id original) at 2. apply map_ext.
      intros p. apply positionedPoint_identity; assumption.
  - assert (Horig1 : originalPolygonPoints t1 = Some original).
    { unfold polygonSetup in Hsetup1. injection Hsetup1 as -> _ _ _ _. exact Horig. }
    destruct (updatePolygonTransform_spec t1 original _ Horig1 Hpoly1)
      as [t2 [Ht2 [Hpoly2 _]]]; [apply length_map|].
    exists t1, t2. split; [exact Ht1|]. split; [exact Ht2|]. split; [exact Hpoly1|].
    rewrite Hpoly2, Hpoly1, (transformedPoint_setup s t1 Hsetup1). reflexivity.
  - assert (Horig1 : originalPolygonPoints p1 = Some original).
    { unfold polygonSetup in Hsetup1'. injection Hsetup1' as -> _ _ _ _. exact Horig. }
    destruct (updatePolygonPosition_spec p1 original _ Horig1 Hpoly1')
      as [p2 [Hp2 [Hpoly2 _]]]; [apply length_map|].
    exists p1, p2. split; [exact Hp1|]. split; [exact Hp2|]. split; [exact Hpoly1'|].
    rewrite Hpoly2, Hpoly1', (positionedPoint_setup s p1 Hsetup1'). reflexivity.
Qed.

(** Witness of C5: the default square, no rotation, no translation. *)
Lemma C5_recompute_from_original_witness :
  originalPolygonPoints (appR 0) = Some squareR
  /\ clippingPolygon (appR 0) = Some squareR
  /\ List.length squareR = List.length squareR
  /\ polygonRotation (appR 0) = 0%R
  /\ polygonPosition (appR 0) = 0%R
  /\ (exists s', updatePolygonTransform (appR 0) = Some s'
                 /\ clippingPolygon s' = Some squareR)
  /\ (exists s', updatePolygonPosition (appR 0) = Some s'
                 /\ clippingPolygon s' = Some squareR).
Proof.
  split; [reflexivity|]. split; [reflexivity|]. split; [reflexivity|].
  split; [reflexivity|]. split; [reflexivity|].
  apply (C5_recompute_from_original (appR 0) squareR squareR); reflexivity.
Defined.

End RealPolygon.

(* ------------------------------------------------------------------ *)
(** ** The plane solver and collinear points (C2) *)
(* ------------------------------------------------------------------ *)

Section Solver.
Context {F : Type} `{Number F}.

(** C2, as the code has it.  The solver reports no plane exactly when the
    working polygon is absent or has fewer than three points, and a
    clipping invocation (of either strategy) then leaves the application
    as it is.  With three points or more it always returns a plane, the
    normalised cross product of the two edges at the first point with
    the matching offset; there is no other outcome, whatever the
    position of the points. *)
Theorem C2_solver_fails_only_below_three_points
    (s : App F) (targetLayer : string) :
  match clippingPolygon s with
  | Some (p0 :: p1 :: p2 :: _) =>
      let normal :=
        THREE.normalize (THREE.cross (THREE.sub p1 p0) (THREE.sub p2 p0)) in
      calculateClippingPlane s
      = Some (mkClippingPlane normal (- THREE.dot normal p0)%js)
  | _ =>
      calculateClippingPlane s = None
      /\ clipSphereWithPolygon targetLayer s = s
      /\ updateMaterialClipping targetLayer s = s
  end.
Proof.
  unfold calculateClippingPlane, clipSphereWithPolygon, updateMaterialClipping.
  destruct (clippingPolygon s) as [[|p0 [|p1 [|p2 rest]]]|];
    simpl; repeat split; reflexivity.
Qed.

End Solver.

Section Degenerate.

(** Clipping with a test that shows no vertex leaves an empty geometry
    without an index. *)
Lemma clipGeometry_nothing_visible {F : Type} `{Number F}
    (direction : string) (clippingPlane : ClippingPlane F) (g : THREE.BufferGeometry F) :
  (forall v, shouldShow direction clippingPlane v = false) ->
  clipGeometry direction clippingPlane g = THREE.mkBufferGeometry [] None.
Proof.
  intros Hnone. rewrite clipGeometry_spec.
  assert (Hpos : List.filter (shouldShow direction clippingPlane) (THREE.position g) = []).
  { induction (THREE.position g) as [|p ps IH]; [reflexivity|].
    simpl. rewrite Hnone. exact IH. }
  assert (Hvis : forall a,
             isVisible (vertexVisibilityOf direction clippingPlane (THREE.position g)) a
             = false).
  { intros a. unfold isVisible, vertexVisibilityOf.
    destruct (nth_in_or_default a
                (map (shouldShow direction clippingPlane) (THREE.position g)) false)
      as [Hin|Hdef]; [|exact Hdef].
    apply in_map_iff in Hin as [v [Hv _]]. rewrite <- Hv. apply Hnone. }
  assert (Hkept : List.filter
                    (allVisible (vertexVisibilityOf direction clippingPlane (THREE.position g)))
                    (triangles (indexArray g)) = []).
  { induction (triangles (indexArray g)) as [|[[a b] c] ts IH]; [reflexivity|].
    simpl. rewrite (Hvis a). simpl. exact IH. }
  rewrite Hpos, Hkept. reflexivity.
Qed.

Local Open Scope R_scope.

(** Over the reals: when the cross product of the two edges is the zero
    vector, the solver still returns a plane, with zero normal and zero
    offset, and that plane shows no vertex in either direction. *)
Lemma calculateClippingPlane_collinear (s : App R)
    (p0 p1 p2 : THREE.Vector3 R) (rest : list (THREE.Vector3 R)) :
  clippingPolygon s = Some (p0 :: p1 :: p2 :: rest) ->
  THREE.cross (THREE.sub p1 p0) (THREE.sub p2 p0) = rvec 0 0 0 ->
  calculateClippingPlane s = Some (mkClippingPlane (rvec 0 0 0) 0)
  /\ forall direction v,
       shouldShow direction (mkClippingPlane (rvec 0 0 0) 0) v = false.
Proof.
  intros Hpoly Hcross. split.
  - unfold calculateClippingPlane. rewrite Hpoly, Hcross.
    assert (Hn : THREE.normalize (rvec 0 0 0) = rvec 0 0 0).
    { unfold THREE.normalize, THREE.divideScalar, THREE.multiplyScalar, THREE.length,
        or_else, truthy, lit, rvec. simpl.
      replace (0 * 0 + 0 * 0 + 0 * 0) with 0 by ring. rewrite sqrt_0, Reqb_refl. simpl.
      f_equal; field. }
    rewrite Hn. do 2 f_equal. unfold THREE.dot, rvec. simpl. ring.
  - intros direction [x y z]. unfold shouldShow, signedDistance, THREE.dot, rvec, lit.
    simpl. replace (0 * x + 0 * y + 0 * z + 0) with 0 by ring.
    destruct (String.eqb direction "outside"); apply Rltb_false; lra.
Qed.

(** Hence, over the reals, clipping a layer with any polygon whose first
    three points are collinear goes through and removes every vertex of
    the layer. *)
Lemma clipSphereWithPolygon_collinear (s : App R) (l : Layer) (m : THREE.Mesh R)
    (p0 p1 p2 : THREE.Vector3 R) (rest : list (THREE.Vector3 R)) :
  renderer_isWebGPURenderer s = true ->
  getLayer s l = Some m ->
  clippingPolygon s = Some (p0 :: p1 :: p2 :: rest) ->
  THREE.cross (THREE.sub p1 p0) (THREE.sub p2 p0) = rvec 0 0 0 ->
  layerGeometry (clipSphereWithPolygon (layerName l) s) l
  = Some (THREE.mkBufferGeometry [] None).
Proof.
  intros Hgpu Hm Hpoly Hcross.
  destruct (calculateClippingPlane_collinear s p0 p1 p2 rest Hpoly Hcross)
    as [Hplane Hnone].
  rewrite (clipSphereWithPolygon_webgpu l m _ s Hgpu Hplane Hm).
  unfold applyWebGPUClipping, layerGeometry.
  rewrite applyGeometryClipping_layer. simpl.
  rewrite clipGeometry_nothing_visible by (intros v; apply Hnone). reflexivity.
Qed.

End Degenerate.

(** C2 as the specification words it fails.  For a polygon whose first
    three points are collinear (the cross product of the two edges has
    length zero) the solver reports nothing: a plane comes back, with
    zero normal and zero offset, and clipping the crust with it goes
    through, leaves the crust without a vertex and stores an original.
    (Evaluated on binary64.) *)
Lemma C2_collinear_polygon_clips_everything :
  clippingPolygon collinearApp
  = Some [fvec 10 10 25; fvec 0 10 25; fvec (-10) 10 25; fvec 10 (-10) 25]
  /\ feqb (THREE.length
             (THREE.cross (THREE.sub (fvec 0 10 25) (fvec 10 10 25))
                (THREE.sub (fvec (-10) 10 25) (fvec 10 10 25))))
       (lit 0) = true
  /\ (exists plane,
      calculateClippingPlane collinearApp = Some plane
      /\ feqb (THREE.vx (cp_normal plane)) (lit 0) = true
      /\ feqb (THREE.vy (cp_normal plane)) (lit 0) = true
      /\ feqb (THREE.vz (cp_normal plane)) (lit 0) = true
      /\ feqb (cp_d plane) (lit 0) = true)
  /\ layerGeometry collinearApp Crust = Some (octahedron 50)
  /\ originalGeometries collinearApp !! "uuid-crust" = None
  /\ layerGeometry (clipSphereWithPolygon "crust" collinearApp) Crust
     = Some (THREE.mkBufferGeometry [] None)
  /\ originalGeometries (clipSphereWithPolygon "crust" collinearApp) !! "uuid-crust"
     = Some (octahedron 50).
Proof.
  split; [reflexivity|]. split; [vm_compute; reflexivity|]. split.
  - eexists. split; [vm_compute; reflexivity|]. repeat split; vm_compute; reflexivity.
  - repeat split; vm_compute; reflexivity.
Qed.

(* ------------------------------------------------------------------ *)
(** ** The brush in extrude mode (C6) *)
(* ------------------------------------------------------------------ *)

Section RealBrush.
Local Open Scope R_scope.

(** The falloff is positive strictly inside the brush:
    [1 - (3t^2 - 2t^3) = (1 - t)^2 (1 + 2t)]. *)
Lemma influenceOf_pos (t : R) : 0 <= t < 1 -> 0 < influenceOf t.
Proof.
  intros [H0 H1]. unfold influenceOf, lit. simpl.
  replace (1 - (3 * t * t - 2 * t * t * t)) with ((1 - t) * (1 - t) * (1 + 2 * t))
    by ring.
  apply Rmult_lt_0_compat; [apply Rmult_lt_0_compat|]; lra.
Qed.

Lemma sum_of_squares_zero (x y z : R) : x * x + y * y + z * z = 0 -> x = 0 /\ y = 0 /\ z = 0.
Proof. intros Hq. repeat split; nra. Qed.

(** Pushing a vertex by [c > 0] along its own direction takes it
    farther from the centre, unless it is the centre. *)
Lemma displaced_extrude_farther (intensity influence : R) (old : THREE.Vector3 R) :
  0 < intensity * influence ->
  displaced "extrude" intensity influence old = old
  \/ THREE.length old < THREE.length (displaced "extrude" intensity influence old).
Proof.
  intros Hc. destruct old as [x y z].
  unfold displaced. simpl String.eqb. cbv iota.
  unfold THREE.normalize, THREE.divideScalar, THREE.multiplyScalar, THREE.add,
    THREE.length, or_else, truthy, lit. simpl.
  set (q := x * x + y * y + z * z).
  assert (Hq : 0 <= q) by (unfold q; nra).
  rewrite Reqb_refl, andb_true_r.
  unfold Reqb. destruct (Req_dec_T (R_sqrt.sqrt q) 0) as [Hz|Hnz]; simpl.
  - left. apply sqrt_eq_0 in Hz; [|exact Hq].
    destruct (sum_of_squares_zero x y z Hz) as [-> [-> ->]]. f_equal; ring.
  - right. assert (HL : 0 < R_sqrt.sqrt q) by (pose proof (sqrt_pos q); lra).
    assert (Hqpos : 0 < q).
    { destruct (Rle_lt_or_eq_dec 0 q Hq) as [Hlt|Heq]; [exact Hlt|].
      exfalso. apply Hnz. rewrite <- Heq. apply sqrt_0. }
    set (k := 1 / R_sqrt.sqrt q * (intensity * influence)).
    assert (Hk : 0 < k).
    { unfold k. apply Rmult_lt_0_compat; [|exact Hc].
      unfold Rdiv. rewrite Rmult_1_l. apply Rinv_0_lt_compat. exact HL. }
    apply sqrt_lt_1_alt. split; [exact Hq|].
    replace ((x + x * (1 / R_sqrt.sqrt q) * (intensity * influence))
             * (x + x * (1 / R_sqrt.sqrt q) * (intensity * influence))
             + (y + y * (1 / R_sqrt.sqrt q) * (intensity * influence))
               * (y + y * (1 / R_sqrt.sqrt q) * (intensity * influence))
             + (z + z * (1 / R_sqrt.sqrt q) * (intensity * influence))
               * (z + z * (1 / R_sqrt.sqrt q) * (intensity * influence)))
      with (q * ((1 + k) * (1 + k))); [|subst q k; unfold Rdiv; ring].
    assert (1 < (1 + k) * (1 + k)) by nra.
    nra.
Qed.

(** One iteration of the loop in extrude mode: the vertex stays where it
    was, or it was inside the brush, the change passed the threshold,
    and it is now farther from the centre. *)
Lemma editVertex_extrude (brushSize intensity : R) (localPoint old : THREE.Vector3 R) :
  0 < brushSize -> 0 < intensity ->
  let new := editVertex brushSize "extrude" intensity localPoint old in
  new = old
  \/ (THREE.distanceTo old localPoint < brushSize
      /\ new = displaced "extrude" intensity
                 (influenceOf (THREE.distanceTo old localPoint / brushSize)) old
      /\ movedEnough new old = true
      /\ THREE.length old < THREE.length new).
Proof.
  intros Hb Hi. unfold editVertex. cbv zeta.
  change (@fltb R R_Number) with Rltb. change (@fdiv R R_Number) with Rdiv.
  destruct (Rltb (THREE.distanceTo old localPoint) brushSize) eqn:Hin; [|left; reflexivity].
  apply Rltb_true in Hin.
  destruct (movedEnough _ old) eqn:Hmoved; [|left; reflexivity].
  assert (Hd : 0 <= THREE.distanceTo old localPoint) by apply sqrt_pos.
  assert (Ht : 0 <= THREE.distanceTo old localPoint / brushSize < 1).
  { split.
    - apply Rmult_le_pos; [exact Hd|]. left. apply Rinv_0_lt_compat. exact Hb.
    - apply (Rmult_lt_reg_r brushSize); [exact Hb|].
      unfold Rdiv. rewrite Rmult_assoc, Rinv_l by lra. lra. }
  pose proof (influenceOf_pos _ Ht) as Hf.
  assert (Hc : 0 < intensity * influenceOf (THREE.distanceTo old localPoint / brushSize))
    by (apply Rmult_lt_0_compat; assumption).
  destruct (displaced_extrude_farther intensity _ old Hc) as [Hsame|Hfar].
  - left. exact Hsame.
  - right. repeat split; assumption.
Qed.

(** A vertex that has not moved has not moved enough. *)
Lemma movedEnough_same (v : THREE.Vector3 R) : movedEnough v v = false.
Proof.
  destruct v as [x y z]. unfold movedEnough, lit_0_001, lit. simpl.
  replace (x - x) with 0 by ring. replace (y - y) with 0 by ring.
  replace (z - z) with 0 by ring. rewrite Rabs_R0.
  replace (Rltb (1 / 1000) 0) with false; [reflexivity|].
  symmetry. apply Rltb_false. lra.
Qed.

(** When the change, strength times falloff, is more than [0.001] times
    the square root of three, some coordinate of a vertex that is not at
    the centre moves by more than [0.001]. *)
Lemma movedEnough_displaced (intensity influence : R) (old : THREE.Vector3 R) :
  old <> rvec 0 0 0 ->
  3 / 1000000 < (intensity * influence) * (intensity * influence) ->
  movedEnough (displaced "extrude" intensity influence old) old = true.
Proof.
  intros Hold Hc. destruct old as [x y z].
  unfold displaced. simpl String.eqb. cbv iota.
  unfold THREE.normalize, THREE.divideScalar, THREE.multiplyScalar, THREE.add,
    THREE.length, or_else, truthy, lit. simpl.
  set (q := x * x + y * y + z * z).
  assert (Hq : 0 <= q) by (unfold q; nra).
  rewrite Reqb_refl, andb_true_r.
  unfold Reqb. destruct (Req_dec_T (R_sqrt.sqrt q) 0) as [Hz|Hnz]; simpl.
  { exfalso. apply Hold. apply sqrt_eq_0 in Hz; [|exact Hq].
    destruct (sum_of_squares_zero x y z Hz) as [-> [-> ->]]. reflexivity. }
  assert (HL : 0 < R_sqrt.sqrt q) by (pose proof (sqrt_pos q); lra).
  pose proof (sqrt_sqrt q Hq) as Hqq.
  set (L := R_sqrt.sqrt q) in *.
  set (c := intensity * influence) in *.
  clearbody L c.
  unfold movedEnough, lit_0_001, lit. simpl.
  replace (x + x * (1 / L) * c - x) with (x * (1 / L) * c) by ring.
  replace (y + y * (1 / L) * c - y) with (y * (1 / L) * c) by ring.
  replace (z + z * (1 / L) * c - z) with (z * (1 / L) * c) by ring.
  destruct (Rltb (1 / 1000) (Rabs (x * (1 / L) * c))) eqn:Hx; [reflexivity|].
  destruct (Rltb (1 / 1000) (Rabs (y * (1 / L) * c))) eqn:Hy; [reflexivity|].
  destruct (Rltb (1 / 1000) (Rabs (z * (1 / L) * c))) eqn:Hzz; [reflexivity|].
  exfalso. apply Rltb_false in Hx, Hy, Hzz.
  assert (Hsq : forall a, Rabs a <= 1 / 1000 -> a * a <= 1 / 1000000).
  { intros a Ha. pose proof (Rabs_pos a).
    replace (a * a) with (Rabs a * Rabs a)
      by (rewrite <- Rabs_mult; apply Rabs_pos_eq; nra).
    nra. }
  apply Hsq in Hx, Hy, Hzz.
  assert (Hsum : x * (1 / L) * c * (x * (1 / L) * c)
                 + y * (1 / L) * c * (y * (1 / L) * c)
                 + z * (1 / L) * c * (z * (1 / L) * c) = c * c).
  { replace (x * (1 / L) * c * (x * (1 / L) * c)
             + y * (1 / L) * c * (y * (1 / L) * c)
             + z * (1 / L) * c * (z * (1 / L) * c))
      with (q * (c * c) / (L * L)).
    2:{ unfold q. field. apply Rgt_not_eq. exact HL. }
    rewrite Hqq. field. intros Hq0. rewrite Hq0 in Hqq.
    assert (L * L > 0) by (apply Rmult_lt_0_compat; exact HL).
    rewrite Hqq in *. apply (Rlt_irrefl 0). assumption. }
  apply (Rlt_irrefl (3 / 1000000)).
  eapply Rlt_le_trans; [exact Hc|].
  replace (3 / 1000000) with (1 / 1000000 + 1 / 1000000 + 1 / 1000000) by field.
  rewrite <- Hsum.
  apply Rplus_le_compat; [apply Rplus_le_compat|]; assumption.
Qed.

(** A coordinate is no longer than the vector. *)
Lemma coordinate_below_length (x y z : R) :
  Rabs x <= R_sqrt.sqrt (x * x + y * y + z * z).
Proof.
  rewrite <- sqrt_Rsqr_abs. apply sqrt_le_1_alt. unfold Rsqr. nra.
Qed.

(** When the change, strength times falloff, is at most [0.001], no
    coordinate moves by more than [0.001]. *)
Lemma movedEnough_small_change (intensity influence : R) (old : THREE.Vector3 R) :
  Rabs (intensity * influence) <= 1 / 1000 ->
  movedEnough (displaced "extrude" intensity influence old) old = false.
Proof.
  intros Hc. destruct old as [x y z].
  unfold displaced. simpl String.eqb. cbv iota.
  unfold THREE.normalize, THREE.divideScalar, THREE.multiplyScalar, THREE.add,
    THREE.length, or_else, truthy, lit. simpl.
  set (q := x * x + y * y + z * z).
  assert (Hq : 0 <= q) by (unfold q; nra).
  pose proof (coordinate_below_length x y z) as Hx.
  pose proof (coordinate_below_length y z x) as Hy.
  pose proof (coordinate_below_length z x y) as Hz.
  replace (y * y + z * z + x * x) with q in Hy by (unfold q; ring).
  replace (z * z + x * x + y * y) with q in Hz by (unfold q; ring).
  fold q in Hx.
  rewrite Reqb_refl, andb_true_r.
  set (c := intensity * influence) in *.
  assert (Hsmall : forall a L, 0 < L -> Rabs a <= L ->
            Rltb (1 / 1000) (Rabs (a + a * (1 / L) * c - a)) = false).
  { intros a L HL Ha. apply Rltb_false.
    replace (a + a * (1 / L) * c - a) with (a / L * c) by (field; lra).
    rewrite Rabs_mult.
    assert (Hr : Rabs (a / L) <= 1).
    { unfold Rdiv. rewrite Rabs_mult, (Rabs_pos_eq (/ L)).
      - apply (Rmult_le_reg_r L); [exact HL|].
        rewrite Rmult_assoc, Rinv_l by lra. lra.
      - left. apply Rinv_0_lt_compat. exact HL. }
    pose proof (Rabs_pos (a / L)). pose proof (Rabs_pos c).
    apply Rle_trans with (1 * Rabs c); [|lra].
    apply Rmult_le_compat_r; assumption. }
  unfold Reqb. destruct (Req_dec_T (R_sqrt.sqrt q) 0) as [Hzero|Hnz]; simpl.
  - rewrite Hzero in Hx, Hy, Hz.
    unfold movedEnough, lit_0_001, lit. simpl.
    rewrite !Hsmall; [reflexivity| | | | | |]; lra.
  - assert (HL : 0 < R_sqrt.sqrt q) by (pose proof (sqrt_pos q); lra).
    unfold movedEnough, lit_0_001, lit. simpl.
    rewrite !Hsmall; [reflexivity| | | | | |]; assumption.
Qed.

(** One iteration of the loop in extrude mode, case by case: where the
    vertex is within the radius and the displaced vertex passes the
    threshold, the displaced vertex is written and it is farther from
    the centre; in every other case the vertex stays. *)
Lemma editVertex_extrude_cases (brushSize intensity : R) (localPoint old : THREE.Vector3 R) :
  0 < brushSize -> 0 < intensity ->
  let moved :=
    displaced "extrude" intensity
      (influenceOf (THREE.distanceTo old localPoint / brushSize)) old in
  let new := editVertex brushSize "extrude" intensity localPoint old in
  (THREE.distanceTo old localPoint < brushSize -> movedEnough moved old = true ->
   new = moved /\ new <> old /\ THREE.length old < THREE.length new)
  /\ (THREE.distanceTo old localPoint < brushSize -> old <> rvec 0 0 0 ->
      3 / 1000000
      < (intensity * influenceOf (THREE.distanceTo old localPoint / brushSize))
        * (intensity * influenceOf (THREE.distanceTo old localPoint / brushSize)) ->
      new = moved /\ new <> old /\ THREE.length old < THREE.length new)
  /\ (brushSize <= THREE.distanceTo old localPoint -> new = old)
  /\ (movedEnough moved old = false -> new = old)
  /\ (Rabs (intensity * influenceOf (THREE.distanceTo old localPoint / brushSize))
      <= 1 / 1000 ->
      new = old).
Proof.
  intros Hb Hi. cbv zeta.
  assert (Hcase : THREE.distanceTo old localPoint < brushSize ->
            movedEnough
              (displaced "extrude" intensity
                 (influenceOf (THREE.distanceTo old localPoint / brushSize)) old) old
            = true ->
            editVertex brushSize "extrude" intensity localPoint old
            = displaced "extrude" intensity
                (influenceOf (THREE.distanceTo old localPoint / brushSize)) old
            /\ editVertex brushSize "extrude" intensity localPoint old <> old
            /\ THREE.length old
               < THREE.length (editVertex brushSize "extrude" intensity localPoint old)).
  { intros Hin Hmoved.
    assert (Heq : editVertex brushSize "extrude" intensity localPoint old
                  = displaced "extrude" intensity
                      (influenceOf (THREE.distanceTo old localPoint / brushSize)) old).
    { unfold editVertex. cbv zeta.
      change (@fltb R R_Number) with Rltb. change (@fdiv R R_Number) with Rdiv.
      rewrite (proj2 (Rltb_true _ _) Hin), Hmoved. reflexivity. }
    rewrite Heq. split; [reflexivity|].
    assert (Hne : displaced "extrude" intensity
                    (influenceOf (THREE.distanceTo old localPoint / brushSize)) old <> old).
    { intros Hsame. rewrite Hsame, movedEnough_same in Hmoved. discriminate. }
    split; [exact Hne|].
    assert (Hd : 0 <= THREE.distanceTo old localPoint) by apply sqrt_pos.
    assert (Ht : 0 <= THREE.distanceTo old localPoint / brushSize < 1).
    { split.
      - apply Rmult_le_pos; [exact Hd|]. left. apply Rinv_0_lt_compat. exact Hb.
      - apply (Rmult_lt_reg_r brushSize); [exact Hb|].
        unfold Rdiv. rewrite Rmult_assoc, Rinv_l by lra. lra. }
    pose proof (influenceOf_pos _ Ht) as Hf.
    assert (Hc : 0 < intensity * influenceOf (THREE.distanceTo old localPoint / brushSize))
      by (apply Rmult_lt_0_compat; assumption).
    destruct (displaced_extrude_farther intensity _ old Hc) as [Hsame|Hfar];
      [contradiction|exact Hfar]. }
  assert (Hstay : movedEnough
                    (displaced "extrude" intensity
                       (influenceOf (THREE.distanceTo old localPoint / brushSize)) old) old
                  = false ->
                  editVertex brushSize "extrude" intensity localPoint old = old).
  { intros Hstill. unfold editVertex. cbv zeta.
    change (@fltb R R_Number) with Rltb. change (@fdiv R R_Number) with Rdiv.
    destruct (Rltb (THREE.distanceTo old localPoint) brushSize); [|reflexivity].
    rewrite Hstill. reflexivity. }
  split; [exact Hcase|]. split; [|split; [|split]].
  - intros Hin Hold Hc. apply Hcase; [exact Hin|].
    apply movedEnough_displaced; assumption.
  - intros Hout. unfold editVertex. cbv zeta.
    change (@fltb R R_Number) with Rltb.
    rewrite (proj2 (Rltb_false _ _) Hout). reflexivity.
  - exact Hstay.
  - intros Hsmall. apply Hstay. apply movedEnough_small_change. exact Hsmall.
Qed.

(** C6, as the code has it.  In extrude mode with a positive radius and
    a positive strength, a stroke leaves the vertex count alone and
    decides every vertex as follows.  A vertex within the radius whose
    displaced position (strength times falloff along its own direction)
    differs from the old one by more than 0.001 in some coordinate is
    written there, and is then strictly farther from the centre than
    before; this is the case of every vertex within the radius, not at
    the centre, for which strength times falloff exceeds 0.001 times the
    square root of three.  A vertex at the radius or beyond, and a
    vertex whose displaced position does not pass the threshold, stays
    exactly where it was; this is the case of every vertex for which
    strength times falloff is at most 0.001. *)
Theorem C6_extrude_moves_changed_vertices_outward
    (s : App R) (t : THREE.Mesh R) (hit : THREE.Vector3 R) :
  terrain s = Some t ->
  mode s = "extrude" ->
  0 < brushSize s ->
  0 < intensity s ->
  exists g',
    layerGeometry (editTerrain (Some hit) s) Crust = Some g'
    /\ List.length (THREE.position g') = List.length (THREE.position (THREE.geometry t))
    /\ forall (k : nat) (old : THREE.Vector3 R),
         THREE.position (THREE.geometry t) !! k = Some old ->
         exists new,
           THREE.position g' !! k = Some new
           /\ (new = old
               \/ (THREE.distanceTo old hit < brushSize s
                   /\ new = displaced "extrude" (intensity s)
                              (influenceOf (THREE.distanceTo old hit / brushSize s)) old
                   /\ movedEnough new old = true
                   /\ THREE.length old < THREE.length new))
           /\ (THREE.distanceTo old hit < brushSize s ->
               movedEnough
                 (displaced "extrude" (intensity s)
                    (influenceOf (THREE.distanceTo old hit / brushSize s)) old) old
               = true ->
               new = displaced "extrude" (intensity s)
                       (influenceOf (THREE.distanceTo old hit / brushSize s)) old
               /\ new <> old
               /\ THREE.length old < THREE.length new)
           /\ (THREE.distanceTo old hit < brushSize s ->
               old <> rvec 0 0 0 ->
               let ratio := THREE.distanceTo old hit / brushSize s in
               let change := intensity s * (1 - (3 * ratio * ratio - 2 * ratio * ratio * ratio)) in
               3 / 1000000 < change * change ->
               new = THREE.add old (THREE.multiplyScalar (THREE.normalize old) change)
               /\ new <> old
               /\ THREE.length old < THREE.length new)
           /\ (brushSize s <= THREE.distanceTo old hit -> new = old)
           /\ (movedEnough
                 (displaced "extrude" (intensity s)
                    (influenceOf (THREE.distanceTo old hit / brushSize s)) old) old
               = false ->
               new = old)
           /\ (let ratio := THREE.distanceTo old hit / brushSize s in
               let change :=
                 intensity s * (1 - (3 * ratio * ratio - 2 * ratio * ratio * ratio)) in
               Rabs change <= 1 / 1000 ->
               new = old).
Proof.
  intros Ht Hmode Hb Hi. unfold editTerrain. rewrite Ht, Hmode.
  eexists. split; [unfold layerGeometry; rewrite getLayer_setLayer; reflexivity|].
  simpl. split; [apply length_map|].
  intros k old Hk. eexists. split.
  - rewrite list_lookup_fmap, Hk. reflexivity.
  - split; [apply editVertex_extrude; assumption|].
    destruct (editVertex_extrude_cases (brushSize s) (intensity s) hit old Hb Hi)
      as [Hmoved [Hchange [Hout [Hstill Hsmall]]]].
    split; [exact Hmoved|]. split; [exact Hchange|]. split; [exact Hout|].
    split; [exact Hstill|exact Hsmall].
Qed.

(** Witness of C6: a stroke at the pole of the three-vertex crust. *)
Lemma C6_extrude_moves_changed_vertices_outward_witness :
  terrain (appR 0) = Some crustR
  /\ mode (appR 0) = "extrude"
  /\ 0 < brushSize (appR 0)
  /\ 0 < intensity (appR 0)
  /\ exists g',
       layerGeometry (editTerrain (Some poleR) (appR 0)) Crust = Some g'
       /\ List.length (THREE.position g') = List.length (THREE.position (THREE.geometry crustR))
       /\ forall (k : nat) (old : THREE.Vector3 R),
            THREE.position (THREE.geometry crustR) !! k = Some old ->
            exists new,
              THREE.position g' !! k = Some new
              /\ (new = old
                  \/ (THREE.distanceTo old poleR < brushSize (appR 0)
                      /\ new = displaced "extrude" (intensity (appR 0))
                                 (influenceOf (THREE.distanceTo old poleR / brushSize (appR 0))) old
                      /\ movedEnough new old = true
                      /\ THREE.length old < THREE.length new))
              /\ (THREE.distanceTo old poleR < brushSize (appR 0) ->
                  movedEnough
                    (displaced "extrude" (intensity (appR 0))
                       (influenceOf (THREE.distanceTo old poleR / brushSize (appR 0))) old) old
                  = true ->
                  new = displaced "extrude" (intensity (appR 0))
                          (influenceOf (THREE.distanceTo old poleR / brushSize (appR 0))) old
                  /\ new <> old
                  /\ THREE.length old < THREE.length new)
              /\ (THREE.distanceTo old poleR < brushSize (appR 0) ->
                  old <> rvec 0 0 0 ->
                  let ratio := THREE.distanceTo old poleR / brushSize (appR 0) in
                  let change := intensity (appR 0)
                      * (1 - (3 * ratio * ratio - 2 * ratio * ratio * ratio)) in
                  3 / 1000000 < change * change ->
                  new = THREE.add old (THREE.multiplyScalar (THREE.normalize old) change)
                  /\ new <> old
                  /\ THREE.length old < THREE.length new)
              /\ (brushSize (appR 0) <= THREE.distanceTo old poleR -> new = old)
              /\ (movedEnough
                    (displaced "extrude" (intensity (appR 0))
                       (influenceOf (THREE.distanceTo old poleR / brushSize (appR 0))) old) old
                  = false ->
                  new = old)
              /\ (let ratio := THREE.distanceTo old poleR / brushSize (appR 0) in
                  let change := intensity (appR 0)
                      * (1 - (3 * ratio * ratio - 2 * ratio * ratio * ratio)) in
                  Rabs change <= 1 / 1000 ->
                  new = old).
Proof.
  split; [reflexivity|]. split; [reflexivity|].
  split; [simpl; lra|]. split; [simpl; lra|].
  apply (C6_extrude_moves_changed_vertices_outward (appR 0) crustR poleR);
    [reflexivity|reflexivity|simpl; lra|simpl; lra].
Defined.

Lemma distanceTo_nearEdgeR_poleR : THREE.distanceTo nearEdgeR poleR = 2000 / 101.
Proof.
  unfold THREE.distanceTo, nearEdgeR, poleR, rvec. simpl.
  apply sqrt_lem_1; [nra|lra|field].
Qed.

Lemma length_nearEdgeR : THREE.length nearEdgeR = 50.
Proof.
  unfold THREE.length, nearEdgeR, rvec. simpl.
  apply sqrt_lem_1; [nra|lra|field].
Qed.

Lemma Rabs_small (e : R) : - (1 / 1000) <= e <= 1 / 1000 -> Rltb (1 / 1000) (Rabs e) = false.
Proof.
  intros [Hlo Hhi]. apply Rltb_false. apply Rabs_le. lra.
Qed.

(** The vertex just inside the brush is handed back as it was. *)
Lemma editVertex_nearEdgeR : editVertex 20 "extrude" 2 poleR nearEdgeR = nearEdgeR.
Proof.
  unfold editVertex. cbv zeta.
  change (@fltb R R_Number) with Rltb. change (@fdiv R R_Number) with Rdiv.
  rewrite distanceTo_nearEdgeR_poleR.
  replace (Rltb (2000 / 101) 20) with true by (symmetry; apply Rltb_true; lra).
  replace (movedEnough _ nearEdgeR) with false; [reflexivity|].
  symmetry. unfold movedEnough, displaced. simpl String.eqb. cbv iota.
  unfold THREE.normalize, THREE.divideScalar. rewrite length_nearEdgeR.
  unfold or_else, truthy, lit, lit_0_001, lit. simpl.
  rewrite Reqb_refl.
  replace (Reqb 50 0) with false
    by (unfold Reqb; destruct (Req_dec_T 50 0); [lra|reflexivity]).
  simpl. unfold influenceOf, lit. simpl.
  rewrite !Rabs_small; [reflexivity| | |]; split; lra.
Qed.

(** C6 as the specification words it fails on a vertex near the edge of the brush.  At
    the pole of a sphere of radius 50, with radius 20 and strength 2 in
    extrude mode, the vertex at distance [2000/101] is within the radius
    and the stroke leaves it where it was: its distance from the centre
    has not increased. *)
Lemma C6_vertex_near_brush_edge_not_moved :
  terrain (appR 0) = Some crustR
  /\ mode (appR 0) = "extrude"
  /\ 0 < brushSize (appR 0)
  /\ 0 < intensity (appR 0)
  /\ THREE.position (THREE.geometry crustR) !! 1%nat = Some nearEdgeR
  /\ THREE.distanceTo nearEdgeR poleR < brushSize (appR 0)
  /\ (layerGeometry (editTerrain (Some poleR) (appR 0)) Crust
        ≫= fun g => THREE.position g !! 1%nat) = Some nearEdgeR
  /\ ~ THREE.length nearEdgeR < THREE.length nearEdgeR.
Proof.
  split; [reflexivity|]. split; [reflexivity|].
  split; [simpl; lra|]. split; [simpl; lra|]. split; [reflexivity|].
  split; [rewrite distanceTo_nearEdgeR_poleR; simpl; lra|].
  split; [|lra].
  unfold editTerrain. simpl. rewrite editVertex_nearEdgeR. reflexivity.
Qed.

(** The vertex under the brush centre moves out by the full strength. *)
Example editVertex_poleR : editVertex 20 "extrude" 2 poleR poleR = rvec 0 52 0.
Proof.
  unfold editVertex. cbv zeta.
  change (@fltb R R_Number) with Rltb. change (@fdiv R R_Number) with Rdiv.
  assert (Hd : THREE.distanceTo poleR poleR = 0).
  { unfold THREE.distanceTo, poleR, rvec. simpl.
    apply sqrt_lem_1; [nra|lra|field]. }
  assert (HL : THREE.length poleR = 50).
  { unfold THREE.length, poleR, rvec. simpl. apply sqrt_lem_1; [nra|lra|field]. }
  rewrite Hd.
  replace (Rltb 0 20) with true by (symmetry; apply Rltb_true; lra).
  assert (Hnew : displaced "extrude" 2 (influenceOf (0 / 20)) poleR = rvec 0 52 0).
  { unfold displaced. simpl String.eqb. cbv iota.
    unfold THREE.normalize, THREE.divideScalar. rewrite HL.
    unfold or_else, truthy, lit. simpl. rewrite Reqb_refl.
    replace (Reqb 50 0) with false
      by (unfold Reqb; destruct (Req_dec_T 50 0); [lra|reflexivity]).
    simpl. unfold influenceOf, lit, rvec, poleR, THREE.add, THREE.multiplyScalar.
    simpl. f_equal; field. }
  rewrite Hnew.
  replace (movedEnough (rvec 0 52 0) poleR) with true; [reflexivity|].
  symmetry. unfold movedEnough, lit_0_001, lit, rvec, poleR. simpl.
  apply orb_true_iff. left. apply orb_true_iff. right.
  apply Rltb_true. replace (52 - 50) with 2 by ring.
  rewrite Rabs_right; lra.
Qed.

End RealBrush.

(* ------------------------------------------------------------------ *)
(** ** The resolution inputs (C9) *)
(* ------------------------------------------------------------------ *)

Section Resolution.

Lemma clampToBounds_within (n : Z) : withinBounds (clampToBounds n).
Proof. unfold withinBounds, clampToBounds. lia. Qed.

Lemma readInitialSegments_within (widthInput heightInput : option Parsed)
    (currentSegments : Segments) :
  segmentsWithinBounds currentSegments ->
  segmentsWithinBounds (readInitialSegments widthInput heightInput currentSegments).
Proof.
  intros Hcur. unfold readInitialSegments.
  destruct widthInput as [wv|], heightInput as [hv|]; try exact Hcur.
  split; apply clampToBounds_within.
Qed.

Lemma validSegment_within (v : Parsed) (n : Z) :
  v = Some n -> validSegment v = true -> withinBounds n.
Proof.
  intros -> Hv. unfold validSegment in Hv. unfold withinBounds.
  apply andb_true_iff in Hv as [Hv Hhi]. apply andb_true_iff in Hv as [_ Hlo].
  apply Z.leb_le in Hlo, Hhi. lia.
Qed.

Lemma updateSegmentsIfValid_within (customWidth customHeight : Parsed)
    (currentSegments : Segments) :
  segmentsWithinBounds currentSegments ->
  segmentsWithinBounds (updateSegmentsIfValid customWidth customHeight currentSegments).
Proof.
  intros Hcur. unfold updateSegmentsIfValid.
  destruct customWidth as [w|], customHeight as [h|]; try exact Hcur.
  destruct (validSegment (Some w)) eqn:Hw, (validSegment (Some h)) eqn:Hh;
    cbn [andb]; try exact Hcur.
  destruct (negb (w =? width currentSegments)%Z || negb (h =? height currentSegments)%Z);
    [|exact Hcur].
  split; simpl; eapply validSegment_within; eauto.
Qed.

(** An input that is not a number within the bounds makes
    [updateSegmentsIfValid] do nothing. *)
Lemma updateSegmentsIfValid_ignores (customWidth customHeight : Parsed)
    (currentSegments : Segments) :
  validSegment customWidth = false \/ validSegment customHeight = false ->
  updateSegmentsIfValid customWidth customHeight currentSegments = currentSegments.
Proof.
  intros Hbad. unfold updateSegmentsIfValid.
  destruct customWidth as [w|], customHeight as [h|]; try reflexivity.
  destruct Hbad as [-> | ->]; [reflexivity|].
  rewrite andb_false_r. reflexivity.
Qed.

Lemma validSegment_out_of_bounds (n : Z) :
  ~ withinBounds n -> validSegment (Some n) = false.
Proof.
  unfold withinBounds, validSegment. intros Hn.
  destruct (8 <=? n)%Z eqn:Hlo, (n <=? 1024)%Z eqn:Hhi;
    rewrite ?andb_false_r; try reflexivity.
  apply Z.leb_le in Hlo, Hhi. lia.
Qed.

(** C9, as the code has it.  On load each input is clamped into
    [8, 1024] (after the default has replaced a value that is not a
    number, or zero); an edit of the inputs with a value outside the
    bounds is ignored, the current counts staying as they are; so the
    counts reached from the constructor's through these two methods are
    always within the bounds. *)
Theorem C9_segments_clamped_on_load_ignored_on_edit :
  (forall (wv hv : Parsed) (cur : Segments),
      readInitialSegments (Some wv) (Some hv) cur
      = mkSegments (clampToBounds (parsedOr wv 256)) (clampToBounds (parsedOr hv 128)))
  /\ (forall (w h : Z) (cur : Segments),
         ~ withinBounds w \/ ~ withinBounds h ->
         updateSegmentsIfValid (Some w) (Some h) cur = cur)
  /\ (forall events : list SegmentsEvent,
         segmentsWithinBounds (runSegments events initialSegments)).
Proof.
  split; [reflexivity|]. split.
  - intros w h cur Hout. apply updateSegmentsIfValid_ignores.
    destruct Hout as [Hw|Hh]; [left|right]; apply validSegment_out_of_bounds; assumption.
  - assert (Hgen : forall events seg, segmentsWithinBounds seg ->
                     segmentsWithinBounds (runSegments events seg)).
    { induction events as [|e rest IH]; intros seg Hseg; simpl; [exact Hseg|].
      apply IH. destruct e; simpl;
        [apply readInitialSegments_within|apply updateSegmentsIfValid_within]; exact Hseg. }
    intros events. apply Hgen. unfold segmentsWithinBounds, withinBounds; simpl. lia.
Qed.

(** C9 as the specification words it fails on an edit: the width input [2000] is not
    clamped to [1024], the width stays [256]. *)
Lemma C9_out_of_range_edit_not_clamped :
  width (updateSegmentsIfValid (Some 2000%Z) (Some 128%Z) initialSegments) = 256%Z
  /\ clampToBounds 2000 = 1024%Z
  /\ width (updateSegmentsIfValid (Some 2000%Z) (Some 128%Z) initialSegments)
     <> clampToBounds 2000.
Proof. repeat split. vm_compute. discriminate. Qed.

End Resolution.

(* ================================================================== *)
(** * Further properties of the code *)
(* ================================================================== *)

(* ------------------------------------------------------------------ *)
(** ** The geometry a clipping builds *)
(* ------------------------------------------------------------------ *)

Section ClippedGeometry.
Context {F : Type} `{Number F}.

Lemma countVisible_map_filter (f : THREE.Vector3 F -> bool) (ps : list (THREE.Vector3 F)) :
  countVisible (map f ps) = List.length (List.filter f ps).
Proof.
  unfold countVisible. induction ps as [|p ps IH]; [reflexivity|].
  simpl. destruct (f p); simpl; rewrite IH; reflexivity.
Qed.

Lemma countVisible_take_le (vis : list bool) (i : nat) :
  countVisible (take i vis) <= countVisible vis.
Proof.
  rewrite <- (take_drop i vis) at 2. rewrite countVisible_app. lia.
Qed.

Lemma newIndexOf_visible_lt (vis : list bool) (a : nat) :
  isVisible vis a = true -> newIndexOf vis a < countVisible vis.
Proof.
  intros Ha. apply isVisible_lookup in Ha.
  pose proof (newIndexOf_S vis a true Ha) as HS.
  pose proof (countVisible_take_le vis (S a)) as Hle.
  unfold newIndexOf in *. lia.
Qed.

Lemma triangles_length (indices : list nat) :
  3 * List.length (triangles indices) <= List.length indices.
Proof.
  assert (Hgen : forall n idx, List.length idx <= n ->
                   3 * List.length (triangles idx) <= List.length idx).
  { induction n as [|n IH]; intros idx Hn.
    - destruct idx; simpl in *; lia.
    - destruct idx as [|a [|b [|c rest]]]; simpl in *; try lia.
      specialize (IH rest). lia. }
  apply (Hgen (List.length indices)). lia.
Qed.

Lemma remapped_length (vis : list bool) (ts : list (nat * nat * nat)) :
  List.length (flat_map (remapTriangle vis) ts) = 3 * List.length ts.
Proof.
  induction ts as [|[[a b] c] ts IH]; [reflexivity|]. simpl. lia.
Qed.

Lemma triangles_remapped (vis : list bool) (ts : list (nat * nat * nat)) :
  triangles (flat_map (remapTriangle vis) ts)
  = map (fun '(a, b, c) => (newIndexOf vis a, newIndexOf vis b, newIndexOf vis c)) ts.
Proof.
  induction ts as [|[[a b] c] ts IH]; [reflexivity|]. simpl. rewrite IH. reflexivity.
Qed.

Lemma filter_length_le {A : Type} (f : A -> bool) (l : list A) :
  List.length (List.filter f l) <= List.length l.
Proof. induction l as [|x l IH]; simpl; [lia|]. destruct (f x); simpl; lia. Qed.

(** X1.  Whatever geometry goes in (its indices may even point outside the
    position buffer), what a clipping builds is a well-formed mesh: every
    index points into the new position buffer and the index array is
    made of whole triangles.  It has no more vertices and no more
    indices than the original. *)
Theorem clipGeometry_well_formed (direction : string)
    (clippingPlane : ClippingPlane F) (g : THREE.BufferGeometry F) :
  Forall (fun a => a < vertexCount (clipGeometry direction clippingPlane g))
    (indexArray (clipGeometry direction clippingPlane g))
  /\ List.length (indexArray (clipGeometry direction clippingPlane g))
     = 3 * List.length (triangles (indexArray (clipGeometry direction clippingPlane g)))
  /\ vertexCount (clipGeometry direction clippingPlane g) <= vertexCount g
  /\ List.length (indexArray (clipGeometry direction clippingPlane g))
     <= List.length (indexArray g).
Proof.
  rewrite clipGeometry_spec.
  set (vis := vertexVisibilityOf direction clippingPlane (THREE.position g)).
  set (kept := List.filter (allVisible vis) (triangles (indexArray g))).
  assert (Hidx : indexArray
                   (THREE.mkBufferGeometry
                      (List.filter (shouldShow direction clippingPlane) (THREE.position g))
                      (if (0 <? List.length (flat_map (remapTriangle vis) kept))%nat
                       then Some (flat_map (remapTriangle vis) kept) else None))
                 = flat_map (remapTriangle vis) kept).
  { unfold indexArray. simpl.
    destruct (flat_map (remapTriangle vis) kept); reflexivity. }
  rewrite Hidx. unfold vertexCount. simpl.
  split; [|split; [|split]].
  - apply List.Forall_forall. intros a Ha.
    apply in_flat_map in Ha as [[[x y] z] [Ht Ha]].
    apply filter_In in Ht as [_ Hvis]. simpl in Hvis.
    apply andb_true_iff in Hvis as [Hxy Hz]. apply andb_true_iff in Hxy as [Hx Hy].
    rewrite <- countVisible_map_filter. fold (vertexVisibilityOf direction clippingPlane
                                                (THREE.position g)). fold vis.
    simpl in Ha. destruct Ha as [<-|[<-|[<-|[]]]];
      apply newIndexOf_visible_lt; assumption.
  - rewrite triangles_remapped, remapped_length, length_map. reflexivity.
  - apply filter_length_le.
  - rewrite remapped_length.
    pose proof (filter_length_le (allVisible vis) (triangles (indexArray g))).
    pose proof (triangles_length (indexArray g)). fold kept in H0. lia.
Qed.

Lemma visibility_of_kept (f : THREE.Vector3 F -> bool) (ps : list (THREE.Vector3 F)) :
  map f (List.filter f ps) = repeat true (List.length (List.filter f ps)).
Proof.
  induction ps as [|p ps IH]; [reflexivity|]. simpl.
  destruct (f p) eqn:Hp; [|exact IH]. simpl. rewrite Hp, IH. reflexivity.
Qed.

Lemma isVisible_all_true (n k : nat) : k < n -> isVisible (repeat true n) k = true.
Proof.
  revert k. induction n as [|n IH]; intros k Hk; [lia|].
  destruct k as [|k]; [reflexivity|]. simpl. apply IH. lia.
Qed.

Lemma newIndexOf_all_true (n k : nat) : k <= n -> newIndexOf (repeat true n) k = k.
Proof.
  unfold newIndexOf, countVisible. revert k.
  induction n as [|n IH]; intros k Hk.
  - destruct k; [reflexivity|lia].
  - destruct k as [|k]; [reflexivity|]. simpl. rewrite IH; [reflexivity|lia].
Qed.

Lemma filter_filter_same {A : Type} (f : A -> bool) (l : list A) :
  List.filter f (List.filter f l) = List.filter f l.
Proof.
  induction l as [|x l IH]; [reflexivity|]. simpl.
  destruct (f x) eqn:Hx; [|exact IH]. simpl. rewrite Hx, IH. reflexivity.
Qed.

Lemma reclip_kept_triangles (vis : list bool) (ts : list (nat * nat * nat)) :
  (forall t, In t ts -> allVisible vis t = true) ->
  let all := repeat true (countVisible vis) in
  flat_map (remapTriangle all)
    (List.filter (allVisible all) (triangles (flat_map (remapTriangle vis) ts)))
  = flat_map (remapTriangle vis) ts.
Proof.
  intros Hts all. rewrite triangles_remapped.
  induction ts as [|[[a b] c] ts IH]; [reflexivity|].
  pose proof (Hts (a, b, c) (or_introl eq_refl)) as Habc. simpl in Habc.
  apply andb_true_iff in Habc as [Hab Hc]. apply andb_true_iff in Hab as [Ha Hb].
  apply newIndexOf_visible_lt in Ha, Hb, Hc.
  cbn [map List.filter allVisible].
  subst all.
  rewrite !isVisible_all_true by assumption. cbn [andb flat_map remapTriangle].
  rewrite !newIndexOf_all_true by lia.
  cbn [app]. f_equal. f_equal. f_equal.
  apply IH. intros t Ht. apply Hts. right. exact Ht.
Qed.

(** X2.  Clipping a geometry that is already the result of the same clipping
    changes nothing: every vertex that was kept is kept again, with its
    number, and every triangle with it. *)
Theorem clipGeometry_idempotent (direction : string)
    (clippingPlane : ClippingPlane F) (g : THREE.BufferGeometry F) :
  clipGeometry direction clippingPlane (clipGeometry direction clippingPlane g)
  = clipGeometry direction clippingPlane g.
Proof.
  rewrite (clipGeometry_spec direction clippingPlane g).
  set (vis := vertexVisibilityOf direction clippingPlane (THREE.position g)).
  set (kept := flat_map (remapTriangle vis)
                 (List.filter (allVisible vis) (triangles (indexArray g)))).
  set (g1 := THREE.mkBufferGeometry _ _).
  assert (Hidx : indexArray g1 = kept).
  { unfold indexArray, g1. simpl. destruct kept; reflexivity. }
  rewrite clipGeometry_spec. rewrite Hidx.
  assert (Hvis : vertexVisibilityOf direction clippingPlane (THREE.position g1)
                 = repeat true (countVisible vis)).
  { unfold g1. cbn [THREE.position]. unfold vertexVisibilityOf at 1.
    rewrite visibility_of_kept. unfold vis, vertexVisibilityOf.
    rewrite countVisible_map_filter. reflexivity. }
  rewrite Hvis. unfold kept at 1 2.
  rewrite reclip_kept_triangles.
  - fold kept. unfold g1 at 1. cbn [THREE.position].
    rewrite filter_filter_same. reflexivity.
  - intros t Ht. apply filter_In in Ht as [_ Ht]. exact Ht.
Qed.

End ClippedGeometry.

(* ------------------------------------------------------------------ *)
(** ** The plane of the solver, over the reals *)
(* ------------------------------------------------------------------ *)

Section RealPlane.
Local Open Scope R_scope.

Lemma normalize_scales (v : THREE.Vector3 R) :
  exists k, THREE.normalize v = THREE.multiplyScalar v k
            /\ (v <> rvec 0 0 0 -> k = / THREE.length v /\ 0 < THREE.length v).
Proof.
  exists (1 / or_else (THREE.length v) (lit 1)). split; [reflexivity|].
  intros Hv. destruct v as [x y z].
  unfold or_else, truthy, THREE.length, lit. simpl.
  set (q := x * x + y * y + z * z).
  assert (Hq : 0 <= q) by (unfold q; nra).
  rewrite Reqb_refl, andb_true_r. unfold Reqb.
  destruct (Req_dec_T (R_sqrt.sqrt q) 0) as [Hz|Hnz]; simpl.
  - exfalso. apply Hv. apply sqrt_eq_0 in Hz; [|exact Hq].
    destruct (sum_of_squares_zero x y z Hz) as [-> [-> ->]]. reflexivity.
  - split; [unfold Rdiv; ring|]. pose proof (sqrt_pos q). lra.
Qed.

(** X3.  For every polygon of at least three points the plane of the solver
    passes through the first three of them, so that none of the three is
    shown by a clipping in either direction; and when the three are not
    collinear its normal has length one, which makes the signed distance
    of the visibility test the geometric one. *)
Theorem calculateClippingPlane_through_points (s : App R)
    (p0 p1 p2 : THREE.Vector3 R) (rest : list (THREE.Vector3 R)) :
  clippingPolygon s = Some (p0 :: p1 :: p2 :: rest) ->
  exists clippingPlane,
    calculateClippingPlane s = Some clippingPlane
    /\ (forall p, In p [p0; p1; p2] ->
          signedDistance clippingPlane p = 0
          /\ forall direction, shouldShow direction clippingPlane p = false)
    /\ (THREE.cross (THREE.sub p1 p0) (THREE.sub p2 p0) <> rvec 0 0 0 ->
        THREE.length (cp_normal clippingPlane) = 1).
Proof.
  intros Hpoly. unfold calculateClippingPlane. rewrite Hpoly.
  eexists. split; [reflexivity|].
  destruct (normalize_scales (THREE.cross (THREE.sub p1 p0) (THREE.sub p2 p0)))
    as [k [Hn Hk]].
  rewrite Hn. clear Hn. split.
  - assert (Hzero : forall p, In p [p0; p1; p2] ->
              signedDistance
                (mkClippingPlane
                   (THREE.multiplyScalar (THREE.cross (THREE.sub p1 p0) (THREE.sub p2 p0)) k)
                   (- THREE.dot
                        (THREE.multiplyScalar
                           (THREE.cross (THREE.sub p1 p0) (THREE.sub p2 p0)) k) p0)%js) p
              = 0).
    { intros p Hp. destruct p0 as [x0 y0 z0], p1 as [x1 y1 z1], p2 as [x2 y2 z2].
      simpl in Hp. destruct Hp as [<-|[<-|[<-|[]]]];
        unfold signedDistance, THREE.dot, THREE.multiplyScalar, THREE.cross, THREE.sub;
        simpl; ring. }
    intros p Hp. split; [apply Hzero, Hp|].
    intros direction. unfold shouldShow. cbv zeta. rewrite (Hzero p Hp).
    unfold lit. simpl. destruct (String.eqb direction "outside"); apply Rltb_false; lra.
  - intros Hc. destruct (Hk Hc) as [-> HL]. cbn [cp_normal].
    destruct (THREE.cross (THREE.sub p1 p0) (THREE.sub p2 p0)) as [x y z].
    unfold THREE.length, THREE.multiplyScalar in *. simpl in *.
    set (q := x * x + y * y + z * z) in *.
    assert (Hq : 0 <= q) by (unfold q; nra).
    replace (x * / R_sqrt.sqrt q * (x * / R_sqrt.sqrt q)
             + y * / R_sqrt.sqrt q * (y * / R_sqrt.sqrt q)
             + z * / R_sqrt.sqrt q * (z * / R_sqrt.sqrt q))
      with (q * (/ R_sqrt.sqrt q * / R_sqrt.sqrt q)) by (unfold q; ring).
    rewrite <- (sqrt_sqrt q Hq) at 1.
    replace (R_sqrt.sqrt q * R_sqrt.sqrt q * (/ R_sqrt.sqrt q * / R_sqrt.sqrt q))
      with 1 by (field; lra).
    apply sqrt_1.
Qed.

(** Witness of X3: the default square. *)
Lemma calculateClippingPlane_through_points_witness :
  clippingPolygon (appR 0) = Some squareR
  /\ exists clippingPlane,
       calculateClippingPlane (appR 0) = Some clippingPlane
       /\ (forall p, In p [rvec 40 40 4; rvec (-40) 40 4; rvec (-40) (-40) 4] ->
             signedDistance clippingPlane p = 0
             /\ forall direction, shouldShow direction clippingPlane p = false)
       /\ (THREE.cross (THREE.sub (rvec (-40) 40 4) (rvec 40 40 4))
                       (THREE.sub (rvec (-40) (-40) 4) (rvec 40 40 4)) <> rvec 0 0 0 ->
           THREE.length (cp_normal clippingPlane) = 1).
Proof.
  split; [reflexivity|].
  apply (calculateClippingPlane_through_points (appR 0) _ _ _ [rvec 40 (-40) 4]).
  reflexivity.
Defined.

Lemma shouldShow_trichotomy (clippingPlane : ClippingPlane R) (v : THREE.Vector3 R) :
  let inside := shouldShow "inside" clippingPlane v in
  let outside := shouldShow "outside" clippingPlane v in
  let onPlane := Reqb (signedDistance clippingPlane v) 0 in
  (inside = true /\ outside = false /\ onPlane = false)
  \/ (inside = false /\ outside = true /\ onPlane = false)
  \/ (inside = false /\ outside = false /\ onPlane = true).
Proof.
  unfold shouldShow. cbv zeta. simpl String.eqb. cbv iota.
  change (@fltb R R_Number) with Rltb. unfold lit. simpl fofZ.
  set (d := signedDistance clippingPlane v). clearbody d.
  unfold Rltb, Reqb.
  destruct (Rlt_dec d 0), (Rlt_dec 0 d), (Req_dec_T d 0); try lra; tauto.
Qed.

(** X4.  The two directions split a geometry: a vertex is kept by the inside
    clipping, or by the outside clipping, or it lies on the plane and is
    kept by neither, and these three cases exclude each other. *)
Theorem clipGeometry_sides (clippingPlane : ClippingPlane R) (g : THREE.BufferGeometry R) :
  (vertexCount (clipGeometry "inside" clippingPlane g)
   + vertexCount (clipGeometry "outside" clippingPlane g)
   + List.length (List.filter (fun v => Reqb (signedDistance clippingPlane v) 0)
                    (THREE.position g))
   = vertexCount g)%nat.
Proof.
  rewrite !clipGeometry_spec. unfold vertexCount. cbn [THREE.position].
  induction (THREE.position g) as [|v ps IH]; [reflexivity|].
  cbn [List.filter].
  destruct (shouldShow_trichotomy clippingPlane v)
    as [[-> [-> ->]]|[[-> [-> ->]]|[-> [-> ->]]]]; cbn [List.length]; lia.
Qed.

(** X5.  The side that a direction keeps depends on the order in which the
    polygon lists its points: exchanging the second and the third point
    turns the normal round, and what was inside is outside. *)
Theorem calculateClippingPlane_winding (s s' : App R)
    (p0 p1 p2 : THREE.Vector3 R) (rest rest' : list (THREE.Vector3 R)) :
  clippingPolygon s = Some (p0 :: p1 :: p2 :: rest) ->
  clippingPolygon s' = Some (p0 :: p2 :: p1 :: rest') ->
  exists clippingPlane clippingPlane',
    calculateClippingPlane s = Some clippingPlane
    /\ calculateClippingPlane s' = Some clippingPlane'
    /\ forall v,
         signedDistance clippingPlane' v = - signedDistance clippingPlane v
         /\ shouldShow "outside" clippingPlane' v = shouldShow "inside" clippingPlane v
         /\ shouldShow "inside" clippingPlane' v = shouldShow "outside" clippingPlane v.
Proof.
  intros Hpoly Hpoly'. unfold calculateClippingPlane. rewrite Hpoly, Hpoly'.
  eexists. eexists. split; [reflexivity|]. split; [reflexivity|].
  assert (Hcross : THREE.cross (THREE.sub p2 p0) (THREE.sub p1 p0)
                   = THREE.multiplyScalar
                       (THREE.cross (THREE.sub p1 p0) (THREE.sub p2 p0)) (-1)).
  { destruct p0, p1, p2. unfold THREE.cross, THREE.sub, THREE.multiplyScalar. simpl.
    f_equal; ring. }
  rewrite Hcross. clear Hcross.
  set (c := THREE.cross (THREE.sub p1 p0) (THREE.sub p2 p0)).
  assert (Hn : THREE.normalize (THREE.multiplyScalar c (-1))
               = THREE.multiplyScalar (THREE.normalize c) (-1)).
  { destruct c as [x y z].
    unfold THREE.normalize, THREE.divideScalar, THREE.multiplyScalar, THREE.length. simpl.
    replace (x * -1 * (x * -1) + y * -1 * (y * -1) + z * -1 * (z * -1))
      with (x * x + y * y + z * z) by ring.
    f_equal; ring. }
  rewrite Hn. clear Hn. set (n := THREE.normalize c). clearbody n. clear c.
  intros v.
  assert (Hd : signedDistance
                 (mkClippingPlane (THREE.multiplyScalar n (-1))
                    (- THREE.dot (THREE.multiplyScalar n (-1)) p0)%js) v
               = - signedDistance (mkClippingPlane n (- THREE.dot n p0)%js) v).
  { destruct n, p0, v. unfold signedDistance, THREE.dot, THREE.multiplyScalar. simpl. ring. }
  split; [exact Hd|].
  unfold shouldShow. cbv zeta. rewrite Hd. simpl String.eqb. cbv iota.
  change (@fltb R R_Number) with Rltb. unfold lit. simpl fofZ.
  set (d := signedDistance _ v). clearbody d.
  unfold Rltb. split; destruct (Rlt_dec 0 (- d)), (Rlt_dec d 0), (Rlt_dec (- d) 0),
    (Rlt_dec 0 d); try reflexivity; lra.
Qed.

(** Witness of X5: the default square against the same square listed the
    other way round. *)
Lemma calculateClippingPlane_winding_witness :
  clippingPolygon (appR 0) = Some squareR
  /\ clippingPolygon
       (set_clippingPolygon
          (Some [rvec 40 40 4; rvec (-40) (-40) 4; rvec (-40) 40 4; rvec 40 (-40) 4])
          (appR 0))
     = Some [rvec 40 40 4; rvec (-40) (-40) 4; rvec (-40) 40 4; rvec 40 (-40) 4]
  /\ exists clippingPlane clippingPlane',
       calculateClippingPlane (appR 0) = Some clippingPlane
       /\ calculateClippingPlane
            (set_clippingPolygon
               (Some [rvec 40 40 4; rvec (-40) (-40) 4; rvec (-40) 40 4; rvec 40 (-40) 4])
               (appR 0))
          = Some clippingPlane'
       /\ forall v,
            signedDistance clippingPlane' v = - signedDistance clippingPlane v
            /\ shouldShow "outside" clippingPlane' v = shouldShow "inside" clippingPlane v
            /\ shouldShow "inside" clippingPlane' v = shouldShow "outside" clippingPlane v.
Proof.
  split; [reflexivity|]. split; [reflexivity|].
  apply (calculateClippingPlane_winding (appR 0) _ (rvec 40 40 4) (rvec (-40) 40 4)
           (rvec (-40) (-40) 4) [rvec 40 (-40) 4] [rvec 40 (-40) 4]); reflexivity.
Defined.

End RealPlane.

(* ------------------------------------------------------------------ *)
(** ** Which layers the real-time paths clip *)
(* ------------------------------------------------------------------ *)

Section Enrolment.
Context {F : Type} `{Number F}.

(** A call of [clipSphereWithPolygon] on the tracked layer itself,
    whether the layer is visible or not. *)
Lemma tracked_apply_self (l : Layer) (m : THREE.Mesh F)
    (pristine : THREE.BufferGeometry F) (clippingPlane : ClippingPlane F)
    (direction : string) (g : THREE.BufferGeometry F) (s : App F) :
  layerTracked l m pristine clippingPlane direction g s ->
  layerTracked l m pristine clippingPlane direction
    (clipGeometry direction clippingPlane pristine)
    (clipSphereWithPolygon (layerName l) s).
Proof.
  intros [Hgpu [Hplane [Hdir [Hm [Hp Hothers]]]]].
  rewrite (clipSphereWithPolygon_webgpu l _ clippingPlane s Hgpu Hplane Hm).
  destruct (applyWebGPUClipping_unfold l (THREE.setGeometry m g) clippingPlane s)
    as [cps ->].
  rewrite Hp, Hdir. unfold layerTracked. simpl.
  split; [destruct l; exact Hgpu|]. split; [destruct l; exact Hplane|].
  split; [destruct l; exact Hdir|].
  split; [destruct l; reflexivity|]. split.
  - unfold pristineOf. simpl. rewrite ?originalGeometries_setLayer. simpl.
    rewrite lookup_insert_eq. reflexivity.
  - intros l' m' Hne Hm'. apply (Hothers l' m' Hne).
    destruct l, l'; try contradiction; exact Hm'.
Qed.

(** The guarded call [if (selected && this.layer && this.layer.visible)]
    on the tracked layer, and on another one. *)
Lemma tracked_selected_self (selected : bool) (l : Layer) (m : THREE.Mesh F)
    (pristine : THREE.BufferGeometry F) (clippingPlane : ClippingPlane F)
    (direction : string) (g : THREE.BufferGeometry F) (s : App F) :
  layerTracked l m pristine clippingPlane direction g s ->
  layerTracked l m pristine clippingPlane direction
    (if selected && THREE.visible m
     then clipGeometry direction clippingPlane pristine else g)
    (when (selected && layerVisible s l) (clipSphereWithPolygon (layerName l)) s).
Proof.
  intros Htr. destruct selected; [|exact Htr]. cbn [andb].
  apply tracked_clip_self. exact Htr.
Qed.

Lemma tracked_selected_other (selected : bool) (l l' : Layer) (m : THREE.Mesh F)
    (pristine : THREE.BufferGeometry F) (clippingPlane : ClippingPlane F)
    (direction : string) (g : THREE.BufferGeometry F) (s : App F) :
  l' <> l ->
  layerTracked l m pristine clippingPlane direction g s ->
  layerTracked l m pristine clippingPlane direction g
    (when (selected && layerVisible s l') (clipSphereWithPolygon (layerName l')) s).
Proof.
  intros Hne Htr. destruct selected; [|exact Htr]. cbn [andb].
  apply tracked_clip_other; assumption.
Qed.

Lemma tracked_start (l : Layer) (m : THREE.Mesh F)
    (clippingPlane : ClippingPlane F) (s : App F) :
  renderer_isWebGPURenderer s = true ->
  uuidsDistinct s ->
  calculateClippingPlane s = Some clippingPlane ->
  getLayer s l = Some m ->
  layerTracked l m (pristineOf s m) clippingPlane (clippingDirection s)
    (THREE.geometry m) s.
Proof.
  intros Hgpu Hdistinct Hplane Hm. unfold layerTracked. rewrite setGeometry_same.
  split; [exact Hgpu|]. split; [exact Hplane|]. split; [reflexivity|].
  split; [exact Hm|]. split; [reflexivity|].
  intros l' m' Hne Hm'. exact (Hdistinct l' l m' m Hne Hm' Hm).
Qed.

(** The three guarded calls that [applyClippingToSelectedLayers], the
    WebGPU branch of [updateClippingOnPolygonMove] and that of
    [applyRealtimeClipping] have in common. *)
Lemma tracked_selected_layers (crustSelected mantleSelected coreSelected : bool)
    (l : Layer) (m : THREE.Mesh F)
    (pristine : THREE.BufferGeometry F) (clippingPlane : ClippingPlane F)
    (direction : string) (g : THREE.BufferGeometry F) (s : App F) :
  layerTracked l m pristine clippingPlane direction g s ->
  let selected :=
    match l with
    | Crust => crustSelected | Mantle => mantleSelected | Core => coreSelected
    end in
  let s1 := when (crustSelected && layerVisible s Crust)
              (clipSphereWithPolygon "crust") s in
  let s2 := when (mantleSelected && layerVisible s1 Mantle)
              (clipSphereWithPolygon "mantle") s1 in
  layerTracked l m pristine clippingPlane direction
    (if selected && THREE.visible m
     then clipGeometry direction clippingPlane pristine else g)
    (when (coreSelected && layerVisible s2 Core) (clipSphereWithPolygon "core") s2).
Proof.
  intros Htr. cbv zeta. destruct l.
  - apply (tracked_selected_other _ Crust Core); [discriminate|].
    apply (tracked_selected_other _ Crust Mantle); [discriminate|].
    apply (tracked_selected_self _ Crust). exact Htr.
  - apply (tracked_selected_other _ Mantle Core); [discriminate|].
    apply (tracked_selected_self _ Mantle).
    apply (tracked_selected_other _ Mantle Crust); [discriminate|]. exact Htr.
  - apply (tracked_selected_self _ Core).
    apply (tracked_selected_other _ Core Mantle); [discriminate|].
    apply (tracked_selected_other _ Core Crust); [discriminate|]. exact Htr.
Qed.

Lemma clipChecked_setLayer (l l' : Layer) (m : THREE.Mesh F) (s : App F) :
  clipChecked (setLayer l m s) l' = clipChecked s l'.
Proof. destruct l, l'; reflexivity. Qed.

Lemma clipChecked_clipSphereWithPolygon (targetLayer : string) (l : Layer) (s : App F) :
  clipChecked (clipSphereWithPolygon targetLayer s) l = clipChecked s l.
Proof.
  unfold clipSphereWithPolygon.
  destruct (clippingPolygon s) as [polygon|]; [|reflexivity].
  destruct (List.length polygon <? 3)%nat; [reflexivity|].
  destruct (layerOfName targetLayer) as [l0|]; [|reflexivity].
  destruct (getLayer s l0) as [m|]; [|reflexivity].
  destruct (calculateClippingPlane s) as [clippingPlane|]; [|reflexivity].
  unfold applyMaterialClipping, applyWebGPUClipping, applyGeometryClipping.
  cbv zeta.
  repeat match goal with
         | |- context [if ?c then _ else _] => destruct c
         | |- context [match ?c with Some _ => _ | None => _ end] => destruct c
         end; rewrite ?clipChecked_setLayer; destruct l; reflexivity.
Qed.

Lemma clipChecked_when (cond : bool) (targetLayer : string) (l : Layer) (s : App F) :
  clipChecked (when cond (clipSphereWithPolygon targetLayer) s) l = clipChecked s l.
Proof. destruct cond; [apply clipChecked_clipSphereWithPolygon|reflexivity]. Qed.

(** X6.  When the polygon has moved (WebGPU renderer, a polygon that gives a
    plane), a layer is clipped again, from its pristine geometry, exactly
    when real-time clipping is on, the layer is enrolled and it is
    visible; any other layer keeps the geometry it has. *)
Theorem updateClippingOnPolygonMove_clips_enrolled
    (s : App F) (clippingPlane : ClippingPlane F) (l : Layer) (m : THREE.Mesh F) :
  renderer_isWebGPURenderer s = true ->
  uuidsDistinct s ->
  calculateClippingPlane s = Some clippingPlane ->
  getLayer s l = Some m ->
  layerGeometry (updateClippingOnPolygonMove s) l
  = Some (if realtimeClipping s && (clipChecked s l && THREE.visible m)
          then clipGeometry (clippingDirection s) clippingPlane (pristineOf s m)
          else THREE.geometry m).
Proof.
  intros Hgpu Hdistinct Hplane Hm.
  unfold updateClippingOnPolygonMove.
  destruct (realtimeClipping s); cbn [negb andb].
  - rewrite Hgpu.
    pose proof (tracked_selected_layers (clipCrust s) (clipMantle s) (clipCore s)
                  l m _ _ _ _ s (tracked_start l m clippingPlane s Hgpu Hdistinct Hplane Hm))
      as [_ [_ [_ [Hl _]]]].
    unfold layerGeometry. cbv zeta in Hl. rewrite Hl.
    destruct l; reflexivity.
  - unfold layerGeometry. rewrite Hm. reflexivity.
Qed.

(** X7.  Switching real-time clipping on enrols the three layers and clips
    every visible one from its pristine geometry. *)
Theorem onRealtimeClippingToggle_on
    (s : App F) (clippingPlane : ClippingPlane F) (l : Layer) (m : THREE.Mesh F) :
  renderer_isWebGPURenderer s = true ->
  uuidsDistinct s ->
  calculateClippingPlane s = Some clippingPlane ->
  getLayer s l = Some m ->
  let s' := onRealtimeClippingToggle true s in
  (forall l', clipChecked s' l' = true)
  /\ layerGeometry s' l
     = Some (if THREE.visible m
             then clipGeometry (clippingDirection s) clippingPlane (pristineOf s m)
             else THREE.geometry m).
Proof.
  intros Hgpu Hdistinct Hplane Hm s'. subst s'.
  unfold onRealtimeClippingToggle. cbn [realtimeClipping set_realtimeClipping].
  unfold applyClippingToSelectedLayers.
  set (s0 := checkAllLayersForClipping (set_realtimeClipping true s)).
  assert (Hstart : layerTracked l m (pristineOf s m) clippingPlane (clippingDirection s)
                     (THREE.geometry m) s0).
  { exact (tracked_start l m clippingPlane s Hgpu Hdistinct Hplane Hm). }
  pose proof (tracked_selected_layers (clipCrust s0) (clipMantle s0) (clipCore s0)
                l m _ _ _ _ s0 Hstart) as [_ [_ [Hdir [Hl _]]]].
  cbv zeta in Hl. split.
  - intros l'. rewrite !clipChecked_when. destruct l'; reflexivity.
  - unfold layerGeometry. rewrite Hl. destruct l; reflexivity.
Qed.

(** X8.  A change of one enrolment checkbox while real-time clipping is on
    (WebGPU renderer, a polygon that gives a plane): checking the box
    clips the layer from its pristine geometry, visible or not;
    unchecking it gives the layer its pristine geometry back.  While
    real-time clipping is off nothing happens to the layer.  In every
    case the other layers keep their meshes. *)
Theorem onClipCheckboxChange_acts_on_one_layer
    (s : App F) (checked : bool) (clippingPlane : ClippingPlane F)
    (l : Layer) (m : THREE.Mesh F) :
  renderer_isWebGPURenderer s = true ->
  calculateClippingPlane s = Some clippingPlane ->
  getLayer s l = Some m ->
  let s' := onClipCheckboxChange l checked s in
  clipChecked s' l = checked
  /\ layerGeometry s' l
     = Some (if realtimeClipping s
             then if checked
                  then clipGeometry (clippingDirection s) clippingPlane (pristineOf s m)
                  else pristineOf s m
             else THREE.geometry m)
  /\ forall l', l' <> l -> getLayer s' l' = getLayer s l'.
Proof.
  intros Hgpu Hplane Hm s'. subst s'.
  unfold onClipCheckboxChange, handleLayerSelectionChange.
  set (s0 := set_clipChecked l checked s).
  assert (Hgpu0 : renderer_isWebGPURenderer s0 = true) by exact Hgpu.
  assert (Hplane0 : calculateClippingPlane s0 = Some clippingPlane) by exact Hplane.
  assert (Hm0 : getLayer s0 l = Some m) by exact Hm.
  assert (Hsel : clipChecked s0 l = checked) by (destruct l; reflexivity).
  change (realtimeClipping s0) with (realtimeClipping s).
  destruct (realtimeClipping s); cbn [negb].
  - rewrite Hsel. destruct checked.
    + rewrite (clipSphereWithPolygon_webgpu l m clippingPlane s0 Hgpu0 Hplane0 Hm0).
      destruct (applyWebGPUClipping_unfold l m clippingPlane s0) as [cps ->].
      split; [rewrite clipChecked_setLayer; exact Hsel|]. split.
      * unfold layerGeometry. rewrite getLayer_setLayer. reflexivity.
      * intros l' Hne. rewrite getLayer_setLayer_ne by congruence.
        destruct l'; reflexivity.
    + destruct (restore_unfold l m s0 Hgpu0 Hm0) as [cps ->].
      split; [destruct l; reflexivity|]. split.
      * unfold layerGeometry. destruct l; reflexivity.
      * intros l' Hne. destruct l, l'; try contradiction; reflexivity.
  - split; [exact Hsel|]. split.
    + unfold layerGeometry. rewrite Hm0. reflexivity.
    + intros l' _. destruct l'; reflexivity.
Qed.

End Enrolment.

(** Witness of X6: the demo scene with real-time clipping on; the crust is
    enrolled and visible. *)
Lemma updateClippingOnPolygonMove_clips_enrolled_witness :
  renderer_isWebGPURenderer demoAppRealtime = true
  /\ uuidsDistinct demoAppRealtime
  /\ calculateClippingPlane demoAppRealtime = Some demoPlane
  /\ getLayer demoAppRealtime Crust = Some demoCrust
  /\ layerGeometry (updateClippingOnPolygonMove demoAppRealtime) Crust
     = Some (if realtimeClipping demoAppRealtime
                && (clipChecked demoAppRealtime Crust && THREE.visible demoCrust)
             then clipGeometry (clippingDirection demoAppRealtime) demoPlane
                    (pristineOf demoAppRealtime demoCrust)
             else THREE.geometry demoCrust).
Proof.
  split; [reflexivity|]. split; [exact demoApp_uuidsDistinct|].
  split; [vm_compute; reflexivity|]. split; [reflexivity|].
  apply (updateClippingOnPolygonMove_clips_enrolled demoAppRealtime demoPlane
           Crust demoCrust).
  - reflexivity.
  - exact demoApp_uuidsDistinct.
  - vm_compute; reflexivity.
  - reflexivity.
Defined.

(** Witness of X7: the demo scene, where nothing is enrolled yet. *)
Lemma onRealtimeClippingToggle_on_witness :
  renderer_isWebGPURenderer demoApp = true
  /\ uuidsDistinct demoApp
  /\ calculateClippingPlane demoApp = Some demoPlane
  /\ getLayer demoApp Mantle = Some demoMantle
  /\ (forall l', clipChecked (onRealtimeClippingToggle true demoApp) l' = true)
  /\ layerGeometry (onRealtimeClippingToggle true demoApp) Mantle
     = Some (if THREE.visible demoMantle
             then clipGeometry (clippingDirection demoApp) demoPlane
                    (pristineOf demoApp demoMantle)
             else THREE.geometry demoMantle).
Proof.
  split; [reflexivity|]. split; [exact demoApp_uuidsDistinct|].
  split; [vm_compute; reflexivity|]. split; [reflexivity|].
  apply (onRealtimeClippingToggle_on demoApp demoPlane Mantle demoMantle).
  - reflexivity.
  - exact demoApp_uuidsDistinct.
  - vm_compute; reflexivity.
  - reflexivity.
Defined.

(** Witness of X8: the mantle of the real-time demo scene is enrolled. *)
Lemma onClipCheckboxChange_acts_on_one_layer_witness :
  renderer_isWebGPURenderer demoAppRealtime = true
  /\ calculateClippingPlane demoAppRealtime = Some demoPlane
  /\ getLayer demoAppRealtime Mantle = Some demoMantle
  /\ clipChecked (onClipCheckboxChange Mantle true demoAppRealtime) Mantle = true
  /\ layerGeometry (onClipCheckboxChange Mantle true demoAppRealtime) Mantle
     = Some (if realtimeClipping demoAppRealtime
             then if true
                  then clipGeometry (clippingDirection demoAppRealtime) demoPlane
                         (pristineOf demoAppRealtime demoMantle)
                  else pristineOf demoAppRealtime demoMantle
             else THREE.geometry demoMantle)
  /\ forall l', l' <> Mantle ->
       getLayer (onClipCheckboxChange Mantle true demoAppRealtime) l'
       = getLayer demoAppRealtime l'.
Proof.
  split; [reflexivity|]. split; [vm_compute; reflexivity|]. split; [reflexivity|].
  apply (onClipCheckboxChange_acts_on_one_layer demoAppRealtime true demoPlane
           Mantle demoMantle).
  - reflexivity.
  - vm_compute; reflexivity.
  - reflexivity.
Defined.

(* ------------------------------------------------------------------ *)
(** ** Restoring every layer *)
(* ------------------------------------------------------------------ *)

Section RestoreAll.
Context {F : Type} `{Number F}.

(** What [restoreOriginalGeometry] does to the mesh of its layer. *)
Lemma restore_self (l : Layer) (m : THREE.Mesh F) (s : App F) :
  getLayer s l = Some m ->
  let s' := restoreOriginalGeometry (layerName l) s in
  renderer_isWebGPURenderer s' = renderer_isWebGPURenderer s
  /\ clippingPlanes s' !! THREE.uuid m = None
  /\ exists m',
       getLayer s' l = Some m'
       /\ THREE.uuid m' = THREE.uuid m
       /\ THREE.visible m' = THREE.visible m
       /\ if renderer_isWebGPURenderer s
          then THREE.geometry m' = pristineOf s m
               /\ THREE.material m' = THREE.material m
          else THREE.geometry m' = THREE.geometry m
               /\ THREE.clippingPlanes (THREE.material m')
                  = (fun _ => []) <$> THREE.clippingPlanes (THREE.material m).
Proof.
  intros Hm. cbv zeta. unfold restoreOriginalGeometry, pristineOf.
  rewrite layerOfName_layerName, Hm.
  destruct (renderer_isWebGPURenderer s) eqn:Hgpu.
  - destruct (originalGeometries s !! THREE.uuid m) as [original|] eqn:Horig.
    + rewrite clone_eq.
      match goal with
      | |- context [match ?c with Some _ => _ | None => _ end] =>
          destruct c eqn:Hstored
      end.
      * split; [destruct l; exact Hgpu|]. split.
        { cbn [clippingPlanes set_clippingPlanes]. apply lookup_delete_eq. }
        eexists. split; [destruct l; reflexivity|]. repeat split; reflexivity.
      * split; [destruct l; exact Hgpu|]. split; [exact Hstored|].
        eexists. split; [apply getLayer_setLayer|]. repeat split; reflexivity.
    + match goal with
      | |- context [match ?c with Some _ => _ | None => _ end] =>
          destruct c eqn:Hstored
      end.
      * split; [exact Hgpu|]. split.
        { cbn [clippingPlanes set_clippingPlanes]. apply lookup_delete_eq. }
        exists m. split; [destruct l; exact Hm|]. repeat split; reflexivity.
      * split; [exact Hgpu|]. split; [exact Hstored|].
        exists m. split; [exact Hm|]. repeat split; reflexivity.
  - destruct (THREE.clippingPlanes (THREE.material m)) as [planes|] eqn:Hplanes.
    + match goal with
      | |- context [match ?c with Some _ => _ | None => _ end] =>
          destruct c eqn:Hstored
      end.
      * split; [destruct l; exact Hgpu|]. split.
        { cbn [clippingPlanes set_clippingPlanes]. apply lookup_delete_eq. }
        eexists. split; [destruct l; reflexivity|]. repeat split; reflexivity.
      * split; [destruct l; exact Hgpu|]. split; [exact Hstored|].
        eexists. split; [apply getLayer_setLayer|]. repeat split; reflexivity.
    + match goal with
      | |- context [match ?c with Some _ => _ | None => _ end] =>
          destruct c eqn:Hstored
      end.
      * split; [exact Hgpu|]. split.
        { cbn [clippingPlanes set_clippingPlanes]. apply lookup_delete_eq. }
        exists m. split; [destruct l; exact Hm|]. rewrite Hplanes. repeat split; reflexivity.
      * split; [exact Hgpu|]. split; [exact Hstored|].
        exists m. split; [exact Hm|]. rewrite Hplanes. repeat split; reflexivity.
Qed.

Lemma restore_renderer (targetLayer : string) (s : App F) :
  renderer_isWebGPURenderer (restoreOriginalGeometry targetLayer s)
  = renderer_isWebGPURenderer s.
Proof.
  unfold restoreOriginalGeometry.
  destruct (layerOfName targetLayer) as [l|]; [|reflexivity].
  destruct (getLayer s l) as [m|]; [|reflexivity].
  destruct (renderer_isWebGPURenderer s) eqn:Hgpu;
    repeat match goal with
           | |- context [match ?c with Some _ => _ | None => _ end] => destruct c
           end; destruct l; exact Hgpu.
Qed.

(** What it does to the other layers. *)
Lemma restore_other (l l' : Layer) (s : App F) :
  l' <> l ->
  let s' := restoreOriginalGeometry (layerName l') s in
  renderer_isWebGPURenderer s' = renderer_isWebGPURenderer s
  /\ getLayer s' l = getLayer s l
  /\ forall id, clippingPlanes s !! id = None -> clippingPlanes s' !! id = None.
Proof.
  intros Hne. cbv zeta. split; [apply restore_renderer|].
  unfold restoreOriginalGeometry.
  rewrite layerOfName_layerName.
  destruct (getLayer s l') as [m1|]; [|repeat split; auto].
  assert (Hdel : forall (cps : gmap string (list (StoredPlane F))) id0 id,
             cps !! id = None -> delete id0 cps !! id = None).
  { intros cps id0 id Hid. destruct (decide (id0 = id)) as [->|Hd].
    - apply lookup_delete_eq.
    - rewrite lookup_delete_ne by exact Hd. exact Hid. }
  repeat match goal with
         | |- context [if ?c then _ else _] => destruct c
         | |- context [match ?c with Some _ => _ | None => _ end] => destruct c
         end;
    (split; [destruct l, l'; try contradiction; reflexivity|]);
    intros id Hid; cbn [clippingPlanes set_clippingPlanes];
    rewrite ?clippingPlanes_setLayer; auto.
Qed.

Lemma restoreAllLayers_layer (l : Layer) (m : THREE.Mesh F) (s : App F) :
  getLayer s l = Some m ->
  let s' := restoreAllLayers s in
  renderer_isWebGPURenderer s' = renderer_isWebGPURenderer s
  /\ originalGeometries s' = originalGeometries s
  /\ clippingPlanes s' !! THREE.uuid m = None
  /\ exists m',
       getLayer s' l = Some m'
       /\ THREE.uuid m' = THREE.uuid m
       /\ THREE.visible m' = THREE.visible m
       /\ if renderer_isWebGPURenderer s
          then THREE.geometry m' = pristineOf s m
               /\ THREE.material m' = THREE.material m
          else THREE.geometry m' = THREE.geometry m
               /\ THREE.clippingPlanes (THREE.material m')
                  = (fun _ => []) <$> THREE.clippingPlanes (THREE.material m).
Proof.
  intros Hm. cbv zeta. unfold restoreAllLayers.
  split; [|split].
  - rewrite !restore_renderer. reflexivity.
  - rewrite !restore_originalGeometries. reflexivity.
  - destruct l.
    + destruct (restore_self Crust m s Hm) as [Hr [Hnone Hmesh]].
      destruct (restore_other Crust Mantle (restoreOriginalGeometry "crust" s))
        as [_ [Hg2 Hk2]]; [discriminate|].
      destruct (restore_other Crust Core (restoreOriginalGeometry "mantle"
                  (restoreOriginalGeometry "crust" s))) as [_ [Hg3 Hk3]]; [discriminate|].
      split; [apply Hk3, Hk2, Hnone|].
      cbn [layerName] in *.
      rewrite Hg3, Hg2. exact Hmesh.
    + destruct (restore_other Mantle Crust s) as [Hr1 [Hg1 _]]; [discriminate|].
      cbn [layerName] in *. rewrite Hm in Hg1.
      destruct (restore_self Mantle m _ Hg1) as [_ [Hnone Hmesh]].
      destruct (restore_other Mantle Core (restoreOriginalGeometry "mantle"
                  (restoreOriginalGeometry "crust" s))) as [_ [Hg3 Hk3]]; [discriminate|].
      cbn [layerName] in *.
      split; [apply Hk3, Hnone|]. rewrite Hg3.
      rewrite Hr1 in Hmesh. unfold pristineOf in *.
      rewrite restore_originalGeometries in Hmesh. exact Hmesh.
    + destruct (restore_other Core Crust s) as [Hr1 [Hg1 _]]; [discriminate|].
      destruct (restore_other Core Mantle (restoreOriginalGeometry "crust" s))
        as [Hr2 [Hg2 _]]; [discriminate|].
      cbn [layerName] in *. rewrite Hg1, Hm in Hg2.
      destruct (restore_self Core m _ Hg2) as [_ [Hnone Hmesh]].
      cbn [layerName] in *.
      split; [exact Hnone|].
      rewrite Hr2, Hr1 in Hmesh. unfold pristineOf in *.
      rewrite !restore_originalGeometries in Hmesh. exact Hmesh.
Qed.

(** X9.  The Restore all button, and switching real-time clipping off, leave
    every layer restored, whatever had been done to it: no plane is
    stored for it any more and no snapshot has been dropped; on a WebGPU
    renderer the layer holds its pristine geometry, and on another
    renderer its geometry was never touched and its material has no clip
    plane left. *)
Theorem restoreAllLayers_restores_every_layer
    (s s' : App F) (l : Layer) (m : THREE.Mesh F) :
  getLayer s l = Some m ->
  s' = onRestoreAll s \/ s' = onRealtimeClippingToggle false s ->
  storedPlanes s' l = []
  /\ originalGeometries s' = originalGeometries s
  /\ layerVisible s' l = THREE.visible m
  /\ if renderer_isWebGPURenderer s
     then layerGeometry s' l = Some (pristineOf s m)
     else layerGeometry s' l = Some (THREE.geometry m)
          /\ materialPlanes s' l = [].
Proof.
  intros Hm Hs'.
  assert (Hsame : s' = restoreAllLayers s
                  \/ s' = restoreAllLayers (set_realtimeClipping false s)).
  { destruct Hs' as [->| ->]; [left|right]; reflexivity. }
  assert (Hall : renderer_isWebGPURenderer s' = renderer_isWebGPURenderer s
                 /\ originalGeometries s' = originalGeometries s
                 /\ clippingPlanes s' !! THREE.uuid m = None
                 /\ exists m',
                      getLayer s' l = Some m'
                      /\ THREE.uuid m' = THREE.uuid m
                      /\ THREE.visible m' = THREE.visible m
                      /\ if renderer_isWebGPURenderer s
                         then THREE.geometry m' = pristineOf s m
                              /\ THREE.material m' = THREE.material m
                         else THREE.geometry m' = THREE.geometry m
                              /\ THREE.clippingPlanes (THREE.material m')
                                 = (fun _ => []) <$> THREE.clippingPlanes (THREE.material m)).
  { destruct Hsame as [->| ->].
    - exact (restoreAllLayers_layer l m s Hm).
    - exact (restoreAllLayers_layer l m (set_realtimeClipping false s) Hm). }
  destruct Hall as [_ [Horig [Hnone [m' [Hm' [Hu [Hv Hgeo]]]]]]].
  split; [unfold storedPlanes; rewrite Hm', Hu, Hnone; reflexivity|].
  split; [exact Horig|].
  split; [unfold layerVisible; rewrite Hm'; exact Hv|].
  unfold layerGeometry, materialPlanes. rewrite Hm'.
  destruct (renderer_isWebGPURenderer s).
  - destruct Hgeo as [Hg _]. simpl. rewrite Hg. reflexivity.
  - destruct Hgeo as [Hg Hmat]. simpl. rewrite Hg, Hmat. split; [reflexivity|].
    destruct (THREE.clippingPlanes (THREE.material m)); reflexivity.
Qed.

End RestoreAll.

(** Witness of X9: the Restore all button on the demo scene after its crust
    has been clipped. *)
Lemma restoreAllLayers_restores_every_layer_witness :
  getLayer (clipSphereWithPolygon "crust" demoApp) Crust
  = Some (THREE.setGeometry demoCrust (clipGeometry "inside" demoPlane (octahedron 50)))
  /\ (onRestoreAll (clipSphereWithPolygon "crust" demoApp)
      = onRestoreAll (clipSphereWithPolygon "crust" demoApp)
      \/ onRestoreAll (clipSphereWithPolygon "crust" demoApp)
         = onRealtimeClippingToggle false (clipSphereWithPolygon "crust" demoApp))
  /\ storedPlanes (onRestoreAll (clipSphereWithPolygon "crust" demoApp)) Crust = []
  /\ originalGeometries (onRestoreAll (clipSphereWithPolygon "crust" demoApp))
     = originalGeometries (clipSphereWithPolygon "crust" demoApp)
  /\ layerVisible (onRestoreAll (clipSphereWithPolygon "crust" demoApp)) Crust = true
  /\ layerGeometry (onRestoreAll (clipSphereWithPolygon "crust" demoApp)) Crust
     = Some (pristineOf (clipSphereWithPolygon "crust" demoApp)
               (THREE.setGeometry demoCrust (clipGeometry "inside" demoPlane (octahedron 50)))).
Proof.
  assert (Hm : getLayer (clipSphereWithPolygon "crust" demoApp) Crust
               = Some (THREE.setGeometry demoCrust
                         (clipGeometry "inside" demoPlane (octahedron 50))))
    by (vm_compute; reflexivity).
  split; [exact Hm|]. split; [left; reflexivity|].
  apply (restoreAllLayers_restores_every_layer
           (clipSphereWithPolygon "crust" demoApp)
           (onRestoreAll (clipSphereWithPolygon "crust" demoApp)) Crust _ Hm).
  left. reflexivity.
Defined.

(* ------------------------------------------------------------------ *)
(** ** Clipping on a renderer without the WebGPU flag *)
(* ------------------------------------------------------------------ *)

Section MaterialOnly.
Context {F : Type} `{Number F}.

Lemma sameGeometries_refl (s : App F) : sameGeometries s s.
Proof. repeat split. Qed.

Lemma sameGeometries_trans (s1 s2 s3 : App F) :
  sameGeometries s1 s2 -> sameGeometries s2 s3 -> sameGeometries s1 s3.
Proof.
  intros [Hr1 [Ho1 Hg1]] [Hr2 [Ho2 Hg2]]. split; [congruence|].
  split; [congruence|]. intros l. rewrite Hg2. apply Hg1.
Qed.

(** Putting back the mesh of a layer with another material or another
    visibility. *)
Lemma sameGeometries_setLayer (l : Layer) (m m' : THREE.Mesh F) (s : App F) :
  getLayer s l = Some m ->
  THREE.geometry m' = THREE.geometry m ->
  sameGeometries s (setLayer l m' s).
Proof.
  intros Hm Hg. split; [destruct l; reflexivity|]. split; [destruct l; reflexivity|].
  intros l'. unfold layerGeometry. destruct (decide (l = l')) as [<-|Hne].
  - rewrite getLayer_setLayer, Hm. simpl. rewrite Hg. reflexivity.
  - rewrite getLayer_setLayer_ne by exact Hne. reflexivity.
Qed.

Lemma sameGeometries_set_clippingPlanes
    (cps : gmap string (list (StoredPlane F))) (s : App F) :
  sameGeometries s (set_clippingPlanes cps s).
Proof. repeat split. Qed.

Lemma sameGeometries_clipSphereWithPolygon (targetLayer : string) (s : App F) :
  renderer_isWebGPURenderer s = false ->
  sameGeometries s (clipSphereWithPolygon targetLayer s).
Proof.
  intros Hgl. unfold clipSphereWithPolygon.
  destruct (clippingPolygon s) as [polygon|]; [|apply sameGeometries_refl].
  destruct (List.length polygon <? 3)%nat; [apply sameGeometries_refl|].
  destruct (layerOfName targetLayer) as [l|]; [|apply sameGeometries_refl].
  destruct (getLayer s l) as [m|] eqn:Hm; [|apply sameGeometries_refl].
  destruct (calculateClippingPlane s) as [clippingPlane|]; [|apply sameGeometries_refl].
  unfold applyMaterialClipping. rewrite Hgl. cbv zeta.
  destruct (clippingPlanes s !! THREE.uuid m).
  - apply (sameGeometries_setLayer l m); [exact Hm|reflexivity].
  - eapply sameGeometries_trans; [apply sameGeometries_set_clippingPlanes|].
    apply (sameGeometries_setLayer l m); [exact Hm|reflexivity].
Qed.

Lemma sameGeometries_updateMaterialClipping (targetLayer : string) (s : App F) :
  sameGeometries s (updateMaterialClipping targetLayer s).
Proof.
  unfold updateMaterialClipping.
  destruct (clippingPolygon s) as [polygon|]; [|apply sameGeometries_refl].
  destruct (List.length polygon <? 3)%nat; [apply sameGeometries_refl|].
  destruct (layerOfName targetLayer) as [l|]; [|apply sameGeometries_refl].
  destruct (getLayer s l) as [m|] eqn:Hm; [|apply sameGeometries_refl].
  destruct (calculateClippingPlane s) as [clippingPlane|]; [|apply sameGeometries_refl].
  apply (sameGeometries_setLayer l m); [exact Hm|reflexivity].
Qed.

Lemma sameGeometries_restoreOriginalGeometry (targetLayer : string) (s : App F) :
  renderer_isWebGPURenderer s = false ->
  sameGeometries s (restoreOriginalGeometry targetLayer s).
Proof.
  intros Hgl. unfold restoreOriginalGeometry.
  destruct (layerOfName targetLayer) as [l|]; [|apply sameGeometries_refl].
  destruct (getLayer s l) as [m|] eqn:Hm; [|apply sameGeometries_refl].
  rewrite Hgl.
  assert (Hstep : sameGeometries s
            match THREE.clippingPlanes (THREE.material m) with
            | Some _ =>
                setLayer l
                  (THREE.setMaterial m
                     (THREE.mkMaterial (Some [])
                        (THREE.clipIntersection (THREE.material m)))) s
            | None => s
            end).
  { destruct (THREE.clippingPlanes (THREE.material m)).
    - apply (sameGeometries_setLayer l m); [exact Hm|reflexivity].
    - apply sameGeometries_refl. }
  match goal with
  | |- context [match clippingPlanes ?s1 !! ?id with Some _ => _ | None => _ end] =>
      destruct (clippingPlanes s1 !! id)
  end.
  - eapply sameGeometries_trans; [exact Hstep|apply sameGeometries_set_clippingPlanes].
  - exact Hstep.
Qed.

Lemma sameGeometries_when (cond : bool) (method : App F -> App F) (s : App F) :
  sameGeometries s (method s) -> sameGeometries s (when cond method s).
Proof. intros Hm. destruct cond; [exact Hm|apply sameGeometries_refl]. Qed.

(** Three steps in a row on a renderer that stays without the flag. *)
Lemma sameGeometries_webgl_fanout (s : App F) (f1 f2 f3 : App F -> App F) :
  renderer_isWebGPURenderer s = false ->
  (forall s0, renderer_isWebGPURenderer s0 = false -> sameGeometries s0 (f1 s0)) ->
  (forall s0, renderer_isWebGPURenderer s0 = false -> sameGeometries s0 (f2 s0)) ->
  (forall s0, renderer_isWebGPURenderer s0 = false -> sameGeometries s0 (f3 s0)) ->
  sameGeometries s (f3 (f2 (f1 s))).
Proof.
  intros Hgl H1 H2 H3.
  pose proof (H1 s Hgl) as Ha.
  assert (Hr1 : renderer_isWebGPURenderer (f1 s) = false)
    by (destruct Ha as [-> _]; exact Hgl).
  pose proof (H2 _ Hr1) as Hb.
  assert (Hr2 : renderer_isWebGPURenderer (f2 (f1 s)) = false)
    by (destruct Hb as [-> _]; exact Hr1).
  pose proof (H3 _ Hr2) as Hc.
  eapply sameGeometries_trans; [exact Ha|].
  eapply sameGeometries_trans; [exact Hb|exact Hc].
Qed.

Lemma sameGeometries_setter (s s' : App F) :
  renderer_isWebGPURenderer s' = renderer_isWebGPURenderer s ->
  originalGeometries s' = originalGeometries s ->
  (forall l, getLayer s' l = getLayer s l) ->
  sameGeometries s s'.
Proof.
  intros Hr Ho Hl. split; [exact Hr|]. split; [exact Ho|].
  intros l. unfold layerGeometry. rewrite Hl. reflexivity.
Qed.

Lemma sameGeometries_selected (s : App F) (c1 c2 c3 : App F -> bool) :
  renderer_isWebGPURenderer s = false ->
  sameGeometries s
    (let s1 := when (c1 s) (clipSphereWithPolygon "crust") s in
     let s2 := when (c2 s1) (clipSphereWithPolygon "mantle") s1 in
     when (c3 s2) (clipSphereWithPolygon "core") s2).
Proof.
  intros Hgl. cbv zeta.
  apply (sameGeometries_webgl_fanout s
           (fun s0 => when (c1 s) (clipSphereWithPolygon "crust") s0)
           (fun s0 => when (c2 (when (c1 s) (clipSphereWithPolygon "crust") s))
                        (clipSphereWithPolygon "mantle") s0)
           (fun s0 => when (c3 (when (c2 (when (c1 s) (clipSphereWithPolygon "crust") s))
                                  (clipSphereWithPolygon "mantle")
                                  (when (c1 s) (clipSphereWithPolygon "crust") s)))
                        (clipSphereWithPolygon "core") s0));
    [exact Hgl|..];
    intros s0 H0; apply sameGeometries_when, sameGeometries_clipSphereWithPolygon, H0.
Qed.

Lemma sameGeometries_updated (s : App F) (c1 c2 c3 : App F -> bool) :
  sameGeometries s
    (let s1 := when (c1 s) (updateMaterialClipping "crust") s in
     let s2 := when (c2 s1) (updateMaterialClipping "mantle") s1 in
     when (c3 s2) (updateMaterialClipping "core") s2).
Proof.
  cbv zeta.
  eapply sameGeometries_trans;
    [|apply sameGeometries_when, sameGeometries_updateMaterialClipping].
  eapply sameGeometries_trans;
    [|apply sameGeometries_when, sameGeometries_updateMaterialClipping].
  apply sameGeometries_when, sameGeometries_updateMaterialClipping.
Qed.

Lemma sameGeometries_restoreAllLayers (s : App F) :
  renderer_isWebGPURenderer s = false ->
  sameGeometries s (restoreAllLayers s).
Proof.
  intros Hgl. unfold restoreAllLayers.
  apply (sameGeometries_webgl_fanout s (restoreOriginalGeometry "crust")
           (restoreOriginalGeometry "mantle") (restoreOriginalGeometry "core"));
    [exact Hgl|..]; intros s0 H0; apply sameGeometries_restoreOriginalGeometry, H0.
Qed.

Lemma sameGeometries_handle (ev : Event F) (s : App F) :
  renderer_isWebGPURenderer s = false ->
  sculpts ev = false ->
  sameGeometries s (handle ev s).
Proof.
  intros Hgl Hev. destruct ev; try discriminate Hev; cbn [handle].
  - apply sameGeometries_clipSphereWithPolygon, Hgl.
  - apply sameGeometries_restoreOriginalGeometry, Hgl.
  - unfold onLayerToggle. destruct (getLayer s l) as [m|] eqn:Hm; cbn [default].
    + apply (sameGeometries_setLayer l m); [exact Hm|reflexivity].
    + apply sameGeometries_refl.
  - unfold onRealtimeClippingToggle. cbn [realtimeClipping set_realtimeClipping].
    destruct checked.
    + eapply sameGeometries_trans;
        [|apply (sameGeometries_selected _
                   (fun s0 => clipCrust (checkAllLayersForClipping
                                           (set_realtimeClipping true s))
                              && layerVisible s0 Crust)
                   (fun s0 => clipMantle (checkAllLayersForClipping
                                            (set_realtimeClipping true s))
                              && layerVisible s0 Mantle)
                   (fun s0 => clipCore (checkAllLayersForClipping
                                          (set_realtimeClipping true s))
                              && layerVisible s0 Core)); exact Hgl].
      apply sameGeometries_setter; reflexivity || (intros l; destruct l; reflexivity).
    + eapply sameGeometries_trans;
        [|apply sameGeometries_restoreAllLayers; exact Hgl].
      apply sameGeometries_setter; reflexivity || (intros l0; destruct l0; reflexivity).
  - unfold onClipCheckboxChange, handleLayerSelectionChange.
    eapply sameGeometries_trans;
      [apply (sameGeometries_setter s (set_clipChecked l checked s));
       reflexivity || (intros l0; destruct l0; reflexivity)|].
    destruct (negb (realtimeClipping (set_clipChecked l checked s)));
      [apply sameGeometries_refl|].
    destruct (clipChecked (set_clipChecked l checked s) l).
    + apply sameGeometries_clipSphereWithPolygon. exact Hgl.
    + apply sameGeometries_restoreOriginalGeometry. exact Hgl.
  - apply sameGeometries_restoreAllLayers, Hgl.
  - unfold onClippingDirectionChange, reapplyClippingToAllLayers.
    set (s0 := set_clippingDirection value s).
    assert (H0 : sameGeometries s s0).
    { apply sameGeometries_setter; reflexivity || (intros l0; destruct l0; reflexivity). }
    eapply sameGeometries_trans; [exact H0|].
    assert (Hr : sameGeometries s0 (restoreAllLayers s0))
      by (apply sameGeometries_restoreAllLayers; exact Hgl).
    eapply sameGeometries_trans; [exact Hr|].
    apply (sameGeometries_selected _ (fun s1 => layerVisible s1 Crust)
             (fun s1 => layerVisible s1 Mantle) (fun s1 => layerVisible s1 Core)).
    destruct Hr as [-> _]. exact Hgl.
  - set (s0 := set_clippingPolygon (Some working) s).
    eapply sameGeometries_trans;
      [apply (sameGeometries_setter s s0);
       reflexivity || (intros l0; destruct l0; reflexivity)|].
    unfold afterPolygonMove, applyRealtimeClipping, updateClippingOnPolygonMove.
    change (renderer_isWebGPURenderer s0) with (renderer_isWebGPURenderer s).
    rewrite Hgl.
    destruct (realtimeClipping s0); cbn [negb].
    + apply (sameGeometries_updated s0 (fun s1 => layerVisible s1 Crust)
               (fun s1 => layerVisible s1 Mantle) (fun s1 => layerVisible s1 Core)).
    + apply sameGeometries_refl.
Qed.

(** X10.  On a renderer without the WebGPU flag the layer and clipping
    controls work on materials only: in a session without a brush stroke
    or another rewrite of the terrain, every layer keeps the geometry it
    had and no snapshot of a geometry is ever taken. *)
Theorem material_clipping_never_touches_geometry
    (events : list (Event F)) (s : App F) :
  renderer_isWebGPURenderer s = false ->
  forallb (fun ev => negb (sculpts ev)) events = true ->
  originalGeometries (run events s) = originalGeometries s
  /\ forall l, layerGeometry (run events s) l = layerGeometry s l.
Proof.
  intros Hgl Hevents.
  enough (Hsame : sameGeometries s (run events s)) by (destruct Hsame as [_ Hs]; exact Hs).
  revert s Hgl. induction events as [|ev rest IH]; intros s Hgl; cbn [run].
  - apply sameGeometries_refl.
  - cbn [forallb] in Hevents. apply andb_true_iff in Hevents as [Hev Hrest].
    apply negb_true_iff in Hev.
    pose proof (sameGeometries_handle ev s Hgl Hev) as Hstep.
    eapply sameGeometries_trans; [exact Hstep|].
    apply IH; [exact Hrest|]. destruct Hstep as [-> _]. exact Hgl.
Qed.

End MaterialOnly.

(** Witness of X10: a session of clipping controls on the demo scene without
    the flag. *)
Lemma material_clipping_never_touches_geometry_witness :
  renderer_isWebGPURenderer demoAppWebGL = false
  /\ forallb (fun ev => negb (sculpts ev))
       [ClipLayer "crust"; RealtimeToggle true; DirectionChange "outside";
        PolygonMoved demoPolygon; ClipCheckbox Mantle false; RestoreAllClick] = true
  /\ originalGeometries
       (run [ClipLayer "crust"; RealtimeToggle true; DirectionChange "outside";
             PolygonMoved demoPolygon; ClipCheckbox Mantle false; RestoreAllClick]
          demoAppWebGL)
     = originalGeometries demoAppWebGL
  /\ forall l,
       layerGeometry
         (run [ClipLayer "crust"; RealtimeToggle true; DirectionChange "outside";
               PolygonMoved demoPolygon; ClipCheckbox Mantle false; RestoreAllClick]
            demoAppWebGL) l
       = layerGeometry demoAppWebGL l.
Proof.
  split; [reflexivity|]. split; [reflexivity|].
  apply (material_clipping_never_touches_geometry
           [ClipLayer "crust"; RealtimeToggle true; DirectionChange "outside";
            PolygonMoved demoPolygon; ClipCheckbox Mantle false; RestoreAllClick]
           demoAppWebGL); reflexivity.
Defined.

(* ------------------------------------------------------------------ *)
(** ** Moving a vertex along its own direction, over the reals *)
(* ------------------------------------------------------------------ *)

Section Radial.
Local Open Scope R_scope.

Lemma Rabs_square (a : R) : Rabs a * Rabs a = a * a.
Proof. rewrite <- Rabs_mult. apply Rabs_pos_eq. nra. Qed.

Lemma sum_of_squares_nonneg (a b c : R) : 0 <= a * a + b * b + c * c.
Proof. nra. Qed.

Lemma length_zero_iff (v : THREE.Vector3 R) : THREE.length v = 0 <-> v = rvec 0 0 0.
Proof.
  destruct v as [x y z]. unfold THREE.length. simpl. split.
  - intros Hz. apply sqrt_eq_0 in Hz; [|nra].
    destruct (sum_of_squares_zero x y z Hz) as [-> [-> ->]]. reflexivity.
  - intros [= -> -> ->]. replace (0 * 0 + 0 * 0 + 0 * 0) with 0 by ring. apply sqrt_0.
Qed.

Lemma length_nonneg (v : THREE.Vector3 R) : 0 <= THREE.length v.
Proof. apply sqrt_pos. Qed.

Lemma normalize_zero : THREE.normalize (rvec 0 0 0) = rvec 0 0 0.
Proof.
  unfold THREE.normalize, THREE.divideScalar, THREE.multiplyScalar, rvec. simpl.
  f_equal; ring.
Qed.

(** [vertex.add(normal.multiplyScalar(c))] with [normal] the normalized
    vertex: the zero vertex stays, any other vertex moves by [|c|] along
    its own ray, to the distance [|length + c|] from the centre. *)
Lemma radial_move (v : THREE.Vector3 R) (c : R) :
  let new := THREE.add v (THREE.multiplyScalar (THREE.normalize v) c) in
  (v = rvec 0 0 0 -> new = v)
  /\ (v <> rvec 0 0 0 ->
      THREE.length new = Rabs (THREE.length v + c)
      /\ THREE.distanceTo new v = Rabs c).
Proof.
  cbv zeta. split.
  - intros ->. rewrite normalize_zero. unfold THREE.add, THREE.multiplyScalar, rvec.
    simpl. f_equal; ring.
  - intros Hv. destruct (normalize_scales v) as [k [Hn Hk]]. rewrite Hn.
    destruct (Hk Hv) as [-> HL]. clear Hn Hk.
    destruct v as [x y z]. unfold THREE.length in *. simpl in *.
    unfold THREE.distanceTo, THREE.add, THREE.multiplyScalar, THREE.length. simpl.
    set (q := x * x + y * y + z * z) in *.
    assert (Hq : 0 <= q) by (unfold q; nra).
    pose proof (sqrt_sqrt q Hq) as Hqq.
    set (L := R_sqrt.sqrt q) in *.
    split.
    + apply sqrt_lem_1; [apply sum_of_squares_nonneg|apply Rabs_pos|].
      rewrite Rabs_square.
      replace ((x + x * / L * c) * (x + x * / L * c)
               + (y + y * / L * c) * (y + y * / L * c)
               + (z + z * / L * c) * (z + z * / L * c))
        with (q * ((1 + / L * c) * (1 + / L * c))) by (unfold q; ring).
      rewrite <- Hqq. field. lra.
    + apply sqrt_lem_1; [apply sum_of_squares_nonneg|apply Rabs_pos|].
      rewrite Rabs_square.
      replace ((x + x * / L * c - x) * (x + x * / L * c - x)
               + (y + y * / L * c - y) * (y + y * / L * c - y)
               + (z + z * / L * c - z) * (z + z * / L * c - z))
        with (q * (/ L * c * (/ L * c))) by (unfold q; ring).
      rewrite <- Hqq. field. lra.
Qed.

Lemma vector_zero_dec (v : THREE.Vector3 R) : v = rvec 0 0 0 \/ v <> rvec 0 0 0.
Proof.
  destruct v as [x y z].
  destruct (Req_dec_T x 0) as [->|Hx]; [|right; intros [= ? ? ?]; contradiction].
  destruct (Req_dec_T y 0) as [->|Hy]; [|right; intros [= ? ?]; contradiction].
  destruct (Req_dec_T z 0) as [->|Hz]; [|right; intros [= ?]; contradiction].
  left. reflexivity.
Qed.

Lemma distanceTo_self (v : THREE.Vector3 R) : THREE.distanceTo v v = 0.
Proof.
  destruct v as [x y z]. unfold THREE.distanceTo. simpl.
  replace ((x - x) * (x - x) + (y - y) * (y - y) + (z - z) * (z - z)) with 0 by ring.
  apply sqrt_0.
Qed.

End Radial.

(* ------------------------------------------------------------------ *)
(** ** The brush, beyond extrusion *)
(* ------------------------------------------------------------------ *)

Section RealBrushBounds.
Local Open Scope R_scope.

Lemma influenceOf_le_1 (t : R) : 0 <= t < 1 -> influenceOf t <= 1.
Proof.
  intros [H0 H1]. unfold influenceOf, lit. simpl.
  assert (0 <= t * t * (3 - 2 * t)) by (apply Rmult_le_pos; nra).
  nra.
Qed.

Lemma normalizedDistance_range (distance brushSize : R) :
  0 <= distance -> distance < brushSize -> 0 <= distance / brushSize < 1.
Proof.
  intros Hd Hin. assert (Hb : 0 < brushSize) by lra. split.
  - apply Rmult_le_pos; [exact Hd|]. left. apply Rinv_0_lt_compat. exact Hb.
  - apply (Rmult_lt_reg_r brushSize); [exact Hb|].
    unfold Rdiv. rewrite Rmult_assoc, Rinv_l by lra. lra.
Qed.

(** Where the loop would put a vertex, in any mode: not farther from
    where it was than the size of the change. *)
Lemma displaced_distance (mode : string) (intensity influence : R)
    (old : THREE.Vector3 R) :
  THREE.distanceTo (displaced mode intensity influence old) old
  <= Rabs (intensity * influence).
Proof.
  unfold displaced. cbv zeta.
  destruct (vector_zero_dec old) as [->|Hold].
  - destruct (String.eqb mode "extrude"); [|destruct (String.eqb mode "compress")].
    + destruct (radial_move (rvec 0 0 0) (intensity * influence)) as [Hz _].
      cbv zeta in Hz. change (@fmul R R_Number) with Rmult. rewrite (Hz eq_refl).
      rewrite distanceTo_self. apply Rabs_pos.
    + destruct (radial_move (rvec 0 0 0) (- (intensity * influence))) as [Hz _].
      cbv zeta in Hz. change (@fmul R R_Number) with Rmult.
      change (@fneg R R_Number) with Ropp. rewrite (Hz eq_refl).
      rewrite distanceTo_self. apply Rabs_pos.
    + rewrite distanceTo_self. apply Rabs_pos.
  - destruct (String.eqb mode "extrude"); [|destruct (String.eqb mode "compress")].
    + destruct (radial_move old (intensity * influence)) as [_ Hnz].
      destruct (Hnz Hold) as [_ Hd]. change (@fmul R R_Number) with Rmult.
      rewrite Hd. lra.
    + destruct (radial_move old (- (intensity * influence))) as [_ Hnz].
      destruct (Hnz Hold) as [_ Hd]. change (@fmul R R_Number) with Rmult.
      change (@fneg R R_Number) with Ropp. rewrite Hd, Rabs_Ropp. lra.
    + rewrite distanceTo_self. apply Rabs_pos.
Qed.

Lemma editVertex_bounded (brushSize intensity : R) (mode : string)
    (localPoint old : THREE.Vector3 R) :
  0 <= intensity ->
  let new := editVertex brushSize mode intensity localPoint old in
  THREE.distanceTo new old <= intensity
  /\ (brushSize <= THREE.distanceTo old localPoint -> new = old).
Proof.
  intros Hi. unfold editVertex. cbv zeta.
  change (@fltb R R_Number) with Rltb. change (@fdiv R R_Number) with Rdiv.
  destruct (Rltb (THREE.distanceTo old localPoint) brushSize) eqn:Hin.
  - apply Rltb_true in Hin. split; [|lra].
    destruct (movedEnough _ old); [|rewrite distanceTo_self; exact Hi].
    assert (Hd : 0 <= THREE.distanceTo old localPoint) by apply sqrt_pos.
    pose proof (normalizedDistance_range _ _ Hd Hin) as Ht.
    pose proof (influenceOf_pos _ Ht) as Hf0.
    pose proof (influenceOf_le_1 _ Ht) as Hf1.
    eapply Rle_trans; [apply displaced_distance|].
    rewrite Rabs_pos_eq by nra. nra.
  - split; [rewrite distanceTo_self; exact Hi|]. reflexivity.
Qed.

(** X11.  A stroke is bounded and local, in either mode: no vertex ends up
    farther from where it was than the strength of the brush, and a
    vertex at the radius of the brush or beyond does not move at all. *)
Theorem editTerrain_stroke_bounded
    (s : App R) (t : THREE.Mesh R) (hit : THREE.Vector3 R) :
  terrain s = Some t ->
  0 <= intensity s ->
  exists g',
    layerGeometry (editTerrain (Some hit) s) Crust = Some g'
    /\ THREE.index g' = THREE.index (THREE.geometry t)
    /\ forall (k : nat) (old : THREE.Vector3 R),
         THREE.position (THREE.geometry t) !! k = Some old ->
         exists new,
           THREE.position g' !! k = Some new
           /\ THREE.distanceTo new old <= intensity s
           /\ (brushSize s <= THREE.distanceTo old hit -> new = old).
Proof.
  intros Ht Hi. unfold editTerrain. rewrite Ht.
  eexists. split; [unfold layerGeometry; rewrite getLayer_setLayer; reflexivity|].
  simpl. split; [reflexivity|].
  intros k old Hk. eexists. split.
  - rewrite list_lookup_fmap, Hk. reflexivity.
  - apply editVertex_bounded. exact Hi.
Qed.

(** Witness of X11: a stroke at the pole of the three-vertex crust. *)
Lemma editTerrain_stroke_bounded_witness :
  terrain (appR 0) = Some crustR
  /\ 0 <= intensity (appR 0)
  /\ exists g',
       layerGeometry (editTerrain (Some poleR) (appR 0)) Crust = Some g'
       /\ THREE.index g' = THREE.index (THREE.geometry crustR)
       /\ forall (k : nat) (old : THREE.Vector3 R),
            THREE.position (THREE.geometry crustR) !! k = Some old ->
            exists new,
              THREE.position g' !! k = Some new
              /\ THREE.distanceTo new old <= intensity (appR 0)
              /\ (brushSize (appR 0) <= THREE.distanceTo old poleR -> new = old).
Proof.
  split; [reflexivity|]. split; [simpl; lra|].
  apply (editTerrain_stroke_bounded (appR 0) crustR poleR); [reflexivity|simpl; lra].
Defined.

(** One iteration of the loop in compress mode. *)
Lemma editVertex_compress (brushSize intensity : R) (localPoint old : THREE.Vector3 R) :
  0 < intensity ->
  let new := editVertex brushSize "compress" intensity localPoint old in
  new = old
  \/ (THREE.distanceTo old localPoint < brushSize
      /\ movedEnough new old = true
      /\ THREE.length new
         = Rabs (THREE.length old
                 - intensity * influenceOf (THREE.distanceTo old localPoint / brushSize))
      /\ (intensity <= THREE.length old -> THREE.length new < THREE.length old)).
Proof.
  intros Hi. unfold editVertex. cbv zeta.
  change (@fltb R R_Number) with Rltb. change (@fdiv R R_Number) with Rdiv.
  destruct (Rltb (THREE.distanceTo old localPoint) brushSize) eqn:Hin; [|left; reflexivity].
  apply Rltb_true in Hin.
  destruct (movedEnough _ old) eqn:Hmoved; [|left; reflexivity].
  assert (Hd : 0 <= THREE.distanceTo old localPoint) by apply sqrt_pos.
  pose proof (normalizedDistance_range _ _ Hd Hin) as Ht.
  pose proof (influenceOf_pos _ Ht) as Hf0.
  pose proof (influenceOf_le_1 _ Ht) as Hf1.
  set (f := influenceOf (THREE.distanceTo old localPoint / brushSize)) in *.
  assert (Hshape : displaced "compress" intensity f old
                   = THREE.add old
                       (THREE.multiplyScalar (THREE.normalize old) (- (intensity * f))))
    by reflexivity.
  destruct (radial_move old (- (intensity * f))) as [Hzero Hnz]. cbv zeta in Hzero, Hnz.
  destruct (vector_zero_dec old) as [Hz|Hold].
  - left. rewrite Hshape. apply Hzero. exact Hz.
  - right. split; [exact Hin|]. split; [exact Hmoved|].
    destruct (Hnz Hold) as [Hlen _]. rewrite Hshape, Hlen.
    replace (THREE.length old + - (intensity * f)) with (THREE.length old - intensity * f)
      by ring.
    split; [reflexivity|].
    intros Hle. assert (0 < intensity * f) by nra.
    assert (intensity * f <= intensity) by nra.
    rewrite Rabs_pos_eq by lra. lra.
Qed.

(** X12.  The compress mode of the brush: a stroke leaves each vertex exactly
    where it was, or the vertex was within the radius, some coordinate
    has moved by more than 0.001, and its distance from the centre is
    now the old one less strength times falloff, in absolute value.  A
    vertex at least as far from the centre as the strength ends up
    strictly closer; a vertex nearer than that can come out on the other
    side of the centre. *)
Theorem editTerrain_compress_moves_vertices_inward
    (s : App R) (t : THREE.Mesh R) (hit : THREE.Vector3 R) :
  terrain s = Some t ->
  mode s = "compress" ->
  0 < intensity s ->
  exists g',
    layerGeometry (editTerrain (Some hit) s) Crust = Some g'
    /\ forall (k : nat) (old : THREE.Vector3 R),
         THREE.position (THREE.geometry t) !! k = Some old ->
         exists new,
           THREE.position g' !! k = Some new
           /\ (new = old
               \/ (THREE.distanceTo old hit < brushSize s
                   /\ movedEnough new old = true
                   /\ THREE.length new
                      = Rabs (THREE.length old
                              - intensity s
                                * influenceOf (THREE.distanceTo old hit / brushSize s))
                   /\ (intensity s <= THREE.length old ->
                       THREE.length new < THREE.length old))).
Proof.
  intros Ht Hmode Hi. unfold editTerrain. rewrite Ht, Hmode.
  eexists. split; [unfold layerGeometry; rewrite getLayer_setLayer; reflexivity|].
  simpl. intros k old Hk. eexists. split.
  - rewrite list_lookup_fmap, Hk. reflexivity.
  - apply editVertex_compress. exact Hi.
Qed.

(** Witness of X12: the three-vertex crust with the brush in compress mode. *)
Lemma editTerrain_compress_moves_vertices_inward_witness :
  terrain (set_mode "compress" (appR 0)) = Some crustR
  /\ mode (set_mode "compress" (appR 0)) = "compress"
  /\ 0 < intensity (set_mode "compress" (appR 0))
  /\ exists g',
       layerGeometry (editTerrain (Some poleR) (set_mode "compress" (appR 0))) Crust
       = Some g'
       /\ forall (k : nat) (old : THREE.Vector3 R),
            THREE.position (THREE.geometry crustR) !! k = Some old ->
            exists new,
              THREE.position g' !! k = Some new
              /\ (new = old
                  \/ (THREE.distanceTo old poleR < brushSize (set_mode "compress" (appR 0))
                      /\ movedEnough new old = true
                      /\ THREE.length new
                         = Rabs (THREE.length old
                                 - intensity (set_mode "compress" (appR 0))
                                   * influenceOf
                                       (THREE.distanceTo old poleR
                                        / brushSize (set_mode "compress" (appR 0))))
                      /\ (intensity (set_mode "compress" (appR 0)) <= THREE.length old ->
                          THREE.length new < THREE.length old))).
Proof.
  split; [reflexivity|]. split; [reflexivity|]. split; [simpl; lra|].
  apply (editTerrain_compress_moves_vertices_inward
           (set_mode "compress" (appR 0)) crustR poleR);
    [reflexivity|reflexivity|simpl; lra].
Defined.

End RealBrushBounds.

(* ------------------------------------------------------------------ *)
(** ** Smoothing pulls every vertex towards the base sphere *)
(* ------------------------------------------------------------------ *)

Section SmoothingSteps.
Context {F : Type} `{Number F}.

(** [n] clicks on the Smooth button rewrite each vertex [n] times; the
    index is left alone. *)
Lemma repeatedly_smoothGlobe (n : nat) :
  forall (s : App F) (t : THREE.Mesh F),
    terrain s = Some t ->
    layerGeometry (repeatedly n smoothGlobe s) Crust
    = Some (THREE.mkBufferGeometry
              (map (Nat.iter n smoothedVertex) (THREE.position (THREE.geometry t)))
              (THREE.index (THREE.geometry t))).
Proof.
  induction n as [|n IH]; intros s t Ht.
  - cbn [repeatedly Nat.iter]. unfold layerGeometry. cbn [getLayer].
    unfold terrain in Ht. rewrite Ht. simpl. rewrite map_id.
    destruct (THREE.geometry t). reflexivity.
  - cbn [repeatedly].
    rewrite (IH _ (THREE.setGeometry t
                     (THREE.mkBufferGeometry
                        (map smoothedVertex (THREE.position (THREE.geometry t)))
                        (THREE.index (THREE.geometry t)))))
      by (unfold smoothGlobe; rewrite Ht; reflexivity).
    cbn [THREE.geometry THREE.setGeometry THREE.position THREE.index].
    rewrite map_map. do 2 f_equal. apply map_ext. intros v.
    symmetry. apply Nat.iter_succ_r.
Qed.

End SmoothingSteps.

Section RealSmoothing.
Local Open Scope R_scope.

(** The radius after [n] smoothings of a vertex at radius [r]. *)
Lemma smoothed_radius_pos (n : nat) (r : R) :
  0 < r -> 0 < 50 + (4 / 5) ^ n * (r - 50).
Proof.
  intros Hr.
  assert (Ha : 0 < (4 / 5) ^ n <= 1).
  { induction n as [|n IH]; simpl; [lra|]. nra. }
  nra.
Qed.

Lemma multiplyScalar_nonzero (v : THREE.Vector3 R) (k : R) :
  v <> rvec 0 0 0 -> k <> 0 -> THREE.multiplyScalar v k <> rvec 0 0 0.
Proof.
  intros Hv Hk Heq. apply Hv. destruct v as [x y z].
  unfold THREE.multiplyScalar, rvec in Heq. simpl in Heq.
  injection Heq as Hx Hy Hz.
  apply Rmult_integral in Hx, Hy, Hz.
  destruct Hx as [->|?]; [|contradiction].
  destruct Hy as [->|?]; [|contradiction].
  destruct Hz as [->|?]; [|contradiction]. reflexivity.
Qed.

Lemma length_multiplyScalar (v : THREE.Vector3 R) (k : R) :
  0 <= k -> THREE.length (THREE.multiplyScalar v k) = THREE.length v * k.
Proof.
  intros Hk. destruct v as [x y z]. unfold THREE.length, THREE.multiplyScalar. simpl.
  apply sqrt_lem_1; [apply sum_of_squares_nonneg| |].
  - apply Rmult_le_pos; [apply sqrt_pos|exact Hk].
  - set (q := x * x + y * y + z * z).
    assert (Hq : 0 <= q) by apply sum_of_squares_nonneg.
    replace (R_sqrt.sqrt q * k * (R_sqrt.sqrt q * k))
      with (R_sqrt.sqrt q * R_sqrt.sqrt q * (k * k)) by ring.
    rewrite (sqrt_sqrt q Hq). unfold q. ring.
Qed.

(** One smoothing of a vertex that is [old] scaled to the radius
    [radius]: it is [old] scaled to four fifths of [radius] plus ten. *)
Lemma smoothedVertex_scaled (old : THREE.Vector3 R) (radius : R) :
  old <> rvec 0 0 0 -> 0 < radius ->
  smoothedVertex (THREE.multiplyScalar old (radius / THREE.length old))
  = THREE.multiplyScalar old ((4 / 5 * radius + 10) / THREE.length old).
Proof.
  intros Hold Hr.
  assert (HL : 0 < THREE.length old).
  { pose proof (length_nonneg old). destruct (Req_dec_T (THREE.length old) 0) as [Hz|Hnz].
    - apply length_zero_iff in Hz. contradiction.
    - lra. }
  assert (Hk : 0 < radius / THREE.length old).
  { apply Rmult_lt_0_compat; [exact Hr|apply Rinv_0_lt_compat; exact HL]. }
  set (v := THREE.multiplyScalar old (radius / THREE.length old)).
  assert (Hv : v <> rvec 0 0 0) by (apply multiplyScalar_nonzero; [exact Hold|lra]).
  assert (Hlen : THREE.length v = radius).
  { unfold v. rewrite length_multiplyScalar by lra. field. lra. }
  unfold smoothedVertex. cbv zeta.
  destruct (normalize_scales v) as [k [-> Hkk]]. destruct (Hkk Hv) as [-> _].
  rewrite Hlen. unfold v, lit_0_8, lit_0_2, lit. simpl.
  destruct old as [x y z]. unfold THREE.multiplyScalar. simpl.
  unfold THREE.length in HL. simpl in HL.
  f_equal; field; split; lra.
Qed.

Lemma iter_smoothedVertex (n : nat) (old : THREE.Vector3 R) :
  old <> rvec 0 0 0 ->
  Nat.iter n smoothedVertex old
  = THREE.multiplyScalar old
      ((50 + (4 / 5) ^ n * (THREE.length old - 50)) / THREE.length old).
Proof.
  intros Hold.
  assert (HL : 0 < THREE.length old).
  { pose proof (length_nonneg old). destruct (Req_dec_T (THREE.length old) 0) as [Hz|Hnz].
    - apply length_zero_iff in Hz. contradiction.
    - lra. }
  induction n as [|n IH].
  - destruct old as [x y z]. unfold THREE.multiplyScalar, THREE.length in *.
    simpl in *. f_equal; field; lra.
  - rewrite Nat.iter_succ, IH.
    rewrite smoothedVertex_scaled; [|exact Hold|apply smoothed_radius_pos; exact HL].
    f_equal. cbn [pow]. set (L := THREE.length old) in *. field. lra.
Qed.

Lemma iter_smoothedVertex_zero (n : nat) :
  Nat.iter n smoothedVertex (rvec 0 0 0) = rvec 0 0 0.
Proof.
  induction n as [|n IH]; [reflexivity|]. rewrite Nat.iter_succ, IH.
  unfold smoothedVertex. cbv zeta. rewrite normalize_zero.
  unfold THREE.multiplyScalar, rvec. simpl. f_equal; ring.
Qed.

(** X13.  After [n] clicks on the Smooth button every vertex is still on its
    own ray from the centre, at the radius [50 + 0.8^n (r - 50)] when it
    started at radius [r]: each click takes away a fifth of what
    separates the vertex from the sphere of radius 50, a vertex on that
    sphere does not move, and a vertex at the centre stays there.  The
    index is never touched. *)
Theorem smoothGlobe_approaches_base_sphere
    (n : nat) (s : App R) (t : THREE.Mesh R) :
  terrain s = Some t ->
  exists g',
    layerGeometry (repeatedly n smoothGlobe s) Crust = Some g'
    /\ THREE.index g' = THREE.index (THREE.geometry t)
    /\ forall (k : nat) (old : THREE.Vector3 R),
         THREE.position (THREE.geometry t) !! k = Some old ->
         exists new,
           THREE.position g' !! k = Some new
           /\ (old = rvec 0 0 0 -> new = old)
           /\ (THREE.length old = 50 -> new = old)
           /\ (old <> rvec 0 0 0 ->
               let radius := 50 + (4 / 5) ^ n * (THREE.length old - 50) in
               new = THREE.multiplyScalar old (radius / THREE.length old)
               /\ THREE.length new = radius).
Proof.
  intros Ht. rewrite (repeatedly_smoothGlobe n s t Ht).
  eexists. split; [reflexivity|]. split; [reflexivity|].
  cbn [THREE.position]. intros k old Hk. eexists. split.
  - rewrite list_lookup_fmap, Hk. reflexivity.
  - assert (Hnz : old <> rvec 0 0 0 ->
                  let radius := 50 + (4 / 5) ^ n * (THREE.length old - 50) in
                  Nat.iter n smoothedVertex old
                  = THREE.multiplyScalar old (radius / THREE.length old)
                  /\ THREE.length (Nat.iter n smoothedVertex old) = radius).
    { intros Hold. cbv zeta.
      assert (HL : 0 < THREE.length old).
      { pose proof (length_nonneg old).
        destruct (Req_dec_T (THREE.length old) 0) as [Hz|Hz]; [|lra].
        apply length_zero_iff in Hz. contradiction. }
      rewrite (iter_smoothedVertex n old Hold). split; [reflexivity|].
      pose proof (smoothed_radius_pos n _ HL).
      rewrite length_multiplyScalar.
      - field. lra.
      - apply Rmult_le_pos; [lra|]. left. apply Rinv_0_lt_compat. exact HL. }
    split; [|split; [|exact Hnz]].
    + intros ->. apply iter_smoothedVertex_zero.
    + intros H50.
      assert (Hold : old <> rvec 0 0 0).
      { intros Hz. apply length_zero_iff in Hz. lra. }
      destruct (Hnz Hold) as [-> _]. rewrite H50.
      destruct old as [x y z]. unfold THREE.multiplyScalar. simpl.
      f_equal; field.
Qed.

(** Witness of X13: three clicks on the three-vertex crust. *)
Lemma smoothGlobe_approaches_base_sphere_witness :
  terrain (appR 0) = Some crustR
  /\ exists g',
       layerGeometry (repeatedly 3 smoothGlobe (appR 0)) Crust = Some g'
       /\ THREE.index g' = THREE.index (THREE.geometry crustR)
       /\ forall (k : nat) (old : THREE.Vector3 R),
            THREE.position (THREE.geometry crustR) !! k = Some old ->
            exists new,
              THREE.position g' !! k = Some new
              /\ (old = rvec 0 0 0 -> new = old)
              /\ (THREE.length old = 50 -> new = old)
              /\ (old <> rvec 0 0 0 ->
                  let radius := 50 + (4 / 5) ^ 3 * (THREE.length old - 50) in
                  new = THREE.multiplyScalar old (radius / THREE.length old)
                  /\ THREE.length new = radius).
Proof.
  split; [reflexivity|].
  apply (smoothGlobe_approaches_base_sphere 3 (appR 0) crustR). reflexivity.
Defined.

End RealSmoothing.

(* ------------------------------------------------------------------ *)
(** ** The polygon painter *)
(* ------------------------------------------------------------------ *)

Section Painter.
Context {F : Type} `{Number F} `{Trig F}.

Lemma crossesEdge_depth (x y : F) (pi pj pi' pj' : THREE.Vector3 F) :
  THREE.vx pi = THREE.vx pi' -> THREE.vy pi = THREE.vy pi' ->
  THREE.vx pj = THREE.vx pj' -> THREE.vy pj = THREE.vy pj' ->
  crossesEdge x y pi pj = crossesEdge x y pi' pj'.
Proof. unfold crossesEdge. intros -> -> -> ->. reflexivity. Qed.

Lemma isPointInPolygonLoop_depth (x y : F) (rest rest' : list (THREE.Vector3 F)) :
  Forall2 (fun p q => THREE.vx p = THREE.vx q /\ THREE.vy p = THREE.vy q) rest rest' ->
  forall previous previous' inside,
    THREE.vx previous = THREE.vx previous' ->
    THREE.vy previous = THREE.vy previous' ->
    isPointInPolygonLoop x y rest previous inside
    = isPointInPolygonLoop x y rest' previous' inside.
Proof.
  induction 1 as [|p q rest rest' [Hx Hy] _ IH]; intros previous previous' inside Hpx Hpy;
    [reflexivity|].
  cbn [isPointInPolygonLoop].
  rewrite (crossesEdge_depth x y p previous q previous' Hx Hy Hpx Hpy).
  apply IH; assumption.
Qed.

Lemma last_depth (polygon polygon' : list (THREE.Vector3 F)) :
  Forall2 (fun p q => THREE.vx p = THREE.vx q /\ THREE.vy p = THREE.vy q)
    polygon polygon' ->
  match last polygon, last polygon' with
  | Some p, Some q => THREE.vx p = THREE.vx q /\ THREE.vy p = THREE.vy q
  | None, None => True
  | _, _ => False
  end.
Proof.
  induction 1 as [|p q rest rest' Hpq Hrest IH]; [exact I|].
  destruct Hrest as [|p1 q1 rest1 rest1' Hpq1 Hrest1]; [exact Hpq|].
  exact IH.
Qed.

(** X14.  The inside test of the painter looks at [x] and [y] only: the depth
    of the vertex and the depths of the clicked points play no part.  A
    vertex on the far side of the globe, behind the drawn polygon, is
    painted like the one in front of it. *)
Theorem isPointInPolygon_ignores_depth
    (point point' : THREE.Vector3 F) (polygon polygon' : list (THREE.Vector3 F)) :
  THREE.vx point = THREE.vx point' ->
  THREE.vy point = THREE.vy point' ->
  Forall2 (fun p q => THREE.vx p = THREE.vx q /\ THREE.vy p = THREE.vy q)
    polygon polygon' ->
  isPointInPolygon point polygon = isPointInPolygon point' polygon'.
Proof.
  intros Hx Hy Hpoly. unfold isPointInPolygon.
  pose proof (last_depth polygon polygon' Hpoly) as Hlast.
  destruct (last polygon) as [pl|], (last polygon') as [pl'|]; try contradiction;
    [|reflexivity].
  destruct Hlast as [Hlx Hly]. rewrite <- Hx, <- Hy.
  apply isPointInPolygonLoop_depth; assumption.
Qed.

Lemma polygonMode_onEvent (ev : EditorEvent F) (e e' : Editor F) :
  onEvent ev e = Some e' -> polygonMode e' = polygonMode e.
Proof.
  destruct ev; cbn [onEvent]; try (intros [= <-]; reflexivity).
  - unfold onMouseMove. intros [= <-].
    destruct (isEditing e); [destruct (isDragging e)|]; reflexivity.
  - unfold onMouseDown, addPolygonPoint. intros [= <-].
    destruct (button =? 0)%Z; [|reflexivity].
    destruct (isDrawingPolygon e).
    + destruct (terrain (globe e)); [destruct hit|]; reflexivity.
    + destruct (isEditing e); reflexivity.
  - unfold onMouseUp. intros [= <-]. destruct (button =? 0)%Z; reflexivity.
  - unfold onContextMenu, applyPolygonEdit.
    destruct (isDrawingPolygon e && (3 <=? List.length (polygonPoints e))%nat);
      [|intros [= <-]; reflexivity].
    destruct (List.length (polygonPoints e) <? 3)%nat; [intros [= <-]; reflexivity|].
    destruct (terrain (globe e)); [intros [= <-]; reflexivity|discriminate].
  - destruct (updatePolygonPosition _); [intros [= <-]; reflexivity|discriminate].
  - destruct (updatePolygonPosition _); [intros [= <-]; reflexivity|discriminate].
  - destruct (updatePolygonTransform _); [intros [= <-]; reflexivity|discriminate].
  - destruct (updatePolygonTransform _); [intros [= <-]; reflexivity|discriminate].
  - unfold updatePolygonSize, recreatePolygon. intros [= <-]. cbn [globe set_polygonWidth].
    destruct (originalPolygonPoints (globe e)); cbn [globe set_globe];
      match goal with |- context [if ?c then _ else _] => destruct c end; reflexivity.
  - unfold updatePolygonSize, recreatePolygon. intros [= <-]. cbn [globe set_polygonHeight].
    destruct (originalPolygonPoints (globe e)); cbn [globe set_globe];
      match goal with |- context [if ?c then _ else _] => destruct c end; reflexivity.
  - destruct (onLayerToggle _ _ _); [intros [= <-]; reflexivity|discriminate].
  - unfold onLayerOpacity.
    destruct (getLayer (globe e) l); [intros [= <-]; reflexivity|discriminate].
Qed.

Lemma polygonMode_runEditor (events : list (EditorEvent F)) :
  forall e e', runEditor events e = Some e' -> polygonMode e' = polygonMode e.
Proof.
  induction events as [|ev rest IH]; intros e e'; cbn [runEditor].
  - intros [= <-]. reflexivity.
  - destruct (onEvent ev e) as [e1|] eqn:Hstep; [|discriminate].
    intros Hrest. rewrite (IH _ _ Hrest). exact (polygonMode_onEvent ev e e1 Hstep).
Qed.

(** X15.  The painter always extrudes.  Its mode is set when the editor is
    built and no listener writes it: the Extrude and Compress buttons
    set the mode of the brush only.  So whatever the session, when a
    right click applies the polygon, every vertex that the inside test
    accepts is pushed outward along its own direction by the full
    strength, without falloff and without threshold, and every other
    vertex stays; the list of points is empty afterwards. *)
Theorem painter_always_extrudes
    (events : list (EditorEvent F)) (e0 e : Editor F) (t : THREE.Mesh F) :
  polygonMode e0 = "extrude" ->
  runEditor events e0 = Some e ->
  isDrawingPolygon e = true ->
  3 <= List.length (polygonPoints e) ->
  terrain (globe e) = Some t ->
  exists e',
    onContextMenu e = Some e'
    /\ polygonPoints e' = []
    /\ layerGeometry (globe e') Crust
       = Some (THREE.mkBufferGeometry
                 (map (fun vertex =>
                         if isPointInPolygon vertex (polygonPoints e)
                         then THREE.add vertex
                                (THREE.multiplyScalar (THREE.normalize vertex)
                                   (intensity (globe e)))
                         else vertex)
                    (THREE.position (THREE.geometry t)))
                 (THREE.index (THREE.geometry t))).
Proof.
  intros Hmode Hrun Hdrawing Hpoints Ht.
  pose proof (polygonMode_runEditor events e0 e Hrun) as Hkept. rewrite Hmode in Hkept.
  unfold onContextMenu, applyPolygonEdit. rewrite Hdrawing.
  assert (H3 : (3 <=? List.length (polygonPoints e))%nat = true)
    by (apply Nat.leb_le; exact Hpoints).
  assert (H3' : (List.length (polygonPoints e) <? 3)%nat = false)
    by (apply Nat.ltb_ge; exact Hpoints).
  rewrite H3, H3', Ht. cbn [andb]. eexists. split; [reflexivity|].
  split; [reflexivity|].
  unfold layerGeometry. cbn [globe set_polygonPoints set_globe].
  rewrite getLayer_setLayer. cbn [fmap option_fmap option_map THREE.geometry THREE.setGeometry].
  do 2 f_equal. apply map_ext. intros vertex.
  unfold paintVertex, paintedVertex. rewrite Hkept. reflexivity.
Qed.

End Painter.

(** Witness of X14: the vertex at the top of the demo crust and a point right
    behind it, against the clicked triangle and the same triangle with
    other depths. *)
Lemma isPointInPolygon_ignores_depth_witness :
  THREE.vx (fvec 0 50 0) = THREE.vx (fvec 0 50 (-7))
  /\ THREE.vy (fvec 0 50 0) = THREE.vy (fvec 0 50 (-7))
  /\ Forall2 (fun p q => THREE.vx p = THREE.vx q /\ THREE.vy p = THREE.vy q)
       [fvec (-10) 40 30; fvec 10 40 30; fvec 0 60 (-30)]
       [fvec (-10) 40 0; fvec 10 40 1; fvec 0 60 2]
  /\ isPointInPolygon (fvec 0 50 0) [fvec (-10) 40 30; fvec 10 40 30; fvec 0 60 (-30)]
     = isPointInPolygon (fvec 0 50 (-7)) [fvec (-10) 40 0; fvec 10 40 1; fvec 0 60 2].
Proof.
  split; [reflexivity|]. split; [reflexivity|].
  split; [repeat constructor|].
  apply (isPointInPolygon_ignores_depth (fvec 0 50 0) (fvec 0 50 (-7))
           [fvec (-10) 40 30; fvec 10 40 30; fvec 0 60 (-30)]
           [fvec (-10) 40 0; fvec 10 40 1; fvec 0 60 2]);
    [reflexivity|reflexivity|repeat constructor].
Defined.

(** Witness of X15: the brush is put in compress mode, polygon mode is entered
    and three points are clicked. *)
Lemma painter_always_extrudes_witness :
  polygonMode newEditorR = "extrude"
  /\ runEditor
       [CompressClick; PolygonModeClick;
        MouseDown 0 (Some (rvec (-10) 40 30)); MouseDown 0 (Some (rvec 10 40 30));
        MouseDown 0 (Some (rvec 0 60 (-30)))] newEditorR
     = Some editorRCompress
  /\ isDrawingPolygon editorRCompress = true
  /\ 3 <= List.length (polygonPoints editorRCompress)
  /\ terrain (globe editorRCompress) = Some crustR
  /\ exists e',
       onContextMenu editorRCompress = Some e'
       /\ polygonPoints e' = []
       /\ layerGeometry (globe e') Crust
          = Some (THREE.mkBufferGeometry
                    (map (fun vertex =>
                            if isPointInPolygon vertex (polygonPoints editorRCompress)
                            then THREE.add vertex
                                   (THREE.multiplyScalar (THREE.normalize vertex)
                                      (intensity (globe editorRCompress)))
                            else vertex)
                       (THREE.position (THREE.geometry crustR)))
                    (THREE.index (THREE.geometry crustR))).
Proof.
  split; [reflexivity|]. split; [reflexivity|]. split; [reflexivity|].
  split; [simpl; lia|]. split; [reflexivity|].
  apply (painter_always_extrudes
           [CompressClick; PolygonModeClick;
            MouseDown 0 (Some (rvec (-10) 40 30)); MouseDown 0 (Some (rvec 10 40 30));
            MouseDown 0 (Some (rvec 0 60 (-30)))] newEditorR editorRCompress crustR);
    [reflexivity|reflexivity|reflexivity|simpl; lia|reflexivity].
Defined.

Section RealPainter.
Local Open Scope R_scope.

(** X16.  Over the reals: a vertex that the painter moves ends up exactly the
    strength away from where it was and that much farther from the
    centre; a vertex that the inside test rejects, and a vertex at the
    centre, stay where they are. *)
Theorem applyPolygonEdit_moves_by_strength (e : Editor R) (t : THREE.Mesh R) :
  terrain (globe e) = Some t ->
  (3 <= List.length (polygonPoints e))%nat ->
  polygonMode e = "extrude" ->
  0 <= intensity (globe e) ->
  exists e' g',
    applyPolygonEdit e = Some e'
    /\ layerGeometry (globe e') Crust = Some g'
    /\ forall (k : nat) (old : THREE.Vector3 R),
         THREE.position (THREE.geometry t) !! k = Some old ->
         exists new,
           THREE.position g' !! k = Some new
           /\ (isPointInPolygon old (polygonPoints e) = false -> new = old)
           /\ (old = rvec 0 0 0 -> new = old)
           /\ (isPointInPolygon old (polygonPoints e) = true -> old <> rvec 0 0 0 ->
               THREE.distanceTo new old = intensity (globe e)
               /\ THREE.length new = THREE.length old + intensity (globe e)).
Proof.
  intros Ht Hpoints Hmode Hi. unfold applyPolygonEdit.
  assert (H3 : (List.length (polygonPoints e) <? 3)%nat = false)
    by (apply Nat.ltb_ge; exact Hpoints).
  rewrite H3, Ht, Hmode. eexists. eexists. split; [reflexivity|].
  split.
  { unfold layerGeometry. cbn [globe set_polygonPoints set_globe].
    rewrite getLayer_setLayer. reflexivity. }
  cbn [THREE.geometry THREE.setGeometry THREE.position].
  intros k old Hk. eexists. split; [rewrite list_lookup_fmap, Hk; reflexivity|].
  unfold paintVertex, paintedVertex. cbn [String.eqb Ascii.eqb Bool.eqb].
  destruct (radial_move old (intensity (globe e))) as [Hzero Hnz].
  cbv zeta in Hzero, Hnz.
  split; [intros ->; reflexivity|]. split.
  - intros Hz. destruct (isPointInPolygon old (polygonPoints e)); [|reflexivity].
    apply Hzero. exact Hz.
  - intros -> Hold. destruct (Hnz Hold) as [Hlen Hdist].
    rewrite Hlen, Hdist. pose proof (length_nonneg old).
    rewrite !Rabs_pos_eq by lra. split; reflexivity.
Qed.

(** Witness of X16: the editor around the three-vertex crust. *)
Lemma applyPolygonEdit_moves_by_strength_witness :
  terrain (globe editorR) = Some crustR
  /\ (3 <= List.length (polygonPoints editorR))%nat
  /\ polygonMode editorR = "extrude"
  /\ 0 <= intensity (globe editorR)
  /\ exists e' g',
       applyPolygonEdit editorR = Some e'
       /\ layerGeometry (globe e') Crust = Some g'
       /\ forall (k : nat) (old : THREE.Vector3 R),
            THREE.position (THREE.geometry crustR) !! k = Some old ->
            exists new,
              THREE.position g' !! k = Some new
              /\ (isPointInPolygon old (polygonPoints editorR) = false -> new = old)
              /\ (old = rvec 0 0 0 -> new = old)
              /\ (isPointInPolygon old (polygonPoints editorR) = true ->
                  old <> rvec 0 0 0 ->
                  THREE.distanceTo new old = intensity (globe editorR)
                  /\ THREE.length new = THREE.length old + intensity (globe editorR)).
Proof.
  split; [reflexivity|]. split; [simpl; lia|]. split; [reflexivity|].
  split; [simpl; lra|].
  apply (applyPolygonEdit_moves_by_strength editorR crustR);
    [reflexivity|simpl; lia|reflexivity|simpl; lra].
Defined.

End RealPainter.

(* ------------------------------------------------------------------ *)
(** ** The clip polygon that the size sliders build, over the reals *)
(* ------------------------------------------------------------------ *)

Section RealCorners.
Local Open Scope R_scope.

(** A corner [(x, y, 4)] projected on the sphere of radius 80. *)
Lemma corner_projected (x y : R) :
  let a := 80 / R_sqrt.sqrt (x * x + y * y + 16) in
  THREE.multiplyScalar (THREE.normalize (rvec x y 4)) 80 = rvec (x * a) (y * a) (4 * a)
  /\ 0 < a.
Proof.
  cbv zeta.
  assert (Hq : 0 < x * x + y * y + 16) by nra.
  assert (HL : 0 < R_sqrt.sqrt (x * x + y * y + 16)) by (apply sqrt_lt_R0; exact Hq).
  split.
  - assert (Hv : rvec x y 4 <> rvec 0 0 0) by (intros [= _ _ H4]; lra).
    destruct (normalize_scales (rvec x y 4)) as [k [-> Hk]].
    destruct (Hk Hv) as [-> _].
    unfold THREE.length, THREE.multiplyScalar, rvec. simpl.
    replace (x * x + y * y + 4 * 4) with (x * x + y * y + 16) by ring.
    f_equal; field; lra.
  - apply Rmult_lt_0_compat; [lra|apply Rinv_0_lt_compat; exact HL].
Qed.

(** The four corners for a width and a height: a rectangle in the plane
    [z = 4 a], [a] being the factor that puts the corners on the
    sphere. *)
Lemma polygonCorners_rectangle (polygonWidth polygonHeight : R) :
  let halfWidth := 80 * (polygonWidth / 50) / 2 in
  let halfHeight := 80 * (polygonHeight / 50) / 2 in
  let a := 80 / R_sqrt.sqrt (halfWidth * halfWidth + halfHeight * halfHeight + 16) in
  polygonCorners polygonWidth polygonHeight
  = [rvec (halfWidth * a) (halfHeight * a) (4 * a);
     rvec (- halfWidth * a) (halfHeight * a) (4 * a);
     rvec (- halfWidth * a) (- halfHeight * a) (4 * a);
     rvec (halfWidth * a) (- halfHeight * a) (4 * a)]
  /\ 0 < a.
Proof.
  cbv zeta. unfold polygonCorners, lit. cbn [map fofZ R_Number fdiv fmul fneg].
  set (hw := 80 * (polygonWidth / 50) / 2).
  set (hh := 80 * (polygonHeight / 50) / 2).
  change (THREE.mkVector3 hw hh 4) with (rvec hw hh 4).
  change (THREE.mkVector3 (- hw) hh 4) with (rvec (- hw) hh 4).
  change (THREE.mkVector3 (- hw) (- hh) 4) with (rvec (- hw) (- hh) 4).
  change (THREE.mkVector3 hw (- hh) 4) with (rvec hw (- hh) 4).
  destruct (corner_projected hw hh) as [-> Ha].
  destruct (corner_projected (- hw) hh) as [-> _].
  destruct (corner_projected (- hw) (- hh)) as [-> _].
  destruct (corner_projected hw (- hh)) as [-> _].
  replace (- hw * - hw + hh * hh + 16) with (hw * hw + hh * hh + 16) by ring.
  replace (- hw * - hw + - hh * - hh + 16) with (hw * hw + hh * hh + 16) by ring.
  replace (hw * hw + - hh * - hh + 16) with (hw * hw + hh * hh + 16) by ring.
  split; [reflexivity|exact Ha].
Qed.

(** The plane of a rectangle [(+-x, +-y, z)] listed as the corners are:
    the horizontal plane through it, with the normal pointing up. *)
Lemma calculateClippingPlane_rectangle (s : App R) (x y z : R) :
  0 < x -> 0 < y ->
  clippingPolygon s
  = Some [rvec x y z; rvec (- x) y z; rvec (- x) (- y) z; rvec x (- y) z] ->
  calculateClippingPlane s = Some (mkClippingPlane (rvec 0 0 1) (- z)).
Proof.
  intros Hx Hy Hpoly. unfold calculateClippingPlane. rewrite Hpoly.
  assert (Hcross : THREE.cross (THREE.sub (rvec (- x) y z) (rvec x y z))
                     (THREE.sub (rvec (- x) (- y) z) (rvec x y z))
                   = rvec 0 0 (4 * x * y)).
  { unfold THREE.cross, THREE.sub, rvec. simpl. f_equal; ring. }
  rewrite Hcross.
  assert (Hc : 0 < 4 * x * y) by nra.
  assert (Hn : THREE.normalize (rvec 0 0 (4 * x * y)) = rvec 0 0 1).
  { assert (Hv : rvec 0 0 (4 * x * y) <> rvec 0 0 0) by (intros [= H0]; lra).
    destruct (normalize_scales (rvec 0 0 (4 * x * y))) as [k [-> Hk]].
    destruct (Hk Hv) as [-> _].
    assert (HL : THREE.length (rvec 0 0 (4 * x * y)) = 4 * x * y).
    { unfold THREE.length, rvec. simpl. apply sqrt_lem_1; [nra|lra|ring]. }
    rewrite HL. unfold THREE.multiplyScalar, rvec. simpl. f_equal; field; lra. }
  rewrite Hn. do 2 f_equal. unfold THREE.dot, rvec. simpl. ring.
Qed.

Lemma shouldShow_horizontal (z0 : R) (v : THREE.Vector3 R) :
  shouldShow "inside" (mkClippingPlane (rvec 0 0 1) (- z0)) v = Rltb (THREE.vz v) z0
  /\ shouldShow "outside" (mkClippingPlane (rvec 0 0 1) (- z0)) v = Rltb z0 (THREE.vz v).
Proof.
  unfold shouldShow, signedDistance, THREE.dot, rvec, lit. simpl.
  destruct v as [x y z]. simpl.
  unfold Rltb. split.
  - destruct (Rlt_dec (0 * x + 0 * y + 1 * z + - z0) 0), (Rlt_dec z z0);
      try reflexivity; lra.
  - destruct (Rlt_dec 0 (0 * x + 0 * y + 1 * z + - z0)), (Rlt_dec z0 z);
      try reflexivity; lra.
Qed.

(** X17.  The clip polygon as it is first built, and as a move of either
    size slider builds it again (both sizes positive), is a rectangle on
    the sphere of radius 80, in a horizontal plane at a height between 0
    and 80, whatever the position and rotation sliders say.  The plane
    of that polygon has the normal [(0, 0, 1)]: clipping inside keeps
    exactly the vertices below the rectangle, clipping outside those
    above it. *)
Theorem polygon_is_built_in_a_horizontal_plane (e e' : Editor R) :
  0 < polygonWidth e ->
  0 < polygonHeight e ->
  e' = createSpherePolygon e
  \/ (originalPolygonPoints (globe e) <> None /\ e' = updatePolygonSize e) ->
  exists height,
    0 < height < 80
    /\ clippingPolygon (globe e')
       = Some (polygonCorners (polygonWidth e) (polygonHeight e))
    /\ originalPolygonPoints (globe e')
       = Some (polygonCorners (polygonWidth e) (polygonHeight e))
    /\ Forall (fun p => THREE.length p = 80 /\ THREE.vz p = height)
         (polygonCorners (polygonWidth e) (polygonHeight e))
    /\ calculateClippingPlane (globe e')
       = Some (mkClippingPlane (rvec 0 0 1) (- height))
    /\ forall v,
         shouldShow "inside" (mkClippingPlane (rvec 0 0 1) (- height)) v
         = Rltb (THREE.vz v) height
         /\ shouldShow "outside" (mkClippingPlane (rvec 0 0 1) (- height)) v
            = Rltb height (THREE.vz v).
Proof.
  intros Hw Hh Hbuilt.
  destruct (polygonCorners_rectangle (polygonWidth e) (polygonHeight e)) as [Hcorners Ha].
  cbv zeta in Hcorners, Ha.
  set (hw := 80 * (polygonWidth e / 50) / 2) in *.
  set (hh := 80 * (polygonHeight e / 50) / 2) in *.
  set (q := hw * hw + hh * hh + 16) in *.
  set (a := 80 / R_sqrt.sqrt q) in *.
  assert (Hhw : 0 < hw) by (unfold hw; lra).
  assert (Hhh : 0 < hh) by (unfold hh; lra).
  assert (Hq : 16 < q) by (unfold q; nra).
  assert (HL : 4 < R_sqrt.sqrt q).
  { replace 4 with (R_sqrt.sqrt 16).
    - apply sqrt_lt_1_alt. lra.
    - apply sqrt_lem_1; lra. }
  assert (Ha80 : 4 * a < 80).
  { unfold a. apply (Rmult_lt_reg_r (R_sqrt.sqrt q)); [lra|].
    replace (4 * (80 / R_sqrt.sqrt q) * R_sqrt.sqrt q) with 320 by (field; lra). lra. }
  assert (Hpoly : clippingPolygon (globe e')
                  = Some (polygonCorners (polygonWidth e) (polygonHeight e))
                  /\ originalPolygonPoints (globe e')
                     = Some (polygonCorners (polygonWidth e) (polygonHeight e))).
  { destruct Hbuilt as [->|[Horig ->]]; [split; reflexivity|].
    unfold updatePolygonSize, recreatePolygon.
    destruct (originalPolygonPoints (globe e)) as [original|]; [|contradiction].
    cbv zeta. cbn [globe set_globe].
    destruct (realtimeClipping (set_polygons _ (globe e))) eqn:Hrt; cbn [globe set_globe].
    - pose proof (afterPolygonMove_polygon
                    (set_polygons (polygonCorners (polygonWidth e) (polygonHeight e))
                       (globe e))) as [Hp Hsetup].
      unfold afterPolygonMove in Hp, Hsetup. rewrite Hrt in Hp, Hsetup.
      split; [exact Hp|].
      unfold polygonSetup in Hsetup. injection Hsetup as Ho _ _ _ _. exact Ho.
    - split; reflexivity. }
  destruct Hpoly as [Hwork Hkept].
  exists (4 * a). split; [lra|]. split; [exact Hwork|]. split; [exact Hkept|].
  split; [|split].
  - rewrite Hcorners.
    assert (Hlen : forall x y, x * x = hw * hw -> y * y = hh * hh ->
                     THREE.length (rvec (x * a) (y * a) (4 * a)) = 80).
    { intros x y Hx Hy. unfold THREE.length, rvec. simpl.
      apply sqrt_lem_1; [apply sum_of_squares_nonneg|lra|].
      replace (x * a * (x * a) + y * a * (y * a) + 4 * a * (4 * a))
        with ((x * x + y * y + 16) * (a * a)) by ring.
      rewrite Hx, Hy. fold q. unfold a.
      replace (q * (80 / R_sqrt.sqrt q * (80 / R_sqrt.sqrt q)))
        with (q * 6400 / (R_sqrt.sqrt q * R_sqrt.sqrt q)) by (field; lra).
      rewrite sqrt_sqrt by lra. field. lra. }
    repeat constructor; try reflexivity; apply Hlen; ring.
  - apply (calculateClippingPlane_rectangle _ (hw * a) (hh * a) (4 * a)); [nra|nra|].
    rewrite Hwork, Hcorners.
    replace (- hw * a) with (- (hw * a)) by ring.
    replace (- hh * a) with (- (hh * a)) by ring. reflexivity.
  - intros v. apply shouldShow_horizontal.
Qed.

(** Witness of X17: the polygon of the editor as the constructor leaves
    it, whose sliders are at 50 and 50. *)
Lemma polygon_is_built_in_a_horizontal_plane_witness :
  0 < polygonWidth newEditorR
  /\ 0 < polygonHeight newEditorR
  /\ (createSpherePolygon newEditorR = createSpherePolygon newEditorR
      \/ (originalPolygonPoints (globe newEditorR) <> None
          /\ createSpherePolygon newEditorR = updatePolygonSize newEditorR))
  /\ exists height,
       0 < height < 80
       /\ clippingPolygon (globe (createSpherePolygon newEditorR))
          = Some (polygonCorners (polygonWidth newEditorR) (polygonHeight newEditorR))
       /\ originalPolygonPoints (globe (createSpherePolygon newEditorR))
          = Some (polygonCorners (polygonWidth newEditorR) (polygonHeight newEditorR))
       /\ Forall (fun p => THREE.length p = 80 /\ THREE.vz p = height)
            (polygonCorners (polygonWidth newEditorR) (polygonHeight newEditorR))
       /\ calculateClippingPlane (globe (createSpherePolygon newEditorR))
          = Some (mkClippingPlane (rvec 0 0 1) (- height))
       /\ forall v,
            shouldShow "inside" (mkClippingPlane (rvec 0 0 1) (- height)) v
            = Rltb (THREE.vz v) height
            /\ shouldShow "outside" (mkClippingPlane (rvec 0 0 1) (- height)) v
               = Rltb height (THREE.vz v).
Proof.
  split; [simpl; lra|]. split; [simpl; lra|]. split; [left; reflexivity|].
  apply (polygon_is_built_in_a_horizontal_plane newEditorR
           (createSpherePolygon newEditorR));
    [simpl; lra|simpl; lra|left; reflexivity].
Defined.

End RealCorners.

(* ------------------------------------------------------------------ *)
(** ** No listener of the editor throws *)
(* ------------------------------------------------------------------ *)

Section SafeReads.
Context {F : Type} `{Number F} `{Trig F}.

Lemma polygons_setLayer (l : Layer) (m : THREE.Mesh F) (s : App F) :
  polygons (setLayer l m s) = polygons s.
Proof. destruct l; reflexivity. Qed.

Lemma polygons_clipSphereWithPolygon (targetLayer : string) (s : App F) :
  polygons (clipSphereWithPolygon targetLayer s) = polygons s.
Proof.
  destruct (clipSphereWithPolygon_polygon targetLayer s) as [Hp Hsetup].
  unfold polygons. rewrite Hp. unfold polygonSetup in Hsetup.
  injection Hsetup as -> _ _ _ _. reflexivity.
Qed.

Lemma polygons_restoreOriginalGeometry (targetLayer : string) (s : App F) :
  polygons (restoreOriginalGeometry targetLayer s) = polygons s.
Proof.
  unfold restoreOriginalGeometry.
  destruct (layerOfName targetLayer) as [l|]; [|reflexivity].
  destruct (getLayer s l) as [m|]; [|reflexivity].
  repeat match goal with
         | |- context [if ?c then _ else _] => destruct c
         | |- context [match ?c with Some _ => _ | None => _ end] => destruct c
         end; destruct l; reflexivity.
Qed.

Lemma polygons_when (cond : bool) (method : App F -> App F) (s : App F) :
  polygons (method s) = polygons s -> polygons (when cond method s) = polygons s.
Proof. intros Hm. destruct cond; [exact Hm|reflexivity]. Qed.

Lemma polygons_selected (c1 c2 c3 : bool) (s : App F) :
  polygons (when c3 (clipSphereWithPolygon "core")
              (when c2 (clipSphereWithPolygon "mantle")
                 (when c1 (clipSphereWithPolygon "crust") s)))
  = polygons s.
Proof.
  rewrite polygons_when by apply polygons_clipSphereWithPolygon.
  rewrite polygons_when by apply polygons_clipSphereWithPolygon.
  apply polygons_when, polygons_clipSphereWithPolygon.
Qed.

Lemma polygons_restoreAllLayers (s : App F) : polygons (restoreAllLayers s) = polygons s.
Proof. unfold restoreAllLayers. rewrite !polygons_restoreOriginalGeometry. reflexivity. Qed.

Lemma polygons_updateMaterialClipping (targetLayer : string) (s : App F) :
  polygons (updateMaterialClipping targetLayer s) = polygons s.
Proof.
  destruct (updateMaterialClipping_polygon targetLayer s) as [Hp Hsetup].
  unfold polygons. rewrite Hp. unfold polygonSetup in Hsetup.
  injection Hsetup as -> _ _ _ _. reflexivity.
Qed.

Lemma polygons_updated (c1 c2 c3 : bool) (s : App F) :
  polygons (when c3 (updateMaterialClipping "core")
              (when c2 (updateMaterialClipping "mantle")
                 (when c1 (updateMaterialClipping "crust") s)))
  = polygons s.
Proof.
  rewrite polygons_when by apply polygons_updateMaterialClipping.
  rewrite polygons_when by apply polygons_updateMaterialClipping.
  apply polygons_when, polygons_updateMaterialClipping.
Qed.

Lemma polygons_applyRealtimeClipping (s : App F) :
  polygons (applyRealtimeClipping s) = polygons s.
Proof.
  unfold applyRealtimeClipping.
  destruct (renderer_isWebGPURenderer s); cbv zeta;
    [apply polygons_selected|apply polygons_updated].
Qed.

Lemma polygons_updateClippingOnPolygonMove (s : App F) :
  polygons (updateClippingOnPolygonMove s) = polygons s.
Proof.
  unfold updateClippingOnPolygonMove.
  destruct (negb (realtimeClipping s)); [reflexivity|].
  destruct (renderer_isWebGPURenderer s); cbv zeta;
    [apply polygons_selected|apply polygons_updated].
Qed.

(** The layer and clipping controls, the brush and the Smooth button
    leave both polygons alone. *)
Lemma polygons_handle (ev : Event F) (s : App F) :
  (forall working, ev <> PolygonMoved working) ->
  polygons (handle ev s) = polygons s.
Proof.
  intros Hev. destruct ev; cbn [handle].
  - apply polygons_clipSphereWithPolygon.
  - apply polygons_restoreOriginalGeometry.
  - unfold editTerrain. destruct (terrain s); [|reflexivity].
    destruct hit; [apply polygons_setLayer|reflexivity].
  - unfold rewriteTerrain. destruct (terrain s); [apply polygons_setLayer|reflexivity].
  - unfold onLayerToggle.
    destruct (getLayer s l); cbn [default]; [apply polygons_setLayer|reflexivity].
  - unfold onRealtimeClippingToggle. cbn [realtimeClipping set_realtimeClipping].
    destruct checked.
    + unfold applyClippingToSelectedLayers. cbv zeta. rewrite polygons_selected.
      reflexivity.
    + rewrite polygons_restoreAllLayers. reflexivity.
  - unfold onClipCheckboxChange, handleLayerSelectionChange.
    destruct (negb (realtimeClipping (set_clipChecked l checked s)));
      [destruct l; reflexivity|].
    destruct (clipChecked (set_clipChecked l checked s) l).
    + rewrite polygons_clipSphereWithPolygon. destruct l; reflexivity.
    + rewrite polygons_restoreOriginalGeometry. destruct l; reflexivity.
  - apply polygons_restoreAllLayers.
  - unfold onClippingDirectionChange, reapplyClippingToAllLayers. cbv zeta.
    rewrite polygons_selected, !polygons_restoreOriginalGeometry. reflexivity.
  - exfalso. exact (Hev working eq_refl).
Qed.

(** A later state in the sense of [extends] has every layer the
    earlier one has. *)
Lemma layers_extends (s s' : App F) :
  extends s s' ->
  (forall l, getLayer s l <> None) -> forall l, getLayer s' l <> None.
Proof.
  intros [_ [Hlayers _]] Hall l.
  destruct (getLayer s l) as [m|] eqn:Hm; [|exact (False_ind _ (Hall l Hm))].
  destruct (Hlayers l m Hm) as [m' [Hm' _]]. rewrite Hm'. discriminate.
Qed.

(** A step that keeps the layers and leaves the polygons of equal
    length. *)
Lemma safe_step (e e' : Editor F) :
  readsAreSafe e ->
  extends (globe e) (globe e') ->
  (forall original working,
     originalPolygonPoints (globe e') = Some original ->
     clippingPolygon (globe e') = Some working ->
     List.length working = List.length original) ->
  readsAreSafe e'.
Proof.
  intros [Hlayers _] Hext Hlen. split; [|exact Hlen].
  exact (layers_extends _ _ Hext Hlayers).
Qed.

(** The same when the step leaves both polygons as they are. *)
Lemma safe_step_polygons (e e' : Editor F) :
  readsAreSafe e ->
  extends (globe e) (globe e') ->
  polygons (globe e') = polygons (globe e) ->
  readsAreSafe e'.
Proof.
  intros Hsafe Hext Hpoly.
  apply (safe_step e e' Hsafe Hext).
  destruct Hsafe as [_ Hlen]. unfold polygons in Hpoly. injection Hpoly as Hw Ho.
  intros original working. rewrite Hw, Ho. apply Hlen.
Qed.

(** A layer control, the brush or the Smooth button, through [handle]. *)
Lemma safe_handle (ev : Event F) (e : Editor F) :
  (forall working, ev <> PolygonMoved working) ->
  readsAreSafe e ->
  readsAreSafe (set_globe (handle ev (globe e)) e).
Proof.
  intros Hev Hsafe. apply (safe_step_polygons e); [exact Hsafe| |].
  - apply extends_handle.
  - apply polygons_handle. exact Hev.
Qed.

(** A change of a field that is neither a layer nor a polygon. *)
Lemma safe_setter (e e' : Editor F) :
  readsAreSafe e ->
  (forall l, getLayer (globe e') l = getLayer (globe e) l) ->
  polygons (globe e') = polygons (globe e) ->
  readsAreSafe e'.
Proof.
  intros [Hlayers Hlen] Hsame Hpoly. split.
  - intros l. rewrite Hsame. apply Hlayers.
  - unfold polygons in Hpoly. injection Hpoly as Hw Ho.
    intros original working. rewrite Hw, Ho. apply Hlen.
Qed.

(** A recomputation of the working polygon from the original one. *)
Lemma safe_recompute (body : THREE.Vector3 F -> THREE.Vector3 F)
    (e : Editor F) (s1 : App F) :
  readsAreSafe e ->
  polygons s1 = polygons (globe e) ->
  extends (globe e) s1 ->
  exists a',
    match originalPolygonPoints s1, clippingPolygon s1 with
    | Some original, Some working =>
        match forEachPoint body working original 0 with
        | None => None
        | Some working' =>
            Some (afterPolygonMove (set_clippingPolygon (Some working') s1))
        end
    | _, _ => Some s1
    end = Some a'
    /\ readsAreSafe (set_globe a' e).
Proof.
  intros Hsafe Hpoly Hext.
  pose proof Hsafe as [_ Hlen]. unfold polygons in Hpoly. injection Hpoly as Hw Ho.
  destruct (originalPolygonPoints s1) as [original|] eqn:Horig;
    [destruct (clippingPolygon s1) as [working|] eqn:Hwork|].
  - rewrite (forEachPoint_all body working original)
      by (apply Hlen; congruence).
    eexists. split; [reflexivity|].
    apply (safe_step e); [exact Hsafe| |].
    + cbn [globe set_globe]. eapply extends_trans; [exact Hext|].
      apply (extends_handle (PolygonMoved (map body original)) s1).
    + cbn [globe set_globe]. intros original' working'.
      destruct (afterPolygonMove_polygon
                  (set_clippingPolygon (Some (map body original)) s1)) as [-> Hsetup].
      unfold polygonSetup in Hsetup. injection Hsetup as -> _ _ _ _.
      cbn [clippingPolygon originalPolygonPoints set_clippingPolygon].
      rewrite Horig. intros [= <-] [= <-]. apply length_map.
  - eexists. split; [reflexivity|].
    apply (safe_step e); [exact Hsafe|exact Hext|].
    cbn [globe set_globe]. intros original' working'. rewrite Hwork. discriminate.
  - eexists. split; [reflexivity|].
    apply (safe_step e); [exact Hsafe|exact Hext|].
    cbn [globe set_globe]. intros original' working'. rewrite Horig. discriminate.
Qed.

Lemma extends_set_polygonParams (axis : string) (pos : F) (raxis : string) (rot : F)
    (s : App F) :
  extends s (set_polygonParams axis pos raxis rot s).
Proof.
  split; [reflexivity|]. split; [|intros id g Hg; exact Hg].
  intros l m Hm. exists m. split; [destruct l; exact Hm|reflexivity].
Qed.

Lemma extends_set_polygons (points : list (THREE.Vector3 F)) (s : App F) :
  extends s (set_polygons points s).
Proof.
  split; [reflexivity|]. split; [|intros id g Hg; exact Hg].
  intros l m Hm. exists m. split; [destruct l; exact Hm|reflexivity].
Qed.

Lemma safe_updatePolygonSize (e e0 : Editor F) :
  readsAreSafe e ->
  globe e0 = globe e ->
  readsAreSafe (updatePolygonSize e0).
Proof.
  intros Hsafe Hglobe. unfold updatePolygonSize, recreatePolygon. rewrite Hglobe.
  destruct (originalPolygonPoints (globe e)) as [original|] eqn:Horig.
  - cbn [globe set_globe].
    set (s1 := set_polygons (polygonCorners (polygonWidth e0) (polygonHeight e0))
                 (globe e)).
    assert (Hlen : forall a', polygons a' = polygons s1 ->
              forall original' working',
                originalPolygonPoints a' = Some original' ->
                clippingPolygon a' = Some working' ->
                List.length working' = List.length original').
    { intros a' Ha' original' working'. unfold polygons in Ha'.
      injection Ha' as -> ->. intros [= <-] [= <-]. reflexivity. }
    destruct (realtimeClipping s1).
    + apply (safe_step e); [exact Hsafe| |].
      * cbn [globe set_globe]. eapply extends_trans; [apply extends_set_polygons|].
        apply extends_applyRealtimeClipping.
      * cbn [globe set_globe]. apply Hlen. apply polygons_applyRealtimeClipping.
    + apply (safe_step e); [exact Hsafe| |].
      * cbn [globe set_globe]. apply extends_set_polygons.
      * cbn [globe set_globe]. apply Hlen. reflexivity.
  - rewrite Hglobe.
    destruct (realtimeClipping (globe e)).
    + apply (safe_step_polygons e); [exact Hsafe| |].
      * cbn [globe set_globe]. apply extends_applyRealtimeClipping.
      * cbn [globe set_globe]. apply polygons_applyRealtimeClipping.
    + apply (safe_step_polygons e); [exact Hsafe| |].
      * rewrite Hglobe. apply extends_refl.
      * rewrite Hglobe. reflexivity.
Qed.

Lemma safe_onEvent (ev : EditorEvent F) (e : Editor F) :
  readsAreSafe e ->
  exists e', onEvent ev e = Some e' /\ readsAreSafe e'.
Proof.
  intros Hsafe. destruct ev; cbn [onEvent].
  - eexists. split; [reflexivity|]. unfold onMouseMove.
    destruct (isEditing e); [|exact Hsafe]. destruct (isDragging e); [|exact Hsafe].
    apply (safe_handle (BrushStroke hit)); [discriminate|exact Hsafe].
  - eexists. split; [reflexivity|]. unfold onMouseDown.
    destruct (button =? 0)%Z; [|exact Hsafe].
    destruct (isDrawingPolygon e).
    + unfold addPolygonPoint. destruct (terrain (globe e)); [|exact Hsafe].
      destruct hit; exact Hsafe.
    + destruct (isEditing e); [|exact Hsafe].
      apply (safe_step_polygons e); [exact Hsafe| |].
      * cbn [globe set_globe set_isDragging].
        apply (extends_handle (BrushStroke hit)).
      * cbn [globe set_globe set_isDragging].
        apply (polygons_handle (BrushStroke hit)). discriminate.
  - eexists. split; [reflexivity|]. unfold onMouseUp.
    destruct (button =? 0)%Z; exact Hsafe.
  - unfold onContextMenu, applyPolygonEdit.
    destruct (isDrawingPolygon e && (3 <=? List.length (polygonPoints e))%nat);
      [|eexists; split; [reflexivity|exact Hsafe]].
    destruct (List.length (polygonPoints e) <? 3)%nat;
      [eexists; split; [reflexivity|exact Hsafe]|].
    destruct (terrain (globe e)) as [t|] eqn:Ht.
    + eexists. split; [reflexivity|].
      apply (safe_step_polygons e); [exact Hsafe| |].
      * cbn [globe set_globe set_polygonPoints].
        apply (extends_setLayer Crust t); [exact Ht|reflexivity].
      * cbn [globe set_globe set_polygonPoints]. apply polygons_setLayer.
    + exfalso. destruct Hsafe as [Hlayers _]. exact (Hlayers Crust Ht).
  - eexists. split; [reflexivity|]. exact Hsafe.
  - eexists. split; [reflexivity|]. exact Hsafe.
  - eexists. split; [reflexivity|].
    apply (safe_handle (TerrainRewritten (map smoothedVertex))); [discriminate|exact Hsafe].
  - eexists. split; [reflexivity|]. exact Hsafe.
  - eexists. split; [reflexivity|]. exact Hsafe.
  - eexists. split; [reflexivity|]. exact Hsafe.
  - eexists. split; [reflexivity|]. exact Hsafe.
  - set (s1 := set_polygonParams value (polygonPosition (globe e))
                      (polygonRotationAxis (globe e)) (polygonRotation (globe e))
                      (globe e)).
    unfold updatePolygonPosition.
    destruct (safe_recompute (positionedPoint s1) e s1 Hsafe eq_refl
                (extends_set_polygonParams _ _ _ _ _))
      as [a' [Ha' Hsafe']].
    rewrite Ha'. eexists. split; [reflexivity|exact Hsafe'].
  - set (s1 := set_polygonParams (polygonAxis (globe e)) value
                      (polygonRotationAxis (globe e)) (polygonRotation (globe e))
                      (globe e)).
    unfold updatePolygonPosition.
    destruct (safe_recompute (positionedPoint s1) e s1 Hsafe eq_refl
                (extends_set_polygonParams _ _ _ _ _))
      as [a' [Ha' Hsafe']].
    rewrite Ha'. eexists. split; [reflexivity|exact Hsafe'].
  - set (s1 := set_polygonParams (polygonAxis (globe e)) (polygonPosition (globe e))
                      value (polygonRotation (globe e)) (globe e)).
    unfold updatePolygonTransform.
    destruct (safe_recompute (transformedPoint s1) e s1 Hsafe eq_refl
                (extends_set_polygonParams _ _ _ _ _))
      as [a' [Ha' Hsafe']].
    rewrite Ha'. eexists. split; [reflexivity|exact Hsafe'].
  - set (s1 := set_polygonParams (polygonAxis (globe e)) (polygonPosition (globe e))
                      (polygonRotationAxis (globe e)) value (globe e)).
    unfold updatePolygonTransform.
    destruct (safe_recompute (transformedPoint s1) e s1 Hsafe eq_refl
                (extends_set_polygonParams _ _ _ _ _))
      as [a' [Ha' Hsafe']].
    rewrite Ha'. eexists. split; [reflexivity|exact Hsafe'].
  - eexists. split; [reflexivity|].
    apply (safe_updatePolygonSize e); [exact Hsafe|reflexivity].
  - eexists. split; [reflexivity|].
    apply (safe_updatePolygonSize e); [exact Hsafe|reflexivity].
  - unfold onLayerToggle.
    destruct (getLayer (globe e) l) as [m|] eqn:Hm.
    + eexists. split; [reflexivity|].
      apply (safe_step_polygons e); [exact Hsafe| |].
      * cbn [globe set_globe]. apply (extends_setLayer l m); [exact Hm|reflexivity].
      * cbn [globe set_globe]. apply polygons_setLayer.
    + exfalso. destruct Hsafe as [Hlayers _]. exact (Hlayers l Hm).
  - unfold onLayerOpacity.
    destruct (getLayer (globe e) l) as [m|] eqn:Hm.
    + eexists. split; [reflexivity|exact Hsafe].
    + exfalso. destruct Hsafe as [Hlayers _]. exact (Hlayers l Hm).
  - eexists. split; [reflexivity|].
    apply (safe_handle (RealtimeToggle checked)); [discriminate|exact Hsafe].
  - eexists. split; [reflexivity|].
    apply (safe_handle (ClipCheckbox l checked)); [discriminate|exact Hsafe].
  - eexists. split; [reflexivity|].
    apply (safe_handle RestoreAllClick); [discriminate|exact Hsafe].
  - eexists. split; [reflexivity|].
    apply (safe_handle (DirectionChange value)); [discriminate|exact Hsafe].
Qed.

(** X18.  No session makes a listener of the model throw.  Three kinds of
    listener read without a test: the layer toggles and the opacity
    sliders read their layer, the painter reads the geometry of the
    terrain, and the polygon sliders read, for every working point, the
    original point with the same number.  From a state where the three
    layers exist and the working polygon is as long as the original one
    (the state in which the listeners are registered is such a state)
    every listener returns, and leaves such a state. *)
Theorem editor_session_never_throws (events : list (EditorEvent F)) (e : Editor F) :
  readsAreSafe e ->
  exists e', runEditor events e = Some e' /\ readsAreSafe e'.
Proof.
  revert e. induction events as [|ev rest IH]; intros e Hsafe; cbn [runEditor].
  - exists e. split; [reflexivity|exact Hsafe].
  - destruct (safe_onEvent ev e Hsafe) as [e1 [-> H1]]. apply IH. exact H1.
Qed.

(** Without its layer the listener of a layer toggle does throw, as does
    that of an opacity slider: the first hypothesis of X18 is needed. *)
Lemma layer_listeners_throw_without_layer (l : Layer) (checked : bool) (value : F)
    (e : Editor F) :
  getLayer (globe e) l = None ->
  onEvent (LayerToggle l checked) e = None
  /\ onEvent (LayerOpacityInput l value) e = None.
Proof.
  intros Hnone. cbn [onEvent]. unfold onLayerToggle, onLayerOpacity.
  rewrite Hnone. split; reflexivity.
Qed.

End SafeReads.

Lemma editorRLayers_readsAreSafe : readsAreSafe editorRLayers.
Proof.
  split; [intros l; destruct l; discriminate|].
  intros original working [= <-] [= <-]. reflexivity.
Qed.

(** Witness of X18: a session on the editor with its three layers that
    hides the mantle, paints with too few points, resizes the polygon
    and then turns and moves it. *)
Lemma editor_session_never_throws_witness :
  readsAreSafe editorRLayers
  /\ exists e',
       runEditor
         [LayerToggle Mantle false; LayerOpacityInput Core (1 / 2)%R;
          PolygonModeClick; MouseDown 0 (Some (rvec 0 50 0)); ContextMenu;
          PolygonWidthInput 30%R; PolygonRotationInput 45%R;
          PolygonPositionInput 5%R] editorRLayers
       = Some e'
       /\ readsAreSafe e'.
Proof.
  split; [exact editorRLayers_readsAreSafe|].
  apply (editor_session_never_throws
           [LayerToggle Mantle false; LayerOpacityInput Core (1 / 2)%R;
            PolygonModeClick; MouseDown 0 (Some (rvec 0 50 0)); ContextMenu;
            PolygonWidthInput 30%R; PolygonRotationInput 45%R;
            PolygonPositionInput 5%R] editorRLayers).
  exact editorRLayers_readsAreSafe.
Defined.

(* ------------------------------------------------------------------ *)
(** ** A size slider while real-time clipping is on *)
(* ------------------------------------------------------------------ *)

Section RealTimeResize.
Local Open Scope R_scope.

(** The rectangle that the sliders build lies at [rectangleHeight], and
    its plane is the horizontal plane at that height. *)
Lemma polygonCorners_plane (polygonWidth polygonHeight : R) :
  0 < polygonWidth -> 0 < polygonHeight ->
  0 < rectangleHeight polygonWidth polygonHeight < 80
  /\ Forall (fun corner => THREE.vz corner = rectangleHeight polygonWidth polygonHeight)
       (polygonCorners polygonWidth polygonHeight)
  /\ forall s : App R,
       clippingPolygon s = Some (polygonCorners polygonWidth polygonHeight) ->
       calculateClippingPlane s
       = Some (mkClippingPlane (rvec 0 0 1)
                 (- rectangleHeight polygonWidth polygonHeight)).
Proof.
  intros Hw Hh.
  destruct (polygonCorners_rectangle polygonWidth polygonHeight) as [Hcorners Ha].
  unfold rectangleHeight.
  cbv zeta in Hcorners, Ha |- *.
  set (hw := 80 * (polygonWidth / 50) / 2) in *.
  set (hh := 80 * (polygonHeight / 50) / 2) in *.
  set (q := hw * hw + hh * hh + 16) in *.
  set (a := 80 / R_sqrt.sqrt q) in *.
  assert (Hhw : 0 < hw) by (unfold hw; lra).
  assert (Hhh : 0 < hh) by (unfold hh; lra).
  assert (Hq : 16 < q) by (unfold q; nra).
  assert (HL : 4 < R_sqrt.sqrt q).
  { replace 4 with (R_sqrt.sqrt 16).
    - apply sqrt_lt_1_alt. lra.
    - apply sqrt_lem_1; lra. }
  assert (Ha80 : 4 * a < 80).
  { unfold a. apply (Rmult_lt_reg_r (R_sqrt.sqrt q)); [lra|].
    replace (4 * (80 / R_sqrt.sqrt q) * R_sqrt.sqrt q) with 320 by (field; lra). lra. }
  split; [lra|]. split.
  - rewrite Hcorners. repeat constructor.
  - intros s Hpoly.
    apply (calculateClippingPlane_rectangle _ (hw * a) (hh * a) (4 * a)); [nra|nra|].
    rewrite Hpoly, Hcorners.
    replace (- hw * a) with (- (hw * a)) by ring.
    replace (- hh * a) with (- (hh * a)) by ring. reflexivity.
Qed.

(** What a move of the width slider leaves in an enrolled, visible
    layer while real-time clipping is on. *)
Lemma width_slider_layer
    (e : Editor R) (value : R) (original : list (THREE.Vector3 R))
    (l : Layer) (m : THREE.Mesh R) :
  renderer_isWebGPURenderer (globe e) = true ->
  uuidsDistinct (globe e) ->
  realtimeClipping (globe e) = true ->
  originalPolygonPoints (globe e) = Some original ->
  0 < value ->
  0 < polygonHeight e ->
  getLayer (globe e) l = Some m ->
  clipChecked (globe e) l = true ->
  THREE.visible m = true ->
  exists e',
    onEvent (PolygonWidthInput value) e = Some e'
    /\ polygonWidth e' = value
    /\ polygonHeight e' = polygonHeight e
    /\ polygons (globe e')
       = (Some (polygonCorners value (polygonHeight e)),
          Some (polygonCorners value (polygonHeight e)))
    /\ layerGeometry (globe e') l
       = Some (clipGeometry (clippingDirection (globe e))
                 (mkClippingPlane (rvec 0 0 1)
                    (- rectangleHeight value (polygonHeight e)))
                 (pristineOf (globe e) m)).
Proof.
  intros Hgpu Hdistinct Hrt Horig Hvalue Hheight Hm Hsel Hvis.
  destruct (polygonCorners_plane value (polygonHeight e) Hvalue Hheight)
    as [_ [_ Hplane]].
  cbn [onEvent]. unfold updatePolygonSize, recreatePolygon.
  cbn [globe set_polygonWidth polygonWidth polygonHeight]. rewrite Horig.
  cbn [globe set_globe].
  set (s1 := set_polygons (polygonCorners value (polygonHeight e)) (globe e)).
  change (realtimeClipping s1) with (realtimeClipping (globe e)). rewrite Hrt.
  assert (Hstart : layerTracked l m (pristineOf (globe e) m)
                     (mkClippingPlane (rvec 0 0 1)
                        (- rectangleHeight value (polygonHeight e)))
                     (clippingDirection (globe e))
                     (THREE.geometry m) s1).
  { apply (tracked_start l m _ s1); [exact Hgpu|exact Hdistinct| |exact Hm].
    apply Hplane. reflexivity. }
  pose proof (tracked_selected_layers (clipCrust s1) (clipMantle s1) (clipCore s1)
                l m _ _ _ _ s1 Hstart) as [_ [_ [_ [Hl _]]]].
  cbv zeta in Hl.
  assert (Hsel1 : match l with
                  | Crust => clipCrust s1 | Mantle => clipMantle s1 | Core => clipCore s1
                  end = true) by (destruct l; exact Hsel).
  rewrite Hsel1, Hvis in Hl. cbn [andb] in Hl.
  eexists. split; [reflexivity|]. split; [reflexivity|]. split; [reflexivity|].
  cbn [globe set_globe]. split.
  - rewrite polygons_applyRealtimeClipping. reflexivity.
  - unfold applyRealtimeClipping.
    change (renderer_isWebGPURenderer s1) with (renderer_isWebGPURenderer (globe e)).
    rewrite Hgpu. cbv zeta. unfold layerGeometry. rewrite Hl. reflexivity.
Qed.

(** X19.  With real-time clipping on (WebGPU renderer, direction inside), a
    move of the width slider builds the clip rectangle anew for the new
    width, with its four corners at the height [rectangleHeight], and
    clips every enrolled and visible layer anew: the layer is left with
    exactly the vertices of its pristine geometry that lie below that
    height, in their order. *)
Theorem width_slider_reclips_below_the_rectangle
    (e : Editor R) (value : R) (original : list (THREE.Vector3 R))
    (l : Layer) (m : THREE.Mesh R) :
  renderer_isWebGPURenderer (globe e) = true ->
  uuidsDistinct (globe e) ->
  realtimeClipping (globe e) = true ->
  clippingDirection (globe e) = "inside" ->
  originalPolygonPoints (globe e) = Some original ->
  0 < value ->
  0 < polygonHeight e ->
  getLayer (globe e) l = Some m ->
  clipChecked (globe e) l = true ->
  THREE.visible m = true ->
  exists e' g',
    onEvent (PolygonWidthInput value) e = Some e'
    /\ polygonWidth e' = value
    /\ clippingPolygon (globe e') = Some (polygonCorners value (polygonHeight e))
    /\ originalPolygonPoints (globe e') = Some (polygonCorners value (polygonHeight e))
    /\ Forall (fun corner =>
                THREE.vz corner = rectangleHeight value (polygonHeight e))
         (polygonCorners value (polygonHeight e))
    /\ rectangleHeight value (polygonHeight e)
       = 4 * (80 / R_sqrt.sqrt (80 * (value / 50) / 2 * (80 * (value / 50) / 2)
                                + 80 * (polygonHeight e / 50) / 2
                                  * (80 * (polygonHeight e / 50) / 2)
                                + 16))
    /\ 0 < rectangleHeight value (polygonHeight e) < 80
    /\ calculateClippingPlane (globe e')
       = Some (mkClippingPlane (rvec 0 0 1) (- rectangleHeight value (polygonHeight e)))
    /\ layerGeometry (globe e') l = Some g'
    /\ THREE.position g'
       = List.filter
           (fun vertex => Rltb (THREE.vz vertex) (rectangleHeight value (polygonHeight e)))
           (THREE.position (pristineOf (globe e) m)).
Proof.
  intros Hgpu Hdistinct Hrt Hdir Horig Hvalue Hheight Hm Hsel Hvis.
  destruct (polygonCorners_plane value (polygonHeight e) Hvalue Hheight)
    as [Hrange [Hcorners Hplane]].
  destruct (width_slider_layer e value original l m Hgpu Hdistinct Hrt Horig Hvalue
              Hheight Hm Hsel Hvis) as [e' [He' [Hwidth [_ [Hpoly Hlayer]]]]].
  unfold polygons in Hpoly. injection Hpoly as Hwork Hkept.
  exists e'. eexists.
  split; [exact He'|]. split; [exact Hwidth|]. split; [exact Hwork|].
  split; [exact Hkept|]. split; [exact Hcorners|]. split; [reflexivity|].
  split; [exact Hrange|]. split; [apply Hplane; exact Hwork|].
  split; [exact Hlayer|].
  rewrite Hdir, clipGeometry_spec. cbn [THREE.position].
  apply filter_ext. intros vertex.
  apply (shouldShow_horizontal (rectangleHeight value (polygonHeight e)) vertex).
Qed.

Lemma editorRRealtime_uuidsDistinct : uuidsDistinct (globe editorRRealtime).
Proof.
  intros l1 l2 m1 m2 Hne H1 H2.
  destruct l1, l2; try contradiction; simpl in H1, H2; discriminate.
Qed.

(** Witness of X19: the width slider is put at 30 on the editor with
    real-time clipping on, whose crust has vertices above and below the
    rectangle. *)
Lemma width_slider_reclips_below_the_rectangle_witness :
  renderer_isWebGPURenderer (globe editorRRealtime) = true
  /\ uuidsDistinct (globe editorRRealtime)
  /\ realtimeClipping (globe editorRRealtime) = true
  /\ clippingDirection (globe editorRRealtime) = "inside"
  /\ originalPolygonPoints (globe editorRRealtime) = Some squareR
  /\ 0 < 30
  /\ 0 < polygonHeight editorRRealtime
  /\ getLayer (globe editorRRealtime) Crust = Some crustRHeights
  /\ clipChecked (globe editorRRealtime) Crust = true
  /\ THREE.visible crustRHeights = true
  /\ exists e' g',
       onEvent (PolygonWidthInput 30) editorRRealtime = Some e'
       /\ polygonWidth e' = 30
       /\ clippingPolygon (globe e')
          = Some (polygonCorners 30 (polygonHeight editorRRealtime))
       /\ originalPolygonPoints (globe e')
          = Some (polygonCorners 30 (polygonHeight editorRRealtime))
       /\ Forall (fun corner =>
                   THREE.vz corner = rectangleHeight 30 (polygonHeight editorRRealtime))
            (polygonCorners 30 (polygonHeight editorRRealtime))
       /\ rectangleHeight 30 (polygonHeight editorRRealtime)
          = 4 * (80 / R_sqrt.sqrt (80 * (30 / 50) / 2 * (80 * (30 / 50) / 2)
                                   + 80 * (polygonHeight editorRRealtime / 50) / 2
                                     * (80 * (polygonHeight editorRRealtime / 50) / 2)
                                   + 16))
       /\ 0 < rectangleHeight 30 (polygonHeight editorRRealtime) < 80
       /\ calculateClippingPlane (globe e')
          = Some (mkClippingPlane (rvec 0 0 1)
                    (- rectangleHeight 30 (polygonHeight editorRRealtime)))
       /\ layerGeometry (globe e') Crust = Some g'
       /\ THREE.position g'
          = List.filter
              (fun vertex =>
                 Rltb (THREE.vz vertex) (rectangleHeight 30 (polygonHeight editorRRealtime)))
              (THREE.position (pristineOf (globe editorRRealtime) crustRHeights)).
Proof.
  split; [reflexivity|]. split; [exact editorRRealtime_uuidsDistinct|].
  split; [reflexivity|]. split; [reflexivity|]. split; [reflexivity|].
  split; [lra|]. split; [simpl; lra|]. split; [reflexivity|].
  split; [reflexivity|]. split; [reflexivity|].
  apply (width_slider_reclips_below_the_rectangle editorRRealtime 30 squareR Crust
           crustRHeights);
    [reflexivity|exact editorRRealtime_uuidsDistinct|reflexivity|reflexivity
    |reflexivity|lra|simpl; lra|reflexivity|reflexivity|reflexivity].
Defined.

(** On that crust the slider at 30 puts the rectangle at a height between
    0 and 40: the vertices at the heights 50 and 40 go, those at 0 and
    -50 stay, and the one triangle between the vertices that stay and a
    vertex that goes is dropped with it. *)
Example width_slider_on_crustRHeights :
  exists e',
    onEvent (PolygonWidthInput 30) editorRRealtime = Some e'
    /\ 0 < rectangleHeight 30 50 < 40
    /\ layerGeometry (globe e') Crust
       = Some (THREE.mkBufferGeometry [rvec 0 50 0; rvec 0 0 (-50)] None).
Proof.
  destruct (width_slider_layer editorRRealtime 30 squareR Crust crustRHeights)
    as [e' [He' [_ [_ [_ Hlayer]]]]];
    [reflexivity|exact editorRRealtime_uuidsDistinct|reflexivity|reflexivity
    |lra|simpl; lra|reflexivity|reflexivity|reflexivity|].
  assert (Hrange : 0 < rectangleHeight 30 50 < 40).
  { unfold rectangleHeight. cbv zeta.
    set (q := 80 * (30 / 50) / 2 * (80 * (30 / 50) / 2)
              + 80 * (50 / 50) / 2 * (80 * (50 / 50) / 2) + 16).
    assert (Hq : q = 2192) by (unfold q; field).
    assert (HL : 8 < R_sqrt.sqrt q).
    { replace 8 with (R_sqrt.sqrt 64) by (apply sqrt_lem_1; lra).
      apply sqrt_lt_1_alt. lra. }
    clearbody q. split.
    - apply Rmult_lt_0_compat; [lra|].
      apply Rmult_lt_0_compat; [lra|apply Rinv_0_lt_compat; lra].
    - apply (Rmult_lt_reg_r (R_sqrt.sqrt q)); [lra|].
      replace (4 * (80 / R_sqrt.sqrt q) * R_sqrt.sqrt q) with 320 by (field; lra).
      lra. }
  exists e'. split; [exact He'|]. split; [exact Hrange|].
  rewrite Hlayer. f_equal.
  change (polygonHeight editorRRealtime) with 50.
  set (h := rectangleHeight 30 50) in *. clearbody h.
  assert (Hshow : forall z x y,
            shouldShow "inside" (mkClippingPlane (rvec 0 0 1) (- h)) (rvec x y z)
            = Rltb z h).
  { intros z x y. apply (shouldShow_horizontal h (rvec x y z)). }
  rewrite clipGeometry_spec.
  change (clippingDirection (globe editorRRealtime)) with "inside".
  change (pristineOf (globe editorRRealtime) crustRHeights)
    with (THREE.geometry crustRHeights).
  unfold vertexVisibilityOf.
  cbn [crustRHeights THREE.geometry THREE.position THREE.index indexArray map
       List.filter triangles].
  rewrite !Hshow.
  rewrite (proj2 (Rltb_false 50 h)) by lra.
  rewrite (proj2 (Rltb_true 0 h)) by lra.
  rewrite (proj2 (Rltb_false 40 h)) by lra.
  rewrite (proj2 (Rltb_true (-50) h)) by lra.
  reflexivity.
Qed.

End RealTimeResize.

(* ------------------------------------------------------------------ *)
(** ** The two recomputations of the working polygon, over the reals *)
(* ------------------------------------------------------------------ *)

Section RealTransform.
Local Open Scope R_scope.

Lemma forEachPoint_ext (body body' : THREE.Vector3 R -> THREE.Vector3 R)
    (original : list (THREE.Vector3 R)) :
  (forall p, body p = body' p) ->
  forall working index,
    forEachPoint body working original index = forEachPoint body' working original index.
Proof.
  intros Hext. induction working as [|p rest IH]; intros index; [reflexivity|].
  cbn [forEachPoint]. destruct (original !! index); [|reflexivity].
  rewrite IH, Hext. reflexivity.
Qed.

(** The body of the loop of [updatePolygonTransform] and that of
    [updatePolygonPosition] test different sliders for zero, and give
    the same point. *)
Lemma transformedPoint_positionedPoint (s : App R) (p : THREE.Vector3 R) :
  transformedPoint s p = positionedPoint s p.
Proof.
  unfold transformedPoint, positionedPoint. cbv zeta.
  change (@feqb R R_Number) with Reqb. unfold lit. cbn [fofZ R_Number].
  unfold Reqb.
  destruct (Req_dec_T (polygonPosition s) 0) as [Hpos|Hpos],
           (Req_dec_T (polygonRotation s) 0) as [Hrot|Hrot]; cbn [negb].
  - rewrite Hpos, Hrot, moveAlong_zero, applyMatrix4_no_rotation. reflexivity.
  - rewrite Hpos, moveAlong_zero. reflexivity.
  - rewrite Hrot, applyMatrix4_no_rotation. reflexivity.
  - reflexivity.
Qed.

(** X20.  Over the reals the two recomputations of the working polygon are
    one function of the state: whichever of the four position and
    rotation controls is moved, the working points are the original
    points turned by the rotation slider and then moved by the position
    slider, and the same layers are clipped afterwards; where one throws
    the other throws. *)
Theorem updatePolygonTransform_is_updatePolygonPosition (s : App R) :
  updatePolygonTransform s = updatePolygonPosition s.
Proof.
  unfold updatePolygonTransform, updatePolygonPosition.
  destruct (originalPolygonPoints s) as [original|]; [|reflexivity].
  destruct (clippingPolygon s) as [working|]; [|reflexivity].
  rewrite (forEachPoint_ext (transformedPoint s) (positionedPoint s) original
             (transformedPoint_positionedPoint s)).
  reflexivity.
Qed.

(** A rotation about a coordinate axis keeps the distance to the
    centre. *)
Lemma applyMatrix4_rotation_length (axis : string) (angle : R) (p : THREE.Vector3 R) :
  THREE.length (THREE.applyMatrix4 p (rotationMatrixFor axis angle)) = THREE.length p.
Proof.
  pose proof (sin2_cos2 angle) as Hsc. unfold Rsqr in Hsc.
  destruct p as [x y z]. unfold rotationMatrixFor, THREE.length.
  destruct (String.eqb axis "x"); [|destruct (String.eqb axis "y");
    [|destruct (String.eqb axis "z")]];
    unfold THREE.applyMatrix4, THREE.makeRotationX, THREE.makeRotationY,
      THREE.makeRotationZ, THREE.identity, lit; simpl;
    f_equal;
    set (c := cos angle) in *; set (sn := sin angle) in *.
  - replace ((1 * x + 0 * y + 0 * z + 0) * (1 / (0 * x + 0 * y + 0 * z + 1))) with x
      by (field; lra).
    replace ((0 * x + c * y + - sn * z + 0) * (1 / (0 * x + 0 * y + 0 * z + 1)))
      with (c * y - sn * z) by (field; lra).
    replace ((0 * x + sn * y + c * z + 0) * (1 / (0 * x + 0 * y + 0 * z + 1)))
      with (sn * y + c * z) by (field; lra).
    replace (x * x + (c * y - sn * z) * (c * y - sn * z) + (sn * y + c * z) * (sn * y + c * z))
      with (x * x + (sn * sn + c * c) * (y * y + z * z)) by ring.
    rewrite Hsc. ring.
  - replace ((c * x + 0 * y + sn * z + 0) * (1 / (0 * x + 0 * y + 0 * z + 1)))
      with (c * x + sn * z) by (field; lra).
    replace ((0 * x + 1 * y + 0 * z + 0) * (1 / (0 * x + 0 * y + 0 * z + 1))) with y
      by (field; lra).
    replace ((- sn * x + 0 * y + c * z + 0) * (1 / (0 * x + 0 * y + 0 * z + 1)))
      with (c * z - sn * x) by (field; lra).
    replace ((c * x + sn * z) * (c * x + sn * z) + y * y + (c * z - sn * x) * (c * z - sn * x))
      with (y * y + (sn * sn + c * c) * (x * x + z * z)) by ring.
    rewrite Hsc. ring.
  - replace ((c * x + - sn * y + 0 * z + 0) * (1 / (0 * x + 0 * y + 0 * z + 1)))
      with (c * x - sn * y) by (field; lra).
    replace ((sn * x + c * y + 0 * z + 0) * (1 / (0 * x + 0 * y + 0 * z + 1)))
      with (sn * x + c * y) by (field; lra).
    replace ((0 * x + 0 * y + 1 * z + 0) * (1 / (0 * x + 0 * y + 0 * z + 1))) with z
      by (field; lra).
    replace ((c * x - sn * y) * (c * x - sn * y) + (sn * x + c * y) * (sn * x + c * y) + z * z)
      with (z * z + (sn * sn + c * c) * (x * x + y * y)) by ring.
    rewrite Hsc. ring.
  - replace ((1 * x + 0 * y + 0 * z + 0) * (1 / (0 * x + 0 * y + 0 * z + 1))) with x
      by (field; lra).
    replace ((0 * x + 1 * y + 0 * z + 0) * (1 / (0 * x + 0 * y + 0 * z + 1))) with y
      by (field; lra).
    replace ((0 * x + 0 * y + 1 * z + 0) * (1 / (0 * x + 0 * y + 0 * z + 1))) with z
      by (field; lra).
    reflexivity.
Qed.

(** A move along a coordinate axis displaces the point by the size of
    the move; along any other axis name the point stays. *)
Lemma moveAlong_distance (axis : string) (amount : R) (p : THREE.Vector3 R) :
  THREE.distanceTo (moveAlong axis amount p) p
  = if String.eqb axis "x" || String.eqb axis "y" || String.eqb axis "z"
    then Rabs amount else 0.
Proof.
  destruct p as [x y z]. unfold moveAlong, THREE.distanceTo.
  destruct (String.eqb axis "x"); [|destruct (String.eqb axis "y");
    [|destruct (String.eqb axis "z")]]; simpl;
    apply sqrt_lem_1; try apply sum_of_squares_nonneg; try apply Rabs_pos; try lra;
    rewrite ?Rabs_square; ring.
Qed.

(** The product of a point with the matrix of a rotation about a
    coordinate axis, written out. *)
Lemma applyMatrix4_rotation_explicit (axis : string) (angle : R) (p : THREE.Vector3 R) :
  THREE.applyMatrix4 p (rotationMatrixFor axis angle)
  = if String.eqb axis "x"
    then rvec (THREE.vx p)
              (cos angle * THREE.vy p - sin angle * THREE.vz p)
              (sin angle * THREE.vy p + cos angle * THREE.vz p)
    else if String.eqb axis "y"
    then rvec (cos angle * THREE.vx p + sin angle * THREE.vz p)
              (THREE.vy p)
              (- sin angle * THREE.vx p + cos angle * THREE.vz p)
    else if String.eqb axis "z"
    then rvec (cos angle * THREE.vx p - sin angle * THREE.vy p)
              (sin angle * THREE.vx p + cos angle * THREE.vy p)
              (THREE.vz p)
    else p.
Proof.
  destruct p as [x y z]. unfold rotationMatrixFor.
  destruct (String.eqb axis "x"); [|destruct (String.eqb axis "y");
    [|destruct (String.eqb axis "z")]];
    unfold THREE.applyMatrix4, THREE.makeRotationX, THREE.makeRotationY,
      THREE.makeRotationZ, THREE.identity, lit, rvec; simpl;
    f_equal; field; lra.
Qed.

Lemma moveAlong_explicit (axis : string) (amount : R) (p : THREE.Vector3 R) :
  moveAlong axis amount p
  = if String.eqb axis "x"
    then rvec (THREE.vx p + amount) (THREE.vy p) (THREE.vz p)
    else if String.eqb axis "y"
    then rvec (THREE.vx p) (THREE.vy p + amount) (THREE.vz p)
    else if String.eqb axis "z"
    then rvec (THREE.vx p) (THREE.vy p) (THREE.vz p + amount)
    else p.
Proof. reflexivity. Qed.

(** The body of the loop of [updatePolygonTransform], written out: a
    turn by the rotation slider about the rotation axis, then a move by
    the position slider along the position axis. *)
Lemma transformedPoint_turns_then_moves (s : App R) (p : THREE.Vector3 R) :
  let turned :=
    THREE.applyMatrix4 p
      (rotationMatrixFor (polygonRotationAxis s) (polygonRotation s * PI / 180)) in
  transformedPoint s p = moveAlong (polygonAxis s) (polygonPosition s) turned
  /\ THREE.length turned = THREE.length p
  /\ THREE.distanceTo (transformedPoint s p) turned
     = (if String.eqb (polygonAxis s) "x" || String.eqb (polygonAxis s) "y"
           || String.eqb (polygonAxis s) "z"
        then Rabs (polygonPosition s) else 0)
  /\ (polygonPosition s = 0 -> transformedPoint s p = turned).
Proof.
  cbv zeta.
  assert (Hbody : transformedPoint s p
                  = moveAlong (polygonAxis s) (polygonPosition s)
                      (THREE.applyMatrix4 p
                         (rotationMatrixFor (polygonRotationAxis s)
                            (polygonRotation s * PI / 180)))).
  { unfold transformedPoint. cbv zeta.
    change (@feqb R R_Number) with Reqb. unfold lit. cbn [fofZ R_Number]. unfold Reqb.
    change (rotationRadiansOf (polygonRotation s)) with (polygonRotation s * PI / 180).
    destruct (Req_dec_T (polygonPosition s) 0) as [Hpos|Hpos]; cbn [negb];
      [rewrite Hpos, moveAlong_zero|]; reflexivity. }
  split; [exact Hbody|]. split; [apply applyMatrix4_rotation_length|].
  rewrite Hbody. split; [apply moveAlong_distance|].
  intros ->. apply moveAlong_zero.
Qed.

(** X21.  Over the reals, a recomputation of the working polygon turns each
    original point by the angle of the rotation slider (in degrees)
    about the rotation axis, which keeps its distance to the centre,
    and then adds the position slider to its coordinate on the position
    axis, which displaces it by the absolute value of the slider; an
    axis name other than x, y, z turns, or moves, nothing.  With the
    position slider at zero every working point is as far from the
    centre as its original. *)
Theorem updatePolygonTransform_turns_then_moves
    (s : App R) (original working : list (THREE.Vector3 R)) :
  originalPolygonPoints s = Some original ->
  clippingPolygon s = Some working ->
  List.length working = List.length original ->
  exists s' working',
    updatePolygonTransform s = Some s'
    /\ clippingPolygon s' = Some working'
    /\ Forall2
         (fun new old =>
            let angle := polygonRotation s * PI / 180 in
            let turned :=
              if String.eqb (polygonRotationAxis s) "x"
              then rvec (THREE.vx old)
                        (cos angle * THREE.vy old - sin angle * THREE.vz old)
                        (sin angle * THREE.vy old + cos angle * THREE.vz old)
              else if String.eqb (polygonRotationAxis s) "y"
              then rvec (cos angle * THREE.vx old + sin angle * THREE.vz old)
                        (THREE.vy old)
                        (- sin angle * THREE.vx old + cos angle * THREE.vz old)
              else if String.eqb (polygonRotationAxis s) "z"
              then rvec (cos angle * THREE.vx old - sin angle * THREE.vy old)
                        (sin angle * THREE.vx old + cos angle * THREE.vy old)
                        (THREE.vz old)
              else old in
            new = (if String.eqb (polygonAxis s) "x"
                   then rvec (THREE.vx turned + polygonPosition s) (THREE.vy turned)
                             (THREE.vz turned)
                   else if String.eqb (polygonAxis s) "y"
                   then rvec (THREE.vx turned) (THREE.vy turned + polygonPosition s)
                             (THREE.vz turned)
                   else if String.eqb (polygonAxis s) "z"
                   then rvec (THREE.vx turned) (THREE.vy turned)
                             (THREE.vz turned + polygonPosition s)
                   else turned)
            /\ THREE.length turned = THREE.length old
            /\ THREE.distanceTo new turned
               = (if String.eqb (polygonAxis s) "x" || String.eqb (polygonAxis s) "y"
                     || String.eqb (polygonAxis s) "z"
                  then Rabs (polygonPosition s) else 0)
            /\ (polygonPosition s = 0 -> THREE.length new = THREE.length old))
         working' original.
Proof.
  intros Horig Hwork Hlen.
  destruct (updatePolygonTransform_spec s original working Horig Hwork Hlen)
    as [s' [Hs' [Hpoly _]]].
  exists s', (map (transformedPoint s) original).
  split; [exact Hs'|]. split; [exact Hpoly|].
  clear. induction original as [|old rest IH]; [constructor|].
  cbn [map]. constructor; [|exact IH].
  destruct (transformedPoint_turns_then_moves s old) as [Hbody [Hlen [Hdist Hzero]]].
  cbv zeta.
  rewrite <- (applyMatrix4_rotation_explicit (polygonRotationAxis s)
                (polygonRotation s * PI / 180) old).
  rewrite <- moveAlong_explicit.
  split; [exact Hbody|]. split; [exact Hlen|]. split; [exact Hdist|].
  intros Hpos. rewrite (Hzero Hpos). exact Hlen.
Qed.

(** Witness of X21: the default square turned by 30 degrees about [x] and
    moved by 5 along [y]. *)
Lemma updatePolygonTransform_turns_then_moves_witness :
  originalPolygonPoints appRTurned = Some squareR
  /\ clippingPolygon appRTurned = Some squareR
  /\ List.length squareR = List.length squareR
  /\ exists s' working',
       updatePolygonTransform appRTurned = Some s'
       /\ clippingPolygon s' = Some working'
       /\ Forall2
            (fun new old =>
               let angle := polygonRotation appRTurned * PI / 180 in
               let turned :=
                 if String.eqb (polygonRotationAxis appRTurned) "x"
                 then rvec (THREE.vx old)
                           (cos angle * THREE.vy old - sin angle * THREE.vz old)
                           (sin angle * THREE.vy old + cos angle * THREE.vz old)
                 else if String.eqb (polygonRotationAxis appRTurned) "y"
                 then rvec (cos angle * THREE.vx old + sin angle * THREE.vz old)
                           (THREE.vy old)
                           (- sin angle * THREE.vx old + cos angle * THREE.vz old)
                 else if String.eqb (polygonRotationAxis appRTurned) "z"
                 then rvec (cos angle * THREE.vx old - sin angle * THREE.vy old)
                           (sin angle * THREE.vx old + cos angle * THREE.vy old)
                           (THREE.vz old)
                 else old in
               new = (if String.eqb (polygonAxis appRTurned) "x"
                      then rvec (THREE.vx turned + polygonPosition appRTurned) (THREE.vy turned)
                                (THREE.vz turned)
                      else if String.eqb (polygonAxis appRTurned) "y"
                      then rvec (THREE.vx turned) (THREE.vy turned + polygonPosition appRTurned)
                                (THREE.vz turned)
                      else if String.eqb (polygonAxis appRTurned) "z"
                      then rvec (THREE.vx turned) (THREE.vy turned)
                                (THREE.vz turned + polygonPosition appRTurned)
                      else turned)
               /\ THREE.length turned = THREE.length old
               /\ THREE.distanceTo new turned
                  = (if String.eqb (polygonAxis appRTurned) "x"
                        || String.eqb (polygonAxis appRTurned) "y"
                        || String.eqb (polygonAxis appRTurned) "z"
                     then Rabs (polygonPosition appRTurned) else 0)
               /\ (polygonPosition appRTurned = 0 -> THREE.length new = THREE.length old))
            working' squareR.
Proof.
  split; [reflexivity|]. split; [reflexivity|]. split; [reflexivity|].
  apply (updatePolygonTransform_turns_then_moves appRTurned squareR squareR); reflexivity.
Defined.

End RealTransform.
